(** * A shallow embedding of the full-stack code generator (generator.js)

    The generator is a straight-line Node script: it parses its options,
    loads a JSON schema, clears the output directory, creates a directory
    skeleton and then calls [render] once per planned artifact.  This file
    embeds the script and its sibling variant, and states the properties
    of the naming helpers, of the feature-flag resolution and of the
    artifact plan as theorems over the embedding. *)

From Stdlib Require Import Bool Arith Lia List ZArith Ascii String.
From Stdlib Require Import DecimalString DecimalZ DecimalPos.
Import ListNotations.

Local Open Scope list_scope.
Local Open Scope string_scope.

(* ------------------------------------------------------------------ *)
(** ** Strings                                                          *)
(* ------------------------------------------------------------------ *)

(** JavaScript strings are modelled by [string]; a character stands for
    the code unit with the same number (0..255).  Strings with other
    code units are outside the model. *)
Module Str.

Fixpoint map (f : ascii -> ascii) (s : string) : string :=
  match s with
  | EmptyString => EmptyString
  | String c s' => String (f c) (map f s')
  end.

(** [s.slice(1)] *)
Definition slice1 (s : string) : string :=
  match s with
  | EmptyString => EmptyString
  | String _ s' => s'
  end.

(** [s.startsWith(p)], returning what follows the prefix. *)
Fixpoint strip (p s : string) : option string :=
  match p with
  | EmptyString => Some s
  | String a p' =>
      match s with
      | EmptyString => None
      | String b s' => if Ascii.eqb a b then strip p' s' else None
      end
  end.

Definition startsWith (p s : string) : bool :=
  match strip p s with Some _ => true | None => false end.

End Str.

(* ------------------------------------------------------------------ *)
(** ** Characters                                                       *)
(* ------------------------------------------------------------------ *)

Module Chr.

Definition between (lo hi : nat) (c : ascii) : bool :=
  let n := nat_of_ascii c in ((lo <=? n) && (n <=? hi))%nat.

(** the class [[A-Z]] *)
Definition isUpperAZ (c : ascii) : bool := between 65 90 c.
(** the class [[a-z]] *)
Definition isLowerAZ (c : ascii) : bool := between 97 122 c.
Definition isDigit (c : ascii) : bool := between 48 57 c.
(** the class [\w], that is [[A-Za-z0-9_]] *)
Definition isWord (c : ascii) : bool :=
  isUpperAZ c || isLowerAZ c || isDigit c || Ascii.eqb c "_".
Definition isHyphen (c : ascii) : bool := Ascii.eqb c "-".

(** [toUpperCase] on one character of the class [\w]: the only use the
    script makes of it. *)
Definition upper (c : ascii) : ascii :=
  if isLowerAZ c then ascii_of_nat (nat_of_ascii c - 32) else c.

(** [toLowerCase] on one code unit below 256: the letters A-Z and the
    Latin-1 capitals (0xC0-0xDE without the multiplication sign 0xD7)
    move up by 32, every other code unit is kept. *)
Definition lower (c : ascii) : ascii :=
  if isUpperAZ c || (between 192 222 c && negb (nat_of_ascii c =? 215)%nat)
  then ascii_of_nat (nat_of_ascii c + 32) else c.

End Chr.

(** Completion of a JavaScript expression: a value or a thrown error. *)
Inductive JsError : Type :=
| TypeError
| SyntaxError
| SystemError.

Inductive Completion (A : Type) : Type :=
| Normal (a : A)
| Throw (e : JsError).
Arguments Normal {A} a.
Arguments Throw {A} e.

(* ------------------------------------------------------------------ *)
(** ** Helpers: toPascal, toCamel, toKebab                              *)
(* ------------------------------------------------------------------ *)

(** The scan of [/(^\w|-\w)/g] after the first position, where only the
    alternative [-\w] can match: a hyphen followed by a word character
    is replaced by that character in upper case, and the scan resumes
    behind the match. *)
Fixpoint pascalRest (s : string) : string :=
  match s with
  | EmptyString => EmptyString
  | String c s' =>
      match s' with
      | String d s'' =>
          if Chr.isHyphen c && Chr.isWord d
          then String (Chr.upper d) (pascalRest s'')
          else String c (pascalRest s')
      | EmptyString => String c EmptyString
      end
  end.

(** [s => s.replace(/(^\w|-\w)/g, c => c.replace('-', '').toUpperCase())] *)
Definition toPascal (s : string) : string :=
  match s with
  | EmptyString => EmptyString
  | String c s' =>
      if Chr.isWord c then String (Chr.upper c) (pascalRest s')
      else pascalRest s
  end.

(** [s.replace(/([A-Z])/g, '-$1')] *)
Fixpoint hyphenate (s : string) : string :=
  match s with
  | EmptyString => EmptyString
  | String c s' =>
      if Chr.isUpperAZ c then String "-" (String c (hyphenate s'))
      else String c (hyphenate s')
  end.

Definition toLowerCase (s : string) : string := Str.map Chr.lower s.

(** [s => s.replace(/([A-Z])/g, '-$1').toLowerCase()] *)
Definition toKebab (s : string) : string := toLowerCase (hyphenate s).

(** [s => s[0].toLowerCase() + toPascal(s).slice(1)]: on the empty string
    [s[0]] is [undefined] and the method call throws. *)
Definition toCamel (s : string) : Completion string :=
  match s with
  | EmptyString => Throw TypeError
  | String c _ => Normal (String (Chr.lower c) (Str.slice1 (toPascal s)))
  end.

(** A name that [toPascal] leaves alone: it does not start with a letter
    of [[a-z]] and no hyphen stands directly before a word character. *)
Fixpoint hyphenBeforeWord (s : string) : bool :=
  match s with
  | EmptyString => false
  | String c s' =>
      match s' with
      | String d _ => (Chr.isHyphen c && Chr.isWord d) || hyphenBeforeWord s'
      | EmptyString => false
      end
  end.

Definition startsLower (s : string) : bool :=
  match s with
  | EmptyString => false
  | String c _ => Chr.isLowerAZ c
  end.

Definition pascalShaped (s : string) : bool :=
  negb (startsLower s) && negb (hyphenBeforeWord s).

(** Every pair of neighbours: a hyphen before a word character stands
    before a letter of [[a-z]]. *)
Fixpoint hyphensBeforeLower (s : string) : bool :=
  match s with
  | EmptyString => true
  | String c s' =>
      match s' with
      | String d _ =>
          (negb (Chr.isHyphen c && Chr.isWord d) || Chr.isLowerAZ d)
          && hyphensBeforeLower s'
      | EmptyString => true
      end
  end.

(** The names on which a trip through [toPascal] does not change the
    kebab form. *)
Definition kebabStable (s : string) : bool :=
  negb (startsLower s) && hyphensBeforeLower s.


(* ------------------------------------------------------------------ *)
(** ** Values, schema and options                                       *)
(* ------------------------------------------------------------------ *)

(** The scalar values a schema field can hold after [JSON.parse];
    [JUndefined] is what reading an absent property gives. *)
Inductive JsValue : Type :=
| JUndefined
| JNull
| JBool (b : bool)
| JNum (z : Z)
| JStr (s : string).

(** The test of [if (v)]. *)
Definition truthy (v : JsValue) : bool :=
  match v with
  | JUndefined => false
  | JNull => false
  | JBool b => b
  | JNum z => negb (z =? 0)%Z
  | JStr s => negb (s =? "")
  end.

(** A default in a destructuring pattern, [{ x = d } = obj]: the default
    is taken exactly when the property reads [undefined]. *)
Definition orDefault (v d : JsValue) : JsValue :=
  match v with
  | JUndefined => d
  | _ => v
  end.

Record Entity : Type := mkEntity {
  name : string;
  tableName : string
}.

(** The parsed schema object, with the properties the script reads. *)
Module Schema.
Record t : Type := mk {
  projectName : JsValue;
  database : JsValue;
  dbDev : JsValue;
  dbTest : JsValue;
  authEntity : JsValue;
  entities : option (list Entity);
  graphql : JsValue;
  docker : JsValue;
  ci : JsValue;
  terraform : JsValue;
  adminPanel : JsValue
}.
End Schema.

(** The constants of lines 28-34: the two resolved paths and the five
    command-line flags. *)
Record Options : Type := mkOptions {
  schemaPath : string;
  outDir : string;
  enableGraphQL : bool;
  enableDocker : bool;
  enableCI : bool;
  enableTerraform : bool;
  enableAdmin : bool
}.

(** The defaults declared with [program.option]. *)
Definition defaultOptions (schemaPath outDir : string) : Options :=
  {| schemaPath := schemaPath; outDir := outDir;
     enableGraphQL := false; enableDocker := true; enableCI := true;
     enableTerraform := true; enableAdmin := true |}.

(** The destructuring of the schema (lines 41-53). *)
Section Destructuring.
Variables (o : Options) (schema : Schema.t).

Definition projectName : JsValue := Schema.projectName schema.
Definition database : JsValue := orDefault (Schema.database schema) (JStr "postgres").
Definition dbDev : JsValue := orDefault (Schema.dbDev schema) (JStr "sqlite").
Definition dbTest : JsValue := orDefault (Schema.dbTest schema) (JStr "sqlite").
Definition authEntity : JsValue := Schema.authEntity schema.
Definition entities : list Entity :=
  match Schema.entities schema with
  | Some l => l
  | None => []
  end.
Definition graphql : JsValue := orDefault (Schema.graphql schema) (JBool (enableGraphQL o)).
Definition docker : JsValue := orDefault (Schema.docker schema) (JBool (enableDocker o)).
Definition ci : JsValue := orDefault (Schema.ci schema) (JBool (enableCI o)).
Definition terraform : JsValue := orDefault (Schema.terraform schema) (JBool (enableTerraform o)).
Definition adminPanel : JsValue := orDefault (Schema.adminPanel schema) (JBool (enableAdmin o)).

End Destructuring.

(** The five feature flags, to speak of them uniformly. *)
Inductive Flag : Type := FGraphql | FDocker | FCi | FTerraform | FAdminPanel.

Definition schemaField (f : Flag) (schema : Schema.t) : JsValue :=
  match f with
  | FGraphql => Schema.graphql schema
  | FDocker => Schema.docker schema
  | FCi => Schema.ci schema
  | FTerraform => Schema.terraform schema
  | FAdminPanel => Schema.adminPanel schema
  end.

Definition commandLine (f : Flag) (o : Options) : bool :=
  match f with
  | FGraphql => enableGraphQL o
  | FDocker => enableDocker o
  | FCi => enableCI o
  | FTerraform => enableTerraform o
  | FAdminPanel => enableAdmin o
  end.

Definition resolved (f : Flag) (o : Options) (schema : Schema.t) : JsValue :=
  match f with
  | FGraphql => graphql o schema
  | FDocker => docker o schema
  | FCi => ci o schema
  | FTerraform => terraform o schema
  | FAdminPanel => adminPanel o schema
  end.

(* ------------------------------------------------------------------ *)
(** ** Artifacts, events and the script monad                          *)
(* ------------------------------------------------------------------ *)

(** A value handed to a template. *)
Inductive CtxVal : Type :=
| CVal (v : JsValue)
| CFlag (b : bool)
| CStr (s : string)
| CSchema (s : Schema.t)
| CEnt (e : Entity)
| CEntities (l : list Entity).

Definition Context : Type := list (string * CtxVal).

(** One call [render(src, dest, data)]. *)
Record Artifact : Type := mkArtifact {
  templateId : string;
  destinationPath : string;
  context : Context
}.

(** What the script does to the outside, in the order it does it. *)
Inductive Event : Type :=
| ConsoleError (msg : string)
| ConsoleLog (msg : string)
| EmptyDir (dir : string)
| EnsureDir (dir : string)
| Render (a : Artifact).

(** How a run of the script stops short. *)
Inductive Halt : Type :=
| Exit (code : nat)
| Uncaught (e : JsError).

Inductive Step (A : Type) : Type :=
| Done (a : A)
| Halted (h : Halt).
Arguments Done {A} a.
Arguments Halted {A} h.

(** The host: the files [fs] sees, [JSON.parse] followed by the reading
    of the schema's properties, and the successive readings of the
    system clock ([clock n] is what the [n]-th call of [Date.now()]
    returns, counting from 0).  A parsed value is a [Schema.t]: a text
    whose [entities] is neither absent nor an array of objects with a
    string [name] and a string [tableName] has no image here, and what
    the script does on it after the schema is loaded is outside the
    model. *)
Record Host : Type := mkHost {
  files : string -> option string;
  JSON_parse : string -> Completion Schema.t;
  clock : nat -> Z
}.

(** A computation reads how many times the clock was read before it,
    and gives its result, the new count and the events it emitted. *)
Record Out (A : Type) : Type := mkOut {
  result : Step A;
  ticks : nat;
  emitted : list Event
}.
Arguments mkOut {A} result ticks emitted.
Arguments result {A} o.
Arguments ticks {A} o.
Arguments emitted {A} o.

Definition M (A : Type) : Type := nat -> Out A.

Definition ret {A : Type} (a : A) : M A := fun t => mkOut (Done a) t [].

Definition bind {A B : Type} (m : M A) (f : A -> M B) : M B :=
  fun t =>
    match m t with
    | mkOut (Done a) t1 e1 =>
        match f a t1 with
        | mkOut r t2 e2 => mkOut r t2 (e1 ++ e2)
        end
    | mkOut (Halted h) t1 e1 => mkOut (Halted h) t1 e1
    end.

Notation "x <- m ;; k" := (bind m (fun x => k))
  (at level 61, m at next level, right associativity).
Notation "m ;; k" := (bind m (fun _ => k))
  (at level 61, right associativity).

Definition emit (e : Event) : M unit := fun t => mkOut (Done tt) t [e].
Definition halt {A : Type} (h : Halt) : M A := fun t => mkOut (Halted h) t [].

Definition when (b : bool) (m : M unit) : M unit := if b then m else ret tt.

(** [for (const x of l) body] *)
Fixpoint forOf {A : Type} (l : list A) (body : A -> M unit) : M unit :=
  match l with
  | [] => ret tt
  | x :: l' => body x ;; forOf l' body
  end.

(** A thrown error that nothing catches ends the script. *)
Definition lift {A : Type} (c : Completion A) : M A :=
  match c with
  | Normal a => ret a
  | Throw e => halt (Uncaught e)
  end.

Definition console_error (msg : string) : M unit := emit (ConsoleError msg).
Definition console_log (msg : string) : M unit := emit (ConsoleLog msg).
Definition process_exit {A : Type} (code : nat) : M A := halt (Exit code).
Definition emptyDirSync (dir : string) : M unit := emit (EmptyDir dir).
Definition ensureDirSync (dir : string) : M unit := emit (EnsureDir dir).
(** A call of [render] is recorded with its three arguments.  The
    promise it returns is never awaited: what the template does when it
    is rendered, and a rejection of that promise, are outside the
    model. *)
Definition render (src dest : string) (data : Context) : M unit :=
  emit (Render (mkArtifact src dest data)).
Definition Date_now (h : Host) : M Z := fun t => mkOut (Done (clock h t)) (S t) [].

Definition existsSync (h : Host) (p : string) : bool :=
  match files h p with Some _ => true | None => false end.

(** [fs.readFileSync(p, 'utf8')] throws a system error on a missing
    file; like every uncaught error it ends the script. *)
Definition readFileSync (h : Host) (p : string) : M string :=
  match files h p with
  | Some content => ret content
  | None => halt (Uncaught SystemError)
  end.

(** A number inside a template literal. *)
Definition showZ (z : Z) : string := NilZero.string_of_int (Z.to_int z).

(** [path.join(dir, seg)] for a directory that [path.resolve] returned
    (absolute, normalised, with a trailing separator only when it is the
    root) and a plain segment. *)
Definition path_join (dir seg : string) : string :=
  if dir =? "/" then "/" ++ seg else dir ++ "/" ++ seg.

Definition nl : string := String (ascii_of_nat 10) "".

(** The entities of a loop paired with the index of the clock reading
    each iteration makes, when the loop starts after [t] readings. *)
Definition indexedFrom {A : Type} (t : nat) (l : list A) : list (nat * A) :=
  combine (seq t (List.length l)) l.

(* ------------------------------------------------------------------ *)
(** ** The script: src/generator.js                                     *)
(* ------------------------------------------------------------------ *)

Module Generator.
Section Script.
Variables (h : Host) (o : Options).

Definition BACK : string := path_join (outDir o) "backend".
Definition FRONT : string := path_join (outDir o) "frontend".

(** Lines 74-87. *)
Definition dirs : list string :=
  [ BACK ++ "/src/models";
    BACK ++ "/src/controllers";
    BACK ++ "/src/routes";
    BACK ++ "/src/middleware";
    BACK ++ "/src/graphql";
    BACK ++ "/tests";
    BACK ++ "/uploads";
    FRONT ++ "/src/app/core";
    FRONT ++ "/src/app/features";
    FRONT ++ "/src/app/shared" ]
  ++ (if enableAdmin o
      then [FRONT ++ "/src/app/@theme/layouts"; FRONT ++ "/src/app/pages"]
      else [])
  ++ (if enableTerraform o then [outDir o ++ "/terraform"] else []).

Section Body.
Variable schema : Schema.t.

Let projectName := projectName schema.
Let dbDev := dbDev schema.
Let dbTest := dbTest schema.
Let authEntity := authEntity schema.
Let entities := entities schema.
Let docker := docker o schema.
Let ci := ci o schema.
Let terraform := terraform o schema.
Let outDir := outDir o.
Let enableGraphQL := enableGraphQL o.
Let enableDocker := enableDocker o.
Let enableCI := enableCI o.
Let enableTerraform := enableTerraform o.
Let enableAdmin := enableAdmin o.

(** Lines 93-106. *)
Definition rootFiles : M unit :=
  when (truthy docker) (
    render "docker/Dockerfile.backend" (BACK ++ "/Dockerfile")
      [("projectName", CVal projectName)] ;;
    render "docker/Dockerfile.frontend" (FRONT ++ "/Dockerfile")
      [("projectName", CVal projectName)] ;;
    render "docker/docker-compose.yml" (outDir ++ "/docker-compose.yml")
      [("projectName", CVal projectName); ("schema", CSchema schema)]) ;;
  when (truthy ci) (
    render "ci/github-workflow.yml" (outDir ++ "/.github/workflows/ci.yml")
      [("projectName", CVal projectName); ("enableTerraform", CFlag enableTerraform)]) ;;
  when (truthy terraform) (
    render "terraform/main.tf" (outDir ++ "/terraform/main.tf")
      [("projectName", CVal projectName); ("schema", CSchema schema)] ;;
    render "terraform/variables.tf" (outDir ++ "/terraform/variables.tf")
      [("projectName", CVal projectName)] ;;
    render "terraform/outputs.tf" (outDir ++ "/terraform/outputs.tf")
      [("projectName", CVal projectName)] ;;
    render "terraform/terraform.tfvars.example"
      (outDir ++ "/terraform/terraform.tfvars.example")
      [("projectName", CVal projectName)]).

(** Lines 111-119. *)
Definition backendFixed : M unit :=
  render "backend/package.json.ejs" (BACK ++ "/package.json")
    [("schema", CSchema schema); ("enableGraphQL", CFlag enableGraphQL);
     ("enableDocker", CFlag enableDocker); ("enableCI", CFlag enableCI);
     ("enableTerraform", CFlag enableTerraform); ("enableAdmin", CFlag enableAdmin)] ;;
  render "backend/tsconfig.json.ejs" (BACK ++ "/tsconfig.json") [] ;;
  render "backend/.env.example" (BACK ++ "/.env.example") [("schema", CSchema schema)] ;;
  render "backend/src/server.ts.ejs" (BACK ++ "/src/server.ts")
    [("schema", CSchema schema); ("enableGraphQL", CFlag enableGraphQL);
     ("enableAdmin", CFlag enableAdmin)] ;;
  render "backend/src/config/database.ts.ejs" (BACK ++ "/src/config/database.ts")
    [("dbDev", CVal dbDev); ("dbTest", CVal dbTest)] ;;
  render "backend/src/middleware/auth.ts.ejs" (BACK ++ "/src/middleware/auth.ts")
    [("authEntity", CVal authEntity)] ;;
  render "backend/src/middleware/upload.ts.ejs" (BACK ++ "/src/middleware/upload.ts") [] ;;
  render "backend/src/middleware/error.ts.ejs" (BACK ++ "/src/middleware/error.ts") [].

(** The body of the loop of lines 122-126. *)
Definition modelBody (ent : Entity) : M unit :=
  render "backend/src/models/model.ts.ejs" (BACK ++ "/src/models/" ++ ent.(name) ++ ".ts")
    [("ent", CEnt ent); ("schema", CSchema schema)] ;;
  now <- Date_now h ;;
  render "backend/migrations/create-table.ts.ejs"
    (BACK ++ "/migrations/" ++ showZ now ++ "-create-" ++ ent.(tableName) ++ ".ts")
    [("ent", CEnt ent)] ;;
  render "backend/tests/model.test.ts.ejs" (BACK ++ "/tests/" ++ ent.(name) ++ ".test.ts")
    [("ent", CEnt ent)].

(** The events of the loop of lines 122-126 when it starts after [t]
    readings of the clock: the bodies' events, each at its own reading. *)
Definition modelEvents (t : nat) : list Event :=
  flat_map (fun p => emitted (modelBody (snd p) (fst p))) (indexedFrom t entities).

(** The body of the loop of lines 129-134. *)
Definition controllerBody (ent : Entity) : M unit :=
  let name := ent.(name) in
  let kebab := toKebab name in
  render "backend/src/controllers/controller.ts.ejs"
    (BACK ++ "/src/controllers/" ++ name ++ "Controller.ts")
    [("ent", CEnt ent); ("schema", CSchema schema); ("enableGraphQL", CFlag enableGraphQL)] ;;
  render "backend/src/routes/route.ts.ejs" (BACK ++ "/src/routes/" ++ kebab ++ ".ts")
    [("ent", CEnt ent); ("schema", CSchema schema); ("enableGraphQL", CFlag enableGraphQL)].

(** Lines 122-126: models, migrations and tests. *)
Definition models : M unit := forOf entities modelBody.

(** Lines 129-135: controllers and routes. *)
Definition controllers : M unit :=
  forOf entities controllerBody ;;
  render "backend/src/routes/index.ts.ejs" (BACK ++ "/src/routes/index.ts")
    [("entities", CEntities entities); ("enableGraphQL", CFlag enableGraphQL)].

(** Lines 137-140. *)
Definition graphqlFiles : M unit :=
  when enableGraphQL (
    render "backend/src/graphql/typeDefs.ts.ejs" (BACK ++ "/src/graphql/typeDefs.ts")
      [("entities", CEntities entities)] ;;
    render "backend/src/graphql/resolvers.ts.ejs" (BACK ++ "/src/graphql/resolvers.ts")
      [("entities", CEntities entities); ("authEntity", CVal authEntity)]).

(** Lines 145-161. *)
Definition frontendFixed : M unit :=
  render "frontend/package.json.ejs" (FRONT ++ "/package.json")
    [("schema", CSchema schema); ("enableGraphQL", CFlag enableGraphQL);
     ("enableAdmin", CFlag enableAdmin)] ;;
  render "frontend/angular.json.ejs" (FRONT ++ "/angular.json")
    [("projectName", CVal projectName); ("enableAdmin", CFlag enableAdmin)] ;;
  render "frontend/tsconfig.json.ejs" (FRONT ++ "/tsconfig.json") [] ;;
  render "frontend/src/index.html.ejs" (FRONT ++ "/src/index.html")
    [("projectName", CVal projectName)] ;;
  render "frontend/src/main.ts.ejs" (FRONT ++ "/src/main.ts")
    [("enableAdmin", CFlag enableAdmin); ("enableGraphQL", CFlag enableGraphQL)] ;;
  render "frontend/src/polyfills.ts.ejs" (FRONT ++ "/src/polyfills.ts") [] ;;
  render "frontend/src/styles.scss.ejs" (FRONT ++ "/src/styles.scss")
    [("enableAdmin", CFlag enableAdmin)] ;;
  render "frontend/src/app/app.module.ts.ejs" (FRONT ++ "/src/app/app.module.ts")
    [("entities", CEntities entities); ("enableAdmin", CFlag enableAdmin);
     ("enableGraphQL", CFlag enableGraphQL)] ;;
  render "frontend/src/app/app-routing.module.ts.ejs"
    (FRONT ++ "/src/app/app-routing.module.ts")
    [("entities", CEntities entities); ("enableAdmin", CFlag enableAdmin)] ;;
  render "frontend/src/app/app.component.html.ejs" (FRONT ++ "/src/app/app.component.html")
    [("enableAdmin", CFlag enableAdmin)] ;;
  render "frontend/src/app/app.component.ts.ejs" (FRONT ++ "/src/app/app.component.ts")
    [("enableAdmin", CFlag enableAdmin)] ;;
  render "frontend/src/app/core/auth/auth.service.ts.ejs"
    (FRONT ++ "/src/app/core/auth/auth.service.ts")
    [("authEntity", CVal authEntity)] ;;
  render "frontend/src/app/core/auth/jwt.interceptor.ts.ejs"
    (FRONT ++ "/src/app/core/auth/jwt.interceptor.ts") [] ;;
  render "frontend/src/app/core/auth/auth.guard.ts.ejs"
    (FRONT ++ "/src/app/core/auth/auth.guard.ts") [].

Definition featurePath (kebab : string) : string :=
  FRONT ++ "/src/app/features/" ++ kebab.

(** The body of the loop of lines 164-176. *)
Definition featureBody (ent : Entity) : M unit :=
  let name := ent.(name) in
  let kebab := toKebab name in
  let featurePath := featurePath kebab in
  ensureDirSync featurePath ;;
  render "frontend/src/app/features/entity/entity.module.ts.ejs"
    (featurePath ++ "/" ++ kebab ++ ".module.ts")
    [("ent", CEnt ent); ("name", CStr name); ("kebab", CStr kebab);
     ("enableAdmin", CFlag enableAdmin); ("enableGraphQL", CFlag enableGraphQL)] ;;
  render "frontend/src/app/features/entity/entity.service.ts.ejs"
    (featurePath ++ "/" ++ kebab ++ ".service.ts")
    [("ent", CEnt ent); ("name", CStr name); ("kebab", CStr kebab);
     ("enableGraphQL", CFlag enableGraphQL)] ;;
  render "frontend/src/app/features/entity/entity-list.component.html.ejs"
    (featurePath ++ "/" ++ kebab ++ "-list.component.html")
    [("ent", CEnt ent); ("name", CStr name); ("kebab", CStr kebab);
     ("enableAdmin", CFlag enableAdmin)] ;;
  render "frontend/src/app/features/entity/entity-list.component.ts.ejs"
    (featurePath ++ "/" ++ kebab ++ "-list.component.ts")
    [("ent", CEnt ent); ("name", CStr name); ("kebab", CStr kebab);
     ("enableAdmin", CFlag enableAdmin); ("enableGraphQL", CFlag enableGraphQL)] ;;
  render "frontend/src/app/features/entity/entity-form.component.html.ejs"
    (featurePath ++ "/" ++ kebab ++ "-form.component.html")
    [("ent", CEnt ent); ("name", CStr name); ("kebab", CStr kebab);
     ("enableAdmin", CFlag enableAdmin)] ;;
  render "frontend/src/app/features/entity/entity-form.component.ts.ejs"
    (featurePath ++ "/" ++ kebab ++ "-form.component.ts")
    [("ent", CEnt ent); ("name", CStr name); ("kebab", CStr kebab);
     ("enableAdmin", CFlag enableAdmin); ("enableGraphQL", CFlag enableGraphQL)].

(** Lines 164-176: one feature module per entity. *)
Definition features : M unit := forOf entities featureBody.

(** Lines 179-185. *)
Definition adminFiles : M unit :=
  when enableAdmin (
    render "frontend/src/app/@theme/@theme.module.ts.ejs"
      (FRONT ++ "/src/app/@theme/@theme.module.ts") [] ;;
    render "frontend/src/app/@theme/styles/themes.scss.ejs"
      (FRONT ++ "/src/app/@theme/styles/themes.scss") [] ;;
    render "frontend/src/app/pages/pages.module.ts.ejs"
      (FRONT ++ "/src/app/pages/pages.module.ts")
      [("entities", CEntities entities)] ;;
    render "frontend/src/app/pages/dashboard/dashboard.component.html.ejs"
      (FRONT ++ "/src/app/pages/dashboard/dashboard.component.html") [] ;;
    render "frontend/src/app/pages/dashboard/dashboard.component.ts.ejs"
      (FRONT ++ "/src/app/pages/dashboard/dashboard.component.ts")
      [("entities", CEntities entities)]).

(** Lines 190-195. *)
Definition done : M unit :=
  console_log (nl ++ "Project generated at: " ++ outDir) ;;
  console_log (nl ++ "Next steps:") ;;
  console_log ("  cd " ++ outDir) ;;
  when (truthy docker) (console_log "  docker-compose up --build") ;;
  when (truthy terraform)
    (console_log "  cd terraform && terraform init && terraform apply") ;;
  console_log nl.

(** Lines 71-195: everything after the schema is loaded. *)
Definition generate : M unit :=
  emptyDirSync outDir ;;
  forOf dirs ensureDirSync ;;
  rootFiles ;;
  backendFixed ;;
  models ;;
  controllers ;;
  graphqlFiles ;;
  frontendFixed ;;
  features ;;
  adminFiles ;;
  done.

End Body.

(** Lines 36-40, then the rest. *)
Definition main : M unit :=
  if negb (existsSync h (schemaPath o)) then
    console_error ("Schema not found: " ++ schemaPath o) ;;
    process_exit 1
  else
    text <- readFileSync h (schemaPath o) ;;
    schema <- lift (JSON_parse h text) ;;
    generate schema.

End Script.
End Generator.

(* ------------------------------------------------------------------ *)
(** ** The sibling variant of the script: src/unnamed/part_000          *)
(* ------------------------------------------------------------------ *)

(** The variant hands [{ schema }] to nearly every template, renders one
    more fixed backend file (the authentication routes) and gates every
    conditional block on the destructured flag. *)
Module Sibling.
Section Script.
Variables (h : Host) (o : Options).

Definition BACK : string := path_join (outDir o) "backend".
Definition FRONT : string := path_join (outDir o) "frontend".

Section Body.
Variable schema : Schema.t.

Let authEntity := authEntity schema.
Let entities := entities schema.
Let graphql := graphql o schema.
Let docker := docker o schema.
Let ci := ci o schema.
Let terraform := terraform o schema.
Let adminPanel := adminPanel o schema.
Let outDir := outDir o.

(** Lines 73-86. *)
Definition dirs : list string :=
  [ BACK ++ "/src/models";
    BACK ++ "/src/controllers";
    BACK ++ "/src/routes";
    BACK ++ "/src/middleware";
    BACK ++ "/src/graphql";
    BACK ++ "/tests";
    BACK ++ "/uploads";
    FRONT ++ "/src/app/core";
    FRONT ++ "/src/app/features";
    FRONT ++ "/src/app/shared" ]
  ++ (if truthy adminPanel
      then [FRONT ++ "/src/app/@theme/layouts"; FRONT ++ "/src/app/pages"]
      else [])
  ++ (if truthy terraform then [outDir ++ "/terraform"] else []).

Let withSchema : Context := [("schema", CSchema schema)].

(** Lines 92-105. *)
Definition rootFiles : M unit :=
  when (truthy docker) (
    render "docker/Dockerfile.backend" (BACK ++ "/Dockerfile") withSchema ;;
    render "docker/Dockerfile.frontend" (FRONT ++ "/Dockerfile") withSchema ;;
    render "docker/docker-compose.yml" (outDir ++ "/docker-compose.yml") withSchema) ;;
  when (truthy ci) (
    render "ci/github-workflow.yml" (outDir ++ "/.github/workflows/ci.yml") withSchema) ;;
  when (truthy terraform) (
    render "terraform/main.tf" (outDir ++ "/terraform/main.tf") withSchema ;;
    render "terraform/variables.tf" (outDir ++ "/terraform/variables.tf") withSchema ;;
    render "terraform/outputs.tf" (outDir ++ "/terraform/outputs.tf") withSchema ;;
    render "terraform/terraform.tfvars.example"
      (outDir ++ "/terraform/terraform.tfvars.example") withSchema).

(** Lines 110-119. *)
Definition backendFixed : M unit :=
  render "backend/package.json.ejs" (BACK ++ "/package.json") withSchema ;;
  render "backend/tsconfig.json.ejs" (BACK ++ "/tsconfig.json") [] ;;
  render "backend/.env.example" (BACK ++ "/.env.example") withSchema ;;
  render "backend/src/server.ts.ejs" (BACK ++ "/src/server.ts") withSchema ;;
  render "backend/src/config/database.ts.ejs" (BACK ++ "/src/config/database.ts") withSchema ;;
  render "backend/src/middleware/auth.ts.ejs" (BACK ++ "/src/middleware/auth.ts") withSchema ;;
  render "backend/src/middleware/upload.ts.ejs" (BACK ++ "/src/middleware/upload.ts") withSchema ;;
  render "backend/src/middleware/error.ts.ejs" (BACK ++ "/src/middleware/error.ts") withSchema ;;
  render "backend/src/routes/auth.ts.ejs" (BACK ++ "/src/routes/auth.ts") withSchema.

(** The body of the loop of lines 122-126. *)
Definition modelBody (ent : Entity) : M unit :=
  render "backend/src/models/model.ts.ejs" (BACK ++ "/src/models/" ++ ent.(name) ++ ".ts")
    [("ent", CEnt ent); ("schema", CSchema schema)] ;;
  now <- Date_now h ;;
  render "backend/migrations/create-table.ts.ejs"
    (BACK ++ "/migrations/" ++ showZ now ++ "-create-" ++ ent.(tableName) ++ ".ts")
    [("ent", CEnt ent); ("schema", CSchema schema)] ;;
  render "backend/tests/model.test.ts.ejs" (BACK ++ "/tests/" ++ ent.(name) ++ ".test.ts")
    [("ent", CEnt ent); ("schema", CSchema schema)].

(** The events of the loop of lines 122-126 when it starts after [t]
    readings of the clock: the bodies' events, each at its own reading. *)
Definition modelEvents (t : nat) : list Event :=
  flat_map (fun p => emitted (modelBody (snd p) (fst p))) (indexedFrom t entities).

(** The body of the loop of lines 129-134. *)
Definition controllerBody (ent : Entity) : M unit :=
  let name := ent.(name) in
  let kebab := toKebab name in
  render "backend/src/controllers/controller.ts.ejs"
    (BACK ++ "/src/controllers/" ++ name ++ "Controller.ts")
    [("ent", CEnt ent); ("schema", CSchema schema)] ;;
  render "backend/src/routes/route.ts.ejs" (BACK ++ "/src/routes/" ++ kebab ++ ".ts")
    [("ent", CEnt ent); ("schema", CSchema schema)].

(** Lines 122-126: models, migrations and tests. *)
Definition models : M unit := forOf entities modelBody.

(** Lines 129-135: controllers and routes. *)
Definition controllers : M unit :=
  forOf entities controllerBody ;;
  render "backend/src/routes/index.ts.ejs" (BACK ++ "/src/routes/index.ts")
    [("entities", CEntities entities); ("schema", CSchema schema)].

(** Lines 137-140. *)
Definition graphqlFiles : M unit :=
  when (truthy graphql) (
    render "backend/src/graphql/typeDefs.ts.ejs" (BACK ++ "/src/graphql/typeDefs.ts")
      [("entities", CEntities entities); ("schema", CSchema schema)] ;;
    render "backend/src/graphql/resolvers.ts.ejs" (BACK ++ "/src/graphql/resolvers.ts")
      [("entities", CEntities entities); ("schema", CSchema schema);
       ("authEntity", CVal authEntity)]).

(** Lines 145-161. *)
Definition frontendFixed : M unit :=
  render "frontend/package.json.ejs" (FRONT ++ "/package.json") withSchema ;;
  render "frontend/angular.json.ejs" (FRONT ++ "/angular.json") withSchema ;;
  render "frontend/tsconfig.json.ejs" (FRONT ++ "/tsconfig.json") [] ;;
  render "frontend/src/index.html.ejs" (FRONT ++ "/src/index.html") withSchema ;;
  render "frontend/src/main.ts.ejs" (FRONT ++ "/src/main.ts") withSchema ;;
  render "frontend/src/polyfills.ts.ejs" (FRONT ++ "/src/polyfills.ts") [] ;;
  render "frontend/src/styles.scss.ejs" (FRONT ++ "/src/styles.scss") withSchema ;;
  render "frontend/src/app/app.module.ts.ejs" (FRONT ++ "/src/app/app.module.ts") withSchema ;;
  render "frontend/src/app/app-routing.module.ts.ejs"
    (FRONT ++ "/src/app/app-routing.module.ts") withSchema ;;
  render "frontend/src/app/app.component.html.ejs" (FRONT ++ "/src/app/app.component.html")
    withSchema ;;
  render "frontend/src/app/app.component.ts.ejs" (FRONT ++ "/src/app/app.component.ts")
    withSchema ;;
  render "frontend/src/app/core/auth/auth.service.ts.ejs"
    (FRONT ++ "/src/app/core/auth/auth.service.ts") withSchema ;;
  render "frontend/src/app/core/auth/jwt.interceptor.ts.ejs"
    (FRONT ++ "/src/app/core/auth/jwt.interceptor.ts") withSchema ;;
  render "frontend/src/app/core/auth/auth.guard.ts.ejs"
    (FRONT ++ "/src/app/core/auth/auth.guard.ts") withSchema.

Definition featurePath (kebab : string) : string :=
  FRONT ++ "/src/app/features/" ++ kebab.

(** The body of the loop of lines 164-176. *)
Definition featureBody (ent : Entity) : M unit :=
  let name := ent.(name) in
  let kebab := toKebab name in
  let featurePath := featurePath kebab in
  let data : Context :=
    [("ent", CEnt ent); ("name", CStr name); ("kebab", CStr kebab);
     ("schema", CSchema schema)] in
  ensureDirSync featurePath ;;
  render "frontend/src/app/features/entity/entity.module.ts.ejs"
    (featurePath ++ "/" ++ kebab ++ ".module.ts") data ;;
  render "frontend/src/app/features/entity/entity.service.ts.ejs"
    (featurePath ++ "/" ++ kebab ++ ".service.ts") data ;;
  render "frontend/src/app/features/entity/entity-list.component.html.ejs"
    (featurePath ++ "/" ++ kebab ++ "-list.component.html") data ;;
  render "frontend/src/app/features/entity/entity-list.component.ts.ejs"
    (featurePath ++ "/" ++ kebab ++ "-list.component.ts") data ;;
  render "frontend/src/app/features/entity/entity-form.component.html.ejs"
    (featurePath ++ "/" ++ kebab ++ "-form.component.html") data ;;
  render "frontend/src/app/features/entity/entity-form.component.ts.ejs"
    (featurePath ++ "/" ++ kebab ++ "-form.component.ts") data.

(** Lines 164-176: one feature module per entity. *)
Definition features : M unit := forOf entities featureBody.

(** Lines 179-185. *)
Definition adminFiles : M unit :=
  when (truthy adminPanel) (
    render "frontend/src/app/@theme/@theme.module.ts.ejs"
      (FRONT ++ "/src/app/@theme/@theme.module.ts") withSchema ;;
    render "frontend/src/app/@theme/styles/themes.scss.ejs"
      (FRONT ++ "/src/app/@theme/styles/themes.scss") withSchema ;;
    render "frontend/src/app/pages/pages.module.ts.ejs"
      (FRONT ++ "/src/app/pages/pages.module.ts") withSchema ;;
    render "frontend/src/app/pages/dashboard/dashboard.component.html.ejs"
      (FRONT ++ "/src/app/pages/dashboard/dashboard.component.html") withSchema ;;
    render "frontend/src/app/pages/dashboard/dashboard.component.ts.ejs"
      (FRONT ++ "/src/app/pages/dashboard/dashboard.component.ts") withSchema).

(** Lines 190-195. *)
Definition done : M unit :=
  console_log (nl ++ "Project generated at: " ++ outDir) ;;
  console_log (nl ++ "Next steps:") ;;
  console_log ("  cd " ++ outDir) ;;
  when (truthy docker) (console_log "  docker-compose up --build") ;;
  when (truthy terraform)
    (console_log "  cd terraform && terraform init && terraform apply") ;;
  console_log nl.

(** Lines 70-195: everything after the schema is loaded. *)
Definition generate : M unit :=
  emptyDirSync outDir ;;
  forOf dirs ensureDirSync ;;
  rootFiles ;;
  backendFixed ;;
  models ;;
  controllers ;;
  graphqlFiles ;;
  frontendFixed ;;
  features ;;
  adminFiles ;;
  done.

End Body.

(** Lines 35-39, then the rest. *)
Definition main : M unit :=
  if negb (existsSync h (schemaPath o)) then
    console_error ("Schema not found: " ++ schemaPath o) ;;
    process_exit 1
  else
    text <- readFileSync h (schemaPath o) ;;
    schema <- lift (JSON_parse h text) ;;
    generate schema.

End Script.
End Sibling.

(* ------------------------------------------------------------------ *)
(** ** Observations on a run                                           *)
(* ------------------------------------------------------------------ *)

(** A run starts with the clock unread. *)
Definition run {A : Type} (m : M A) : Out A := m 0.

(** The artifact plan: the [render] calls of a run, in order. *)
Fixpoint planOf (evs : list Event) : list Artifact :=
  match evs with
  | [] => []
  | Render a :: evs' => a :: planOf evs'
  | _ :: evs' => planOf evs'
  end.

(** The directories the skeleton builder and the feature loop create. *)
Fixpoint dirsOf (evs : list Event) : list string :=
  match evs with
  | [] => []
  | EnsureDir d :: evs' => d :: dirsOf evs'
  | _ :: evs' => dirsOf evs'
  end.

Definition isMigration (a : Artifact) : bool :=
  templateId a =? "backend/migrations/create-table.ts.ejs".

Definition migrationsOf (plan : list Artifact) : list Artifact :=
  filter isMigration plan.

Definition paths (plan : list Artifact) : list string :=
  List.map destinationPath plan.

Definition hasPath (plan : list Artifact) (p : string) : bool :=
  existsb (String.eqb p) (paths plan).

(** The event touches the output directory. *)
Definition touchesOutput (e : Event) : bool :=
  match e with
  | EmptyDir _ | EnsureDir _ | Render _ => true
  | ConsoleError _ | ConsoleLog _ => false
  end.

Definition isConsoleError (e : Event) : bool :=
  match e with
  | ConsoleError _ => true
  | _ => false
  end.

(** What Node makes of the end of the script: status 0 when it runs to
    its end, the argument of [process.exit], and status 1 together with
    a report on the error stream for an uncaught error. *)
Definition exitStatus {A : Type} (out : Out A) : nat :=
  match result out with
  | Done _ => 0
  | Halted (Exit code) => code
  | Halted (Uncaught _) => 1
  end.

Definition reportsError {A : Type} (out : Out A) : bool :=
  existsb isConsoleError (emitted out)
  || match result out with
     | Halted (Uncaught _) => true
     | _ => false
     end.

(** The schema file is there and parses. *)
Definition schemaLoads (h : Host) (o : Options) : bool :=
  match files h (schemaPath o) with
  | None => false
  | Some text =>
      match JSON_parse h text with
      | Normal _ => true
      | Throw _ => false
      end
  end.

(** The number a migration file name starts with: an optional sign and
    the digits up to the first other character. *)
Fixpoint takeDigits (s : string) : string :=
  match s with
  | EmptyString => EmptyString
  | String c s' => if Chr.isDigit c then String c (takeDigits s') else EmptyString
  end.

Definition leadingNumber (s : string) : option Z :=
  let literal :=
    match s with
    | EmptyString => EmptyString
    | String c s' =>
        if Chr.isHyphen c then String c (takeDigits s') else takeDigits s
    end in
  option_map Z.of_int (NilZero.int_of_string literal).

(** The timestamp component of a destination path under
    [<back>/migrations/]. *)
Definition stampOf (back path : string) : option Z :=
  match Str.strip (back ++ "/migrations/") path with
  | Some file => leadingNumber file
  | None => None
  end.

Definition stampsOf (back : string) (plan : list Artifact) : list (option Z) :=
  List.map (stampOf back) (paths (migrationsOf plan)).

Fixpoint strictlyIncreasing (l : list (option Z)) : bool :=
  match l with
  | [] => true
  | None :: _ => false
  | Some a :: l' =>
      match l' with
      | [] => true
      | None :: _ => false
      | Some b :: _ => (a <? b)%Z && strictlyIncreasing l'
      end
  end.

(** The entries of a plan that are rendered from templates under [dir]. *)
Definition under (dir : string) (plan : list Artifact) : list Artifact :=
  filter (fun a => Str.startsWith dir (templateId a)) plan.

(** The entries rendered from the templates of the five optional
    features. *)
Definition isConditional (a : Artifact) : bool :=
  existsb (fun dir => Str.startsWith dir (templateId a))
    [ "docker/"; "ci/"; "terraform/"; "backend/src/graphql/";
      "frontend/src/app/@theme/"; "frontend/src/app/pages/" ].

Definition conditional (plan : list Artifact) : list Artifact :=
  filter isConditional plan.

(** The destination paths of the optional files, as a function of the
    five booleans that gate them. *)
Definition conditionalPaths (B F od : string)
    (docker ci terraform graphql admin : bool) : list string :=
  (if docker
   then [B ++ "/Dockerfile"; F ++ "/Dockerfile"; od ++ "/docker-compose.yml"]
   else [])
  ++ (if ci then [od ++ "/.github/workflows/ci.yml"] else [])
  ++ (if terraform
      then [od ++ "/terraform/main.tf"; od ++ "/terraform/variables.tf";
            od ++ "/terraform/outputs.tf"; od ++ "/terraform/terraform.tfvars.example"]
      else [])
  ++ (if graphql
      then [B ++ "/src/graphql/typeDefs.ts"; B ++ "/src/graphql/resolvers.ts"]
      else [])
  ++ (if admin
      then [F ++ "/src/app/@theme/@theme.module.ts";
            F ++ "/src/app/@theme/styles/themes.scss";
            F ++ "/src/app/pages/pages.module.ts";
            F ++ "/src/app/pages/dashboard/dashboard.component.html";
            F ++ "/src/app/pages/dashboard/dashboard.component.ts"]
      else []).

(** The optional directories of the skeleton, as a function of the two
    booleans that gate them. *)
Definition conditionalDirs (F od : string) (admin terraform : bool) : list string :=
  (if admin then [F ++ "/src/app/@theme/layouts"; F ++ "/src/app/pages"] else [])
  ++ (if terraform then [od ++ "/terraform"] else []).

(** The directories of the skeleton that are always created. *)
Definition fixedDirs (B F : string) : list string :=
  [ B ++ "/src/models"; B ++ "/src/controllers"; B ++ "/src/routes";
    B ++ "/src/middleware"; B ++ "/src/graphql"; B ++ "/tests"; B ++ "/uploads";
    F ++ "/src/app/core"; F ++ "/src/app/features"; F ++ "/src/app/shared" ].

(** What the claim on migrations comes to on the script: one migration
    entry per entity, in schema order, and the number in the [i]-th
    path is the [i]-th reading of the clock. *)
Definition MigrationsFollowClock
    (h : Host) (back : string) (ents : list Entity) (plan : list Artifact) : Prop :=
  List.length (migrationsOf plan) = List.length ents /\
  paths (migrationsOf plan) =
    List.map (fun p => back ++ "/migrations/" ++ showZ (clock h (fst p))
                         ++ "-create-" ++ tableName (snd p) ++ ".ts")
             (indexedFrom 0 ents) /\
  stampsOf back plan =
    List.map (fun i => Some (clock h i)) (seq 0 (List.length ents)).

(** Two plans that differ at most in the destination paths of their
    migration entries. *)
Definition SameButStamps (p1 p2 : list Artifact) : Prop :=
  List.map templateId p1 = List.map templateId p2 /\
  List.map context p1 = List.map context p2 /\
  filter (fun a => negb (isMigration a)) p1 = filter (fun a => negb (isMigration a)) p2.

(** A computation that neither reads the clock nor stops the script. *)
Definition Quiet (m : M unit) : Prop :=
  forall t, m t = mkOut (Done tt) t (emitted (m 0)).

(** Reversal, to compare paths from their ends. *)
Fixpoint strRev (s : string) : string :=
  match s with
  | EmptyString => EmptyString
  | String c s' => strRev s' ++ String c EmptyString
  end.

(** The directory a destination path of the plan lies in, as far as the
    per-entity files go. *)
Inductive PathClass : Type :=
| Fixed | Model | Migration | Test | Controller | Route | Feature.

Definition classEqb (a b : PathClass) : bool :=
  match a, b with
  | Fixed, Fixed | Model, Model | Migration, Migration | Test, Test
  | Controller, Controller | Route, Route | Feature, Feature => true
  | _, _ => false
  end.

Definition classOf (p : string) : PathClass :=
  if Str.startsWith "/backend/src/models/" p then Model
  else if Str.startsWith "/backend/migrations/" p then Migration
  else if Str.startsWith "/backend/tests/" p then Test
  else if Str.startsWith "/backend/src/controllers/" p then Controller
  else if Str.startsWith "/backend/src/routes/" p then Route
  else if Str.startsWith "/frontend/src/app/features/" p then Feature
  else Fixed.

Definition inClass (c : PathClass) (l : list string) : list string :=
  filter (fun p => classEqb (classOf p) c) l.

Fixpoint nodupb (l : list string) : bool :=
  match l with
  | [] => true
  | x :: l' => negb (existsb (String.eqb x) l') && nodupb l'
  end.

(* ------------------------------------------------------------------ *)
(** ** Inputs used as examples                                          *)
(* ------------------------------------------------------------------ *)

Definition schemaOf (projectName : string) (ents : list Entity) : Schema.t :=
  {| Schema.projectName := JStr projectName;
     Schema.database := JUndefined; Schema.dbDev := JUndefined;
     Schema.dbTest := JUndefined; Schema.authEntity := JUndefined;
     Schema.entities := Some ents;
     Schema.graphql := JUndefined; Schema.docker := JUndefined;
     Schema.ci := JUndefined; Schema.terraform := JUndefined;
     Schema.adminPanel := JUndefined |}.

(** [{projectName:"Blog", entities:[{name:"Post", tableName:"posts"}]}] *)
Definition blog : Schema.t := schemaOf "Blog" [mkEntity "Post" "posts"].

Definition blogTwo : Schema.t :=
  schemaOf "Blog" [mkEntity "Post" "posts"; mkEntity "User" "users"].

(** The same, with ["docker": null]. *)
Definition blogDockerNull : Schema.t :=
  {| Schema.projectName := JStr "Blog";
     Schema.database := JUndefined; Schema.dbDev := JUndefined;
     Schema.dbTest := JUndefined; Schema.authEntity := JUndefined;
     Schema.entities := Some [mkEntity "Post" "posts"];
     Schema.graphql := JUndefined; Schema.docker := JNull;
     Schema.ci := JUndefined; Schema.terraform := JUndefined;
     Schema.adminPanel := JUndefined |}.

(** The same, with ["graphql": true, "terraform": false, "adminPanel": false]. *)
Definition blogOverrides : Schema.t :=
  {| Schema.projectName := JStr "Blog";
     Schema.database := JUndefined; Schema.dbDev := JUndefined;
     Schema.dbTest := JUndefined; Schema.authEntity := JUndefined;
     Schema.entities := Some [mkEntity "Post" "posts"];
     Schema.graphql := JBool true; Schema.docker := JUndefined;
     Schema.ci := JUndefined; Schema.terraform := JBool false;
     Schema.adminPanel := JBool false |}.

Definition cli : Options := defaultOptions "/work/schema.json" "/work/my-app".

(** A host without files whose clock stands still: every reading falls
    in the same millisecond. *)
Definition stillHost : Host :=
  {| files := fun _ => None;
     JSON_parse := fun _ => Throw SyntaxError;
     clock := fun _ => 1700000000000%Z |}.

(** A host whose clock advances by one millisecond per reading. *)
Definition tickingHost : Host :=
  {| files := fun _ => None;
     JSON_parse := fun _ => Throw SyntaxError;
     clock := fun n => (1700000000000 + Z.of_nat n)%Z |}.

(** A host on which the schema file holds text that does not parse. *)
Definition garbledHost : Host :=
  {| files := fun p => if p =? "/work/schema.json" then Some "{ projectName: " else None;
     JSON_parse := fun _ => Throw SyntaxError;
     clock := fun _ => 1700000000000%Z |}.

(** A host with another file system and another parser, but the clock
    of [stillHost]. *)
Definition otherStillHost : Host :=
  {| files := fun _ => Some "";
     JSON_parse := fun _ => Throw TypeError;
     clock := fun _ => 1700000000000%Z |}.

(** A host on which [/work/schema.json] holds the blog schema. *)
Definition blogText : string :=
  "{projectName:Blog,entities:[{name:Post,tableName:posts}]}".

Definition blogHost : Host :=
  {| files := fun p => if p =? "/work/schema.json" then Some blogText else None;
     JSON_parse := fun text => if text =? blogText then Normal blog else Throw SyntaxError;
     clock := fun _ => 1700000000000%Z |}.

(** An entity that is called [index]. *)
Definition blogIndex : Schema.t := schemaOf "Blog" [mkEntity "index" "indexes"].

(** The blog schema with ["graphql": true]. *)
Definition blogGraphql : Schema.t :=
  {| Schema.projectName := JStr "Blog";
     Schema.database := JUndefined; Schema.dbDev := JUndefined;
     Schema.dbTest := JUndefined; Schema.authEntity := JUndefined;
     Schema.entities := Some [mkEntity "Post" "posts"];
     Schema.graphql := JBool true; Schema.docker := JUndefined;
     Schema.ci := JUndefined; Schema.terraform := JUndefined;
     Schema.adminPanel := JUndefined |}.

(** The command line of [cli] with [--graphql]. *)
Definition cliGraphql : Options :=
  {| schemaPath := "/work/schema.json"; outDir := "/work/my-app";
     enableGraphQL := true; enableDocker := true; enableCI := true;
     enableTerraform := true; enableAdmin := true |}.

(* ------------------------------------------------------------------ *)
(** ** Names in the two conventions                                     *)
(* ------------------------------------------------------------------ *)

Fixpoint allChars (p : ascii -> bool) (s : string) : bool :=
  match s with
  | EmptyString => true
  | String c s' => p c && allChars p s'
  end.

(** An identifier in the Pascal convention: word characters only, not
    starting with a letter of [[a-z]]. *)
Definition pascalIdent (s : string) : bool :=
  allChars Chr.isWord s && negb (startsLower s).

(** After the first character of a kebab name: letters of [[a-z]], and
    hyphens that stand directly before such a letter. *)
Fixpoint lowerKebabRest (s : string) : bool :=
  match s with
  | EmptyString => true
  | String c s' =>
      if Chr.isLowerAZ c then lowerKebabRest s'
      else Chr.isHyphen c
           && match s' with
              | String d _ => Chr.isLowerAZ d
              | EmptyString => false
              end
           && lowerKebabRest s'
  end.

(** A kebab name: words of letters [[a-z]] joined by single hyphens. *)
Definition lowerKebab (s : string) : bool := startsLower s && lowerKebabRest s.

(** A string without its first character when that is a hyphen. *)
Definition dropLeadingHyphen (s : string) : string :=
  match s with
  | String c s' => if Chr.isHyphen c then s' else s
  | EmptyString => EmptyString
  end.

(* ------------------------------------------------------------------ *)
(** ** The object a template receives (render, line 64)                 *)
(* ------------------------------------------------------------------ *)

(** The functions [render] hands to the template beside the data. *)
Inductive Helper : Type := HtoPascal | HtoCamel | HtoKebab.

(** A value of the object a template receives. *)
Inductive TemplateVal : Type :=
| TData (v : CtxVal)
| THelper (f : Helper).

Definition TemplateContext : Type := list (string * TemplateVal).

(** Writing a property of an object: an existing key keeps its place and
    takes the new value, a new key goes to the end. *)
Fixpoint assign (k : string) (v : TemplateVal) (obj : TemplateContext) : TemplateContext :=
  match obj with
  | [] => [(k, v)]
  | (k', v') :: obj' =>
      if k' =? k then (k, v) :: obj' else (k', v') :: assign k v obj'
  end.

(** Reading an own property: [None] when the object has no own property
    of that name.  What a template finds under such a name depends on
    the prototype of the object and on how EJS resolves names, which
    are not modelled. *)
Fixpoint get (k : string) (obj : TemplateContext) : option TemplateVal :=
  match obj with
  | [] => None
  | (k', v') :: obj' => if k' =? k then Some v' else get k obj'
  end.

(** The same on the data a call of [render] passes. *)
Fixpoint lookup (k : string) (data : Context) : option CtxVal :=
  match data with
  | [] => None
  | (k', v') :: data' => if k' =? k then Some v' else lookup k data'
  end.

(** [{ ...data, toPascal, toCamel, toKebab, schema }] of line 64. *)
Definition templateContext (schema : Schema.t) (data : Context) : TemplateContext :=
  assign "schema" (TData (CSchema schema))
    (assign "toKebab" (THelper HtoKebab)
       (assign "toCamel" (THelper HtoCamel)
          (assign "toPascal" (THelper HtoPascal)
             (List.map (fun kv => (fst kv, TData (snd kv))) data)))).

(** The four names [render] writes after the data. *)
Definition reserved (k : string) : bool :=
  existsb (String.eqb k) ["toPascal"; "toCamel"; "toKebab"; "schema"].

(* ------------------------------------------------------------------ *)
(** ** Observations on the console output and the size of the plan      *)
(* ------------------------------------------------------------------ *)

(** The lines written with [console.log], in order. *)
Fixpoint logsOf (evs : list Event) : list string :=
  match evs with
  | [] => []
  | ConsoleLog msg :: evs' => msg :: logsOf evs'
  | _ :: evs' => logsOf evs'
  end.

(** The number of optional files behind the five gates. *)
Definition optionalCount (docker ci terraform graphql admin : bool) : nat :=
  (if docker then 3 else 0) + (if ci then 1 else 0) + (if terraform then 4 else 0)
  + (if graphql then 2 else 0) + (if admin then 5 else 0).

(** [l.length > 0] *)
Definition nonEmpty {A : Type} (l : list A) : bool :=
  match l with
  | [] => false
  | _ :: _ => true
  end.

(** The three lines every run logs first (lines 190-192). *)
Definition openingLines (o : Options) : list string :=
  [ nl ++ "Project generated at: " ++ outDir o;
    nl ++ "Next steps:";
    "  cd " ++ outDir o ].

(** The console output of a run that went through: the three opening
    lines, the docker hint when docker files were planned, the
    terraform hint when terraform files were planned, and an empty
    line. *)
Definition ClosingOutput (o : Options) (evs : list Event) : Prop :=
  logsOf evs =
  (openingLines o
   ++ (if nonEmpty (under "docker/" (planOf evs))
       then ["  docker-compose up --build"] else [])
   ++ (if nonEmpty (under "terraform/" (planOf evs))
       then ["  cd terraform && terraform init && terraform apply"] else [])
   ++ [nl])%list.

(* ------------------------------------------------------------------ *)
(** ** What decides whether two destination paths coincide              *)
(* ------------------------------------------------------------------ *)

(** The kebab names of the entities, in the order of the schema. *)
Definition kebabNames (schema : Schema.t) : list string :=
  List.map (fun e => toKebab (name e)) (entities schema).

(** What tells two migration files apart: the clock reading of the
    iteration and the table name. *)
Definition migrationKeys (h : Host) (schema : Schema.t) : list (Z * string) :=
  List.map (fun p => (clock h (fst p), tableName (snd p))) (indexedFrom 0 (entities schema)).

(** The destination of the route file for a kebab name. *)
Definition routePath (o : Options) (kebab : string) : string :=
  Generator.BACK o ++ "/src/routes/" ++ kebab ++ ".ts".

(** The one destination path only the sibling variant has. *)
Definition authRoute (o : Options) : string := Sibling.BACK o ++ "/src/routes/auth.ts".

(** The options with the GraphQL and admin switches replaced by the
    values the schema resolves them to. *)
Definition asResolved (o : Options) (schema : Schema.t) : Options :=
  {| schemaPath := schemaPath o; outDir := outDir o;
     enableGraphQL := truthy (graphql o schema);
     enableDocker := enableDocker o; enableCI := enableCI o;
     enableTerraform := enableTerraform o;
     enableAdmin := truthy (adminPanel o schema) |}.

(* ================================================================== *)
(** * Properties                                                        *)
(* ================================================================== *)

Example toPascal_user_profile : toPascal "user-profile" = "UserProfile".
Proof. reflexivity. Qed.
Example toPascal_double_hyphen : toPascal "a--b" = "A-B".
Proof. reflexivity. Qed.
Example toCamel_user_profile : toCamel "User-profile" = Normal "userProfile".
Proof. reflexivity. Qed.
Example toKebab_userProfile : toKebab "userProfile" = "user-profile".
Proof. reflexivity. Qed.

(* ------------------------------------------------------------------ *)
(** ** Strings                                                          *)
(* ------------------------------------------------------------------ *)

Module StrFacts.

Lemma app_nil_r (s : string) : s ++ "" = s.
Proof. induction s as [|c s IH]; simpl; [reflexivity | now rewrite IH]. Qed.

Lemma app_assoc (a b c : string) : (a ++ b) ++ c = a ++ (b ++ c).
Proof. induction a as [|x a IH]; simpl; [reflexivity | now rewrite IH]. Qed.

Lemma length_app (a b : string) :
  String.length (a ++ b) = String.length a + String.length b.
Proof. induction a as [|x a IH]; simpl; [reflexivity | now rewrite IH]. Qed.

Lemma app_inv_head (p a b : string) : p ++ a = p ++ b -> a = b.
Proof.
  induction p as [|x p IH]; simpl; intros H; [exact H|].
  injection H as H. now apply IH.
Qed.

Lemma app_eq_len (a b c d : string) :
  a ++ b = c ++ d -> String.length a = String.length c -> a = c /\ b = d.
Proof.
  revert c. induction a as [|x a IH]; intros [|y c]; simpl; intros H L;
    try discriminate.
  - now split.
  - injection H as -> H. injection L as L.
    destruct (IH _ H L) as [-> ->]. now split.
Qed.

Lemma app_inv_tail (a b t : string) : a ++ t = b ++ t -> a = b.
Proof.
  intros H. apply (app_eq_len a t b t H).
  apply (f_equal String.length) in H. rewrite !length_app in H. lia.
Qed.

Lemma strip_app (p s : string) : Str.strip p (p ++ s) = Some s.
Proof.
  induction p as [|x p IH]; simpl; [reflexivity|].
  now rewrite Ascii.eqb_refl.
Qed.

Lemma strip_Some (p s r : string) : Str.strip p s = Some r -> s = p ++ r.
Proof.
  revert s. induction p as [|x p IH]; simpl; intros s H.
  - now injection H as ->.
  - destruct s as [|y s]; [discriminate|].
    destruct (Ascii.eqb_spec x y) as [->|]; [|discriminate].
    now rewrite (IH _ H).
Qed.

End StrFacts.

(* ------------------------------------------------------------------ *)
(** ** The naming helpers                                               *)
(* ------------------------------------------------------------------ *)

Module Naming.

(** Facts about single characters are settled by running through the
    256 code units. *)
Ltac by_cases_on c :=
  destruct c as [[] [] [] [] [] [] [] []]; try discriminate; try reflexivity.

Lemma upper_of_lower (d : ascii) :
  Chr.isLowerAZ d = true ->
  Chr.isUpperAZ (Chr.upper d) = true /\ Chr.lower (Chr.upper d) = d /\
  Chr.isUpperAZ d = false /\ Chr.lower d = d.
Proof. by_cases_on d; intros _; repeat split. Qed.

Lemma upper_fixed (c : ascii) : Chr.isLowerAZ c = false -> Chr.upper c = c.
Proof. unfold Chr.upper. now intros ->. Qed.

Lemma hyphen_is (c : ascii) : Chr.isHyphen c = true -> c = "-"%char.
Proof. unfold Chr.isHyphen. apply Ascii.eqb_eq. Qed.

Lemma word_not_hyphen (c : ascii) : Chr.isWord c = true -> Chr.isHyphen c = false.
Proof. by_cases_on c. Qed.

Lemma lower_word_char (c : ascii) : Chr.isLowerAZ c = true -> Chr.isWord c = true.
Proof. by_cases_on c. Qed.

(** How [toKebab] treats the first character of any string: a hyphen
    goes before it exactly when it is in [[A-Z]], leading or not. *)
Lemma toKebab_cons (c : ascii) (s : string) :
  toKebab (String c s) =
  if Chr.isUpperAZ c then String "-" (String (Chr.lower c) (toKebab s))
  else String (Chr.lower c) (toKebab s).
Proof.
  unfold toKebab, toLowerCase. simpl.
  destruct (Chr.isUpperAZ c); reflexivity.
Qed.

Lemma toKebab_hyphen (s : string) : toKebab (String "-" s) = String "-" (toKebab s).
Proof. now rewrite toKebab_cons. Qed.

Lemma hyphensBeforeLower_tail (c : ascii) (s : string) :
  hyphensBeforeLower (String c s) = true -> hyphensBeforeLower s = true.
Proof.
  destruct s as [|d s]; [reflexivity|].
  cbn [hyphensBeforeLower]. intros H. now apply andb_true_iff in H.
Qed.

Lemma pascalRest_step (c d : ascii) (s : string) :
  pascalRest (String c (String d s)) =
  if Chr.isHyphen c && Chr.isWord d
  then String (Chr.upper d) (pascalRest s)
  else String c (pascalRest (String d s)).
Proof. reflexivity. Qed.

Lemma pascalRest_kebab (s : string) :
  (hyphensBeforeLower s = true -> toKebab (pascalRest s) = toKebab s) /\
  (forall c, hyphensBeforeLower (String c s) = true ->
             toKebab (pascalRest (String c s)) = toKebab (String c s)).
Proof.
  induction s as [|d s [IH1 IH2]].
  - split; reflexivity.
  - split; [apply IH2|].
    intros c H. cbn [hyphensBeforeLower] in H.
    apply andb_true_iff in H. destruct H as [Hcd Htl].
    rewrite pascalRest_step.
    destruct (Chr.isHyphen c && Chr.isWord d) eqn:Em.
    + cbn in Hcd.
      apply andb_true_iff in Em. destruct Em as [Hc _].
      apply hyphen_is in Hc. subst c.
      destruct (upper_of_lower d Hcd) as (U1 & U2 & U3 & U4).
      rewrite (toKebab_cons (Chr.upper d)), U1, U2.
      rewrite toKebab_hyphen, (toKebab_cons d), U3, U4.
      rewrite IH1; [reflexivity|].
      now apply hyphensBeforeLower_tail in Htl.
    + rewrite !(toKebab_cons c), (IH2 d Htl). reflexivity.
Qed.

Lemma toPascal_kebab (n : string) :
  kebabStable n = true -> toKebab (toPascal n) = toKebab n.
Proof.
  unfold kebabStable. intros H. apply andb_true_iff in H. destruct H as [Hs Hh].
  destruct n as [|c s]; [reflexivity|].
  cbn [toPascal startsLower] in *. apply negb_true_iff in Hs.
  destruct (Chr.isWord c) eqn:Ew.
  - rewrite (upper_fixed c Hs), !(toKebab_cons c).
    assert (E : toKebab (pascalRest s) = toKebab s).
    { apply (proj1 (pascalRest_kebab s)). now apply hyphensBeforeLower_tail in Hh. }
    now rewrite E.
  - now apply (proj2 (pascalRest_kebab s)).
Qed.

(** A name in plain Pascal case is left alone by [toPascal]. *)
Lemma pascalRest_id (s : string) :
  (hyphenBeforeWord s = false -> pascalRest s = s) /\
  (forall c, hyphenBeforeWord (String c s) = false ->
             pascalRest (String c s) = String c s).
Proof.
  induction s as [|d s [IH1 IH2]].
  - split; reflexivity.
  - split; [apply IH2|].
    intros c H. cbn [hyphenBeforeWord] in H.
    apply orb_false_iff in H. destruct H as [Hcd Htl].
    rewrite pascalRest_step, Hcd. now rewrite (IH2 d Htl).
Qed.

Lemma toPascal_id (n : string) : pascalShaped n = true -> toPascal n = n.
Proof.
  unfold pascalShaped. intros H. apply andb_true_iff in H.
  destruct H as [Hs Hh]. apply negb_true_iff in Hs, Hh.
  destruct n as [|c s]; [reflexivity|].
  cbn [toPascal startsLower] in *.
  destruct (Chr.isWord c).
  - rewrite (upper_fixed c Hs). f_equal.
    apply (proj1 (pascalRest_id s)).
    destruct s as [|d s]; [reflexivity|].
    cbn [hyphenBeforeWord] in Hh. now apply orb_false_iff in Hh.
  - now apply (proj2 (pascalRest_id s)).
Qed.

(** The other direction: outside these names the kebab form changes. *)
Lemma word_lower_not_hyphen (d : ascii) :
  Chr.isWord d = true -> Chr.lower d <> "-"%char.
Proof. by_cases_on d; intros _; discriminate. Qed.

Lemma toKebab_tail (c : ascii) (a b : string) :
  toKebab a <> toKebab b -> toKebab (String c a) <> toKebab (String c b).
Proof.
  intros H E. rewrite !(toKebab_cons c) in E.
  destruct (Chr.isUpperAZ c); injection E as E; contradiction.
Qed.

Lemma hyphensBeforeLower_skip (d : ascii) (s : string) :
  Chr.isHyphen d = false -> hyphensBeforeLower (String d s) = hyphensBeforeLower s.
Proof.
  intros H. destruct s as [|e s]; [reflexivity|].
  cbn [hyphensBeforeLower]. now rewrite H.
Qed.

Lemma hyphensBeforeLower_step (c d : ascii) (s : string) :
  hyphensBeforeLower (String c (String d s)) =
  (negb (Chr.isHyphen c && Chr.isWord d) || Chr.isLowerAZ d)
  && hyphensBeforeLower (String d s).
Proof. reflexivity. Qed.

Lemma pascalRest_unstable (s : string) :
  (hyphensBeforeLower s = false -> toKebab (pascalRest s) <> toKebab s) /\
  (forall c, hyphensBeforeLower (String c s) = false ->
             toKebab (pascalRest (String c s)) <> toKebab (String c s)).
Proof.
  induction s as [|d s [IH1 IH2]].
  - split; [discriminate | intros c; discriminate].
  - split; [apply IH2|].
    intros c H. rewrite hyphensBeforeLower_step in H. rewrite pascalRest_step.
    destruct (Chr.isHyphen c && Chr.isWord d) eqn:Em.
    + apply andb_true_iff in Em. destruct Em as [Hc Hd].
      apply hyphen_is in Hc. subst c. rewrite toKebab_hyphen.
      cbn [negb orb] in H.
      destruct (Chr.isLowerAZ d) eqn:El.
      * cbn [andb] in H.
        destruct (upper_of_lower d El) as (U1 & U2 & U3 & U4).
        rewrite (toKebab_cons (Chr.upper d)), U1, U2, (toKebab_cons d), U3, U4.
        rewrite (hyphensBeforeLower_skip d s (word_not_hyphen d Hd)) in H.
        intros E. injection E as E. now apply (IH1 H).
      * rewrite (upper_fixed d El), (toKebab_cons d (pascalRest s)), (toKebab_cons d s).
        pose proof (word_lower_not_hyphen d Hd) as Hl.
        destruct (Chr.isUpperAZ d); intros E; injection E; intros; congruence.
    + cbn [negb orb andb] in H. apply toKebab_tail. now apply IH2.
Qed.

Lemma toPascal_unstable (n : string) :
  kebabStable n = false -> toKebab (toPascal n) <> toKebab n.
Proof.
  unfold kebabStable. intros H.
  destruct n as [|c s]; [discriminate|].
  cbn [toPascal startsLower] in *.
  destruct (Chr.isWord c) eqn:Ew.
  - destruct (Chr.isLowerAZ c) eqn:El.
    + destruct (upper_of_lower c El) as (U1 & U2 & U3 & U4).
      rewrite (toKebab_cons (Chr.upper c)), U1, U2, (toKebab_cons c), U3, U4.
      intros E. injection E; intros.
      pose proof (word_lower_not_hyphen c Ew) as Hl. rewrite U4 in Hl. congruence.
    + cbn [negb andb] in H. rewrite (upper_fixed c El).
      apply toKebab_tail. apply (proj1 (pascalRest_unstable s)).
      now rewrite (hyphensBeforeLower_skip c s (word_not_hyphen c Ew)) in H.
  - assert (El : Chr.isLowerAZ c = false).
    { destruct (Chr.isLowerAZ c) eqn:El; [|reflexivity].
      apply lower_word_char in El. congruence. }
    rewrite El in H. cbn [negb andb] in H.
    now apply (proj2 (pascalRest_unstable s)).
Qed.

End Naming.

(* ------------------------------------------------------------------ *)
(** ** Claims on the naming helpers and on flag resolution             *)
(* ------------------------------------------------------------------ *)

(** C2.  The claim wants [toKebab] to leave a leading capital without a
    hyphen, so that the entity [Post] gets the feature directory [post].
    The script's [toKebab] puts a hyphen before every character of
    [[A-Z]], the first one included: [toKebab "Post"] is ["-post"] and
    the feature directory of [Post] is [features/-post]. *)
Theorem C2_toKebab_Post_has_leading_hyphen :
  toKebab "Post" = "-post" /\
  Generator.featurePath cli (toKebab "Post")
    = "/work/my-app/frontend/src/app/features/-post" /\
  In (EnsureDir "/work/my-app/frontend/src/app/features/-post")
     (emitted (run (Generator.generate stillHost cli blog))) /\
  ~ In (EnsureDir "/work/my-app/frontend/src/app/features/post")
       (emitted (run (Generator.generate stillHost cli blog))).
Proof.
  split; [reflexivity|]. split; [reflexivity|]. split.
  - vm_compute. tauto.
  - vm_compute. intuition discriminate.
Qed.

(** What [toKebab] does at every position: a hyphen goes before each
    character of [[A-Z]], and each character is lower-cased. *)
Lemma toKebab_upper (c : ascii) (s : string) :
  Chr.isUpperAZ c = true ->
  toKebab (String c s) = String "-" (String (Chr.lower c) (toKebab s)).
Proof. intros H. now rewrite Naming.toKebab_cons, H. Qed.

Lemma toKebab_upper_witness :
  toKebab "Post" = String "-" (String (Chr.lower "P") (toKebab "ost")).
Proof. apply (toKebab_upper "P" "ost"). reflexivity. Defined.

Lemma toKebab_other (c : ascii) (s : string) :
  Chr.isUpperAZ c = false ->
  toKebab (String c s) = String (Chr.lower c) (toKebab s).
Proof. intros H. now rewrite Naming.toKebab_cons, H. Qed.

Lemma toKebab_other_witness :
  toKebab "post" = String (Chr.lower "p") (toKebab "ost").
Proof. apply (toKebab_other "p" "ost"). reflexivity. Defined.

(** C3, as stated, fails: [toPascal] drops the hyphen of ["Blog-Post"],
    and the kebab forms differ. *)
Lemma C3_counterexample :
  "Blog-Post" <> "" /\ toKebab (toPascal "Blog-Post") <> toKebab "Blog-Post".
Proof. split; discriminate. Qed.

(** The kebab form of a name with a leading capital, once the leading
    hyphen is dropped, is the form with no hyphen before that
    capital. *)
Lemma dropLeadingHyphen_capital (c : ascii) (s : string) :
  Chr.isUpperAZ c = true ->
  dropLeadingHyphen (toKebab (String c s)) = String (Chr.lower c) (toKebab s).
Proof. intros H. rewrite Naming.toKebab_cons, H. reflexivity. Qed.

(** Dropping the leading hyphen hides whether a hyphen is put before a
    leading capital: any function that agrees with [toKebab] except
    that it leaves a leading capital bare gives the same string. *)
Lemma leading_hyphen_left_out (kebab' : string -> string) :
  kebab' "" = "" ->
  (forall c s, Chr.isUpperAZ c = true ->
     kebab' (String c s) = String (Chr.lower c) (toKebab s)) ->
  (forall c s, Chr.isUpperAZ c = false -> kebab' (String c s) = toKebab (String c s)) ->
  forall x, dropLeadingHyphen (kebab' x) = dropLeadingHyphen (toKebab x).
Proof.
  intros H0 H1 H2 [|c s]; [now rewrite H0|].
  destruct (Chr.isUpperAZ c) eqn:E.
  - rewrite (H1 c s E), (dropLeadingHyphen_capital c s E). cbn [dropLeadingHyphen].
    assert (Hh : Chr.isHyphen (Chr.lower c) = false)
      by (revert E; Naming.by_cases_on c).
    now rewrite Hh.
  - now rewrite (H2 c s E).
Qed.

(** On a name that starts with a letter of [[a-z]] the trip through
    [toPascal] adds the hyphen [toKebab] puts before a capital, and
    nothing else. *)
Lemma kebab_from_lower_initial (c : ascii) (s : string) :
  Chr.isLowerAZ c = true -> hyphensBeforeLower (String c s) = true ->
  toKebab (toPascal (String c s)) = String "-" (toKebab (String c s)).
Proof.
  intros Hc Hh. cbn [toPascal]. rewrite (Naming.lower_word_char c Hc).
  destruct (Naming.upper_of_lower c Hc) as (U1 & U2 & U3 & U4).
  rewrite (Naming.toKebab_cons (Chr.upper c)), U1, U2, (Naming.toKebab_cons c), U3, U4.
  rewrite (proj1 (Naming.pascalRest_kebab s)); [reflexivity|].
  now apply Naming.hyphensBeforeLower_tail in Hh.
Qed.

(** C3, amended.  For every name in which every hyphen standing directly
    before a word character stands before a letter of [[a-z]],
    [toKebab (toPascal n)] and [toKebab n] are the same string once a
    leading hyphen, if there is one, is removed from each.  The
    comparison leaves the first hyphen out, so it says nothing on
    whether [toKebab] puts a hyphen before a leading capital (C2). *)
Theorem C3_kebab_stable_up_to_a_leading_hyphen (n : string) :
  hyphensBeforeLower n = true ->
  dropLeadingHyphen (toKebab (toPascal n)) = dropLeadingHyphen (toKebab n).
Proof.
  intros H. destruct (startsLower n) eqn:L.
  - destruct n as [|c s]; [discriminate|]. cbn [startsLower] in L.
    rewrite (kebab_from_lower_initial c s L H).
    destruct (Naming.upper_of_lower c L) as (_ & _ & U3 & U4).
    rewrite Naming.toKebab_cons, U3, U4.
    cbn [dropLeadingHyphen]. replace (Chr.isHyphen "-") with true by reflexivity.
    now rewrite (Naming.word_not_hyphen c (Naming.lower_word_char c L)).
  - rewrite Naming.toPascal_kebab; [reflexivity|].
    unfold kebabStable. now rewrite L, H.
Qed.

Lemma C3_kebab_stable_witness :
  hyphensBeforeLower "user-profile" = true /\
  dropLeadingHyphen (toKebab (toPascal "user-profile")) =
  dropLeadingHyphen (toKebab "user-profile").
Proof.
  split; [reflexivity|].
  apply (C3_kebab_stable_up_to_a_leading_hyphen "user-profile"). reflexivity.
Defined.

(** On the code as it is, the two kebab forms are equal as they stand
    exactly on the names of [kebabStable]. *)
Lemma kebabStable_exact (n : string) :
  toKebab (toPascal n) = toKebab n <-> kebabStable n = true.
Proof.
  split.
  - intros E. destruct (kebabStable n) eqn:K; [reflexivity|].
    now apply Naming.toPascal_unstable in K.
  - apply Naming.toPascal_kebab.
Qed.

(** C10.  [toPascal] and [toKebab] are functions on all strings (neither
    [replace] nor the case methods throw) and map the empty string to
    itself; [toCamel] throws on the empty string, where [s[0]] is
    [undefined], and returns a string on every other one. *)
Theorem C10_helpers_on_the_empty_string :
  toPascal "" = "" /\ toKebab "" = "" /\
  toCamel "" = Throw TypeError /\
  (forall c s, exists r, toCamel (String c s) = Normal r).
Proof.
  repeat split. intros c s. eexists. reflexivity.
Qed.

(** C4, as stated, fails on [null]: a destructuring default is not taken
    for [null], so ["docker": null] resolves to [null], which is falsy,
    although the command-line default is [true]. *)
Lemma C4_counterexample :
  schemaField FDocker blogDockerNull = JNull /\
  commandLine FDocker cli = true /\
  resolved FDocker cli blogDockerNull <> JBool (commandLine FDocker cli) /\
  truthy (resolved FDocker cli blogDockerNull) = false.
Proof. repeat split. discriminate. Qed.

(** C4, amended.  For each of the five flags and every schema, the
    resolved value is the schema's field when that is [true] or [false],
    and the command-line value when the field is absent or
    [undefined]. *)
Theorem C4_flag_resolution (f : Flag) (o : Options) (schema : Schema.t) :
  (forall b, schemaField f schema = JBool b -> resolved f o schema = JBool b) /\
  (schemaField f schema = JUndefined ->
   resolved f o schema = JBool (commandLine f o)).
Proof.
  split; [intros b|]; destruct f; cbn; intros H;
    unfold graphql, docker, ci, terraform, adminPanel; now rewrite H.
Qed.

Lemma C4_flag_resolution_witness :
  resolved FGraphql cli blogOverrides = JBool true /\
  resolved FDocker cli blogOverrides = JBool (commandLine FDocker cli).
Proof.
  split.
  - apply (proj1 (C4_flag_resolution FGraphql cli blogOverrides) true). reflexivity.
  - apply (proj2 (C4_flag_resolution FDocker cli blogOverrides)). reflexivity.
Defined.

(* ------------------------------------------------------------------ *)
(** ** Running the script                                               *)
(* ------------------------------------------------------------------ *)

Module Run.

Lemma quiet_ret : Quiet (ret tt).
Proof. intros t. reflexivity. Qed.

Lemma quiet_emit (e : Event) : Quiet (emit e).
Proof. intros t. reflexivity. Qed.

Lemma bind_ret {A B : Type} (a : A) (f : A -> M B) (t : nat) :
  bind (ret a) f t = f a t.
Proof. unfold bind, ret. now destruct (f a t). Qed.

Lemma seq_run (m1 m2 : M unit) (t t1 : nat) (e1 : list Event) :
  m1 t = mkOut (Done tt) t1 e1 ->
  (m1 ;; m2) t = mkOut (result (m2 t1)) (ticks (m2 t1)) (e1 ++ emitted (m2 t1)).
Proof. unfold bind. intros ->. now destruct (m2 t1). Qed.

Lemma quiet_seq (m1 m2 : M unit) : Quiet m1 -> Quiet m2 -> Quiet (m1 ;; m2).
Proof.
  intros H1 H2 t.
  rewrite (seq_run m1 m2 t t _ (H1 t)), (seq_run m1 m2 0 0 _ (H1 0)).
  rewrite (H2 t). reflexivity.
Qed.

Lemma quiet_when (b : bool) (m : M unit) : Quiet m -> Quiet (when b m).
Proof. destruct b; [trivial | intros _; apply quiet_ret]. Qed.

Lemma quiet_forOf {A : Type} (l : list A) (body : A -> M unit) :
  (forall x, Quiet (body x)) -> Quiet (forOf l body).
Proof.
  intros H. induction l as [|x l IH]; [apply quiet_ret|].
  apply quiet_seq; [apply H | exact IH].
Qed.

Lemma emitted_seq (m1 m2 : M unit) :
  Quiet m1 -> emitted ((m1 ;; m2) 0) = (emitted (m1 0) ++ emitted (m2 0))%list.
Proof. intros H1. now rewrite (seq_run m1 m2 0 0 _ (H1 0)). Qed.

Lemma emitted_forOf {A : Type} (l : list A) (body : A -> M unit) :
  (forall x, Quiet (body x)) ->
  emitted (forOf l body 0) = flat_map (fun x => emitted (body x 0)) l.
Proof.
  intros H. induction l as [|x l IH]; [reflexivity|].
  cbn [forOf flat_map]. rewrite (emitted_seq _ _ (H x)). now rewrite IH.
Qed.

(** A loop whose body reads the clock once. *)
Lemma forOf_ticking {A : Type} (body : A -> M unit) :
  (forall x t, body x t = mkOut (Done tt) (S t) (emitted (body x t))) ->
  forall l t,
    forOf l body t =
    mkOut (Done tt) (t + List.length l)
          (flat_map (fun p => emitted (body (snd p) (fst p))) (indexedFrom t l)).
Proof.
  intros H. induction l as [|x l IH]; intros t.
  - cbn. now rewrite Nat.add_0_r.
  - cbn [forOf]. rewrite (seq_run _ _ t (S t) _ (H x t)), (IH (S t)).
    cbn. now rewrite Nat.add_succ_r.
Qed.

Lemma ensureDirs_run (ds : list string) (t : nat) :
  forOf ds ensureDirSync t = mkOut (Done tt) t (List.map EnsureDir ds).
Proof.
  induction ds as [|d ds IH]; [reflexivity|].
  cbn [forOf]. now rewrite (seq_run _ _ t t [EnsureDir d] eq_refl), IH.
Qed.

Lemma run_then (m1 m2 : M unit) (t t1 t2 : nat) (e1 e2 : list Event) (r : Step unit) :
  m1 t = mkOut (Done tt) t1 e1 -> m2 t1 = mkOut r t2 e2 ->
  (m1 ;; m2) t = mkOut r t2 (e1 ++ e2).
Proof. intros H1 H2. now rewrite (seq_run _ _ _ _ _ H1), H2. Qed.

Ltac quiet :=
  repeat first
    [ apply quiet_seq | apply quiet_when | apply quiet_emit | apply quiet_ret
    | apply quiet_forOf; intros ? ].

End Run.

(** The artifact plan of a list of events, piece by piece. *)
Lemma planOf_app (a b : list Event) : planOf (a ++ b) = (planOf a ++ planOf b)%list.
Proof.
  induction a as [|e a IH]; [reflexivity|].
  destruct e; cbn; now rewrite IH.
Qed.

Lemma planOf_flat_map {A : Type} (f : A -> list Event) (l : list A) :
  planOf (flat_map f l) = flat_map (fun x => planOf (f x)) l.
Proof.
  induction l as [|x l IH]; [reflexivity|].
  cbn. now rewrite planOf_app, IH.
Qed.

Lemma planOf_ensureDirs (ds : list string) : planOf (List.map EnsureDir ds) = [].
Proof. induction ds as [|d ds IH]; [reflexivity | exact IH]. Qed.

Lemma filter_flat_map {A B : Type} (p : B -> bool) (f : A -> list B) (l : list A) :
  filter p (flat_map f l) = flat_map (fun x => filter p (f x)) l.
Proof.
  induction l as [|x l IH]; [reflexivity|].
  cbn. now rewrite filter_app, IH.
Qed.

Lemma flat_map_nil {A B : Type} (l : list A) :
  flat_map (fun _ : A => @nil B) l = [].
Proof. induction l as [|x l IH]; [reflexivity | exact IH]. Qed.

Lemma flat_map_single {A B : Type} (f : A -> B) (l : list A) :
  flat_map (fun x => [f x]) l = List.map f l.
Proof. induction l as [|x l IH]; [reflexivity | cbn; now rewrite IH]. Qed.

Lemma length_indexedFrom {A : Type} (t : nat) (l : list A) :
  List.length (indexedFrom t l) = List.length l.
Proof.
  unfold indexedFrom. rewrite List.length_combine, List.length_seq. apply Nat.min_id.
Qed.

Module GeneratorRun.
Import Run.
Section Blocks.
Variables (h : Host) (o : Options) (schema : Schema.t).

Lemma quiet_rootFiles : Quiet (Generator.rootFiles o schema).
Proof. unfold Generator.rootFiles. quiet. Qed.

Lemma quiet_backendFixed : Quiet (Generator.backendFixed o schema).
Proof. unfold Generator.backendFixed. quiet. Qed.

Lemma quiet_controllerBody ent : Quiet (Generator.controllerBody o schema ent).
Proof. unfold Generator.controllerBody. quiet. Qed.

Lemma quiet_controllers : Quiet (Generator.controllers o schema).
Proof. unfold Generator.controllers. quiet. Qed.

Lemma quiet_graphqlFiles : Quiet (Generator.graphqlFiles o schema).
Proof. unfold Generator.graphqlFiles. quiet. Qed.

Lemma quiet_frontendFixed : Quiet (Generator.frontendFixed o schema).
Proof. unfold Generator.frontendFixed. quiet. Qed.

Lemma quiet_featureBody ent : Quiet (Generator.featureBody o ent).
Proof. unfold Generator.featureBody. quiet. Qed.

Lemma quiet_features : Quiet (Generator.features o schema).
Proof. unfold Generator.features. quiet. Qed.

Lemma quiet_adminFiles : Quiet (Generator.adminFiles o schema).
Proof. unfold Generator.adminFiles. quiet. Qed.

Lemma quiet_done : Quiet (Generator.done o schema).
Proof. unfold Generator.done. quiet. Qed.

Lemma models_run (t : nat) :
  Generator.models h o schema t =
  mkOut (Done tt) (t + List.length (entities schema))
    (flat_map (fun p => emitted (Generator.modelBody h o schema (snd p) (fst p)))
              (indexedFrom t (entities schema))).
Proof. unfold Generator.models. now apply forOf_ticking. Qed.

(** Everything [generate] emits, block by block: the script runs to its
    end, and reads the clock once per entity. *)
Theorem generate_run (t : nat) :
  Generator.generate h o schema t =
  mkOut (Done tt) (t + List.length (entities schema))
    ([EmptyDir (outDir o)]
     ++ List.map EnsureDir (Generator.dirs o)
     ++ emitted (Generator.rootFiles o schema 0)
     ++ emitted (Generator.backendFixed o schema 0)
     ++ Generator.modelEvents h o schema t
     ++ emitted (Generator.controllers o schema 0)
     ++ emitted (Generator.graphqlFiles o schema 0)
     ++ emitted (Generator.frontendFixed o schema 0)
     ++ emitted (Generator.features o schema 0)
     ++ emitted (Generator.adminFiles o schema 0)
     ++ emitted (Generator.done o schema 0))%list.
Proof.
  unfold Generator.generate.
  eapply run_then; [reflexivity|].
  eapply run_then; [apply ensureDirs_run|].
  eapply run_then; [apply quiet_rootFiles|].
  eapply run_then; [apply quiet_backendFixed|].
  eapply run_then; [apply models_run|].
  eapply run_then; [apply quiet_controllers|].
  eapply run_then; [apply quiet_graphqlFiles|].
  eapply run_then; [apply quiet_frontendFixed|].
  eapply run_then; [apply quiet_features|].
  eapply run_then; [apply quiet_adminFiles|].
  apply quiet_done.
Qed.

Lemma emitted_controllers :
  emitted (Generator.controllers o schema 0) =
  (flat_map (fun ent => emitted (Generator.controllerBody o schema ent 0)) (entities schema)
   ++ emitted (render "backend/src/routes/index.ts.ejs"
                 (Generator.BACK o ++ "/src/routes/index.ts")
                 [("entities", CEntities (entities schema));
                  ("enableGraphQL", CFlag (enableGraphQL o))] 0))%list.
Proof.
  unfold Generator.controllers.
  rewrite emitted_seq by (apply quiet_forOf; apply quiet_controllerBody).
  now rewrite emitted_forOf by apply quiet_controllerBody.
Qed.

Lemma emitted_features :
  emitted (Generator.features o schema 0) =
  flat_map (fun ent => emitted (Generator.featureBody o ent 0)) (entities schema).
Proof.
  unfold Generator.features. now rewrite emitted_forOf by apply quiet_featureBody.
Qed.

End Blocks.
End GeneratorRun.

Module SiblingRun.
Import Run.
Section Blocks.
Variables (h : Host) (o : Options) (schema : Schema.t).

Lemma sib_quiet_rootFiles : Quiet (Sibling.rootFiles o schema).
Proof. unfold Sibling.rootFiles. quiet. Qed.

Lemma sib_quiet_backendFixed : Quiet (Sibling.backendFixed o schema).
Proof. unfold Sibling.backendFixed. quiet. Qed.

Lemma sib_quiet_controllerBody ent : Quiet (Sibling.controllerBody o schema ent).
Proof. unfold Sibling.controllerBody. quiet. Qed.

Lemma sib_quiet_controllers : Quiet (Sibling.controllers o schema).
Proof. unfold Sibling.controllers. quiet. Qed.

Lemma sib_quiet_graphqlFiles : Quiet (Sibling.graphqlFiles o schema).
Proof. unfold Sibling.graphqlFiles. quiet. Qed.

Lemma sib_quiet_frontendFixed : Quiet (Sibling.frontendFixed o schema).
Proof. unfold Sibling.frontendFixed. quiet. Qed.

Lemma sib_quiet_featureBody ent : Quiet (Sibling.featureBody o schema ent).
Proof. unfold Sibling.featureBody. quiet. Qed.

Lemma sib_quiet_features : Quiet (Sibling.features o schema).
Proof. unfold Sibling.features. quiet. Qed.

Lemma sib_quiet_adminFiles : Quiet (Sibling.adminFiles o schema).
Proof. unfold Sibling.adminFiles. quiet. Qed.

Lemma sib_quiet_done : Quiet (Sibling.done o schema).
Proof. unfold Sibling.done. quiet. Qed.

Lemma sib_models_run (t : nat) :
  Sibling.models h o schema t =
  mkOut (Done tt) (t + List.length (entities schema))
    (flat_map (fun p => emitted (Sibling.modelBody h o schema (snd p) (fst p)))
              (indexedFrom t (entities schema))).
Proof. unfold Sibling.models. now apply forOf_ticking. Qed.

(** Everything [generate] emits, block by block: the script runs to its
    end, and reads the clock once per entity. *)
Theorem sib_generate_run (t : nat) :
  Sibling.generate h o schema t =
  mkOut (Done tt) (t + List.length (entities schema))
    ([EmptyDir (outDir o)]
     ++ List.map EnsureDir (Sibling.dirs o schema)
     ++ emitted (Sibling.rootFiles o schema 0)
     ++ emitted (Sibling.backendFixed o schema 0)
     ++ Sibling.modelEvents h o schema t
     ++ emitted (Sibling.controllers o schema 0)
     ++ emitted (Sibling.graphqlFiles o schema 0)
     ++ emitted (Sibling.frontendFixed o schema 0)
     ++ emitted (Sibling.features o schema 0)
     ++ emitted (Sibling.adminFiles o schema 0)
     ++ emitted (Sibling.done o schema 0))%list.
Proof.
  unfold Sibling.generate.
  eapply run_then; [reflexivity|].
  eapply run_then; [apply ensureDirs_run|].
  eapply run_then; [apply sib_quiet_rootFiles|].
  eapply run_then; [apply sib_quiet_backendFixed|].
  eapply run_then; [apply sib_models_run|].
  eapply run_then; [apply sib_quiet_controllers|].
  eapply run_then; [apply sib_quiet_graphqlFiles|].
  eapply run_then; [apply sib_quiet_frontendFixed|].
  eapply run_then; [apply sib_quiet_features|].
  eapply run_then; [apply sib_quiet_adminFiles|].
  apply sib_quiet_done.
Qed.

Lemma sib_emitted_controllers :
  emitted (Sibling.controllers o schema 0) =
  (flat_map (fun ent => emitted (Sibling.controllerBody o schema ent 0)) (entities schema)
   ++ emitted (render "backend/src/routes/index.ts.ejs"
                 (Sibling.BACK o ++ "/src/routes/index.ts")
                 [("entities", CEntities (entities schema));
                  ("schema", CSchema schema)] 0))%list.
Proof.
  unfold Sibling.controllers.
  rewrite emitted_seq by (apply quiet_forOf; apply sib_quiet_controllerBody).
  now rewrite emitted_forOf by apply sib_quiet_controllerBody.
Qed.

Lemma sib_emitted_features :
  emitted (Sibling.features o schema 0) =
  flat_map (fun ent => emitted (Sibling.featureBody o schema ent 0)) (entities schema).
Proof.
  unfold Sibling.features. now rewrite emitted_forOf by apply sib_quiet_featureBody.
Qed.

End Blocks.
End SiblingRun.

(* ------------------------------------------------------------------ *)
(** ** Loading the schema                                               *)
(* ------------------------------------------------------------------ *)

Lemma main_fails_early (h : Host) (o : Options) :
  schemaLoads h o = false ->
  exists out : Out unit,
    (out = mkOut (Halted (Exit 1)) 0 [ConsoleError ("Schema not found: " ++ schemaPath o)]
     \/ exists e, out = mkOut (Halted (Uncaught e)) 0 []) /\
    run (Generator.main h o) = out /\ run (Sibling.main h o) = out.
Proof.
  unfold schemaLoads, run, Generator.main, Sibling.main, existsSync, readFileSync.
  destruct (files h (schemaPath o)) as [text|]; cbn.
  - unfold bind; cbn. destruct (JSON_parse h text) as [schema|e]; [discriminate|].
    intros _. eexists. split; [right; now exists e|]. split; reflexivity.
  - intros _. eexists. split; [now left|]. split; reflexivity.
Qed.

(** C8.  When the schema file is missing or its content does not parse,
    the script ends with a report on the error stream and a non-zero
    status, and has emitted nothing that touches the output directory:
    the check and the parse come before [emptyDirSync].  Both variants
    of the script agree here. *)
Theorem C8_schema_load_failure_leaves_output_untouched (h : Host) (o : Options) :
  schemaLoads h o = false ->
  (reportsError (run (Generator.main h o)) = true /\
   exitStatus (run (Generator.main h o)) <> 0 /\
   Forall (fun e => touchesOutput e = false) (emitted (run (Generator.main h o)))) /\
  (reportsError (run (Sibling.main h o)) = true /\
   exitStatus (run (Sibling.main h o)) <> 0 /\
   Forall (fun e => touchesOutput e = false) (emitted (run (Sibling.main h o)))).
Proof.
  intros H. destruct (main_fails_early h o H) as (out & Hout & -> & ->).
  assert (G : reportsError out = true /\ exitStatus out <> 0 /\
              Forall (fun e => touchesOutput e = false) (emitted out)).
  { destruct Hout as [-> | [e ->]]; cbn; repeat split; auto. }
  split; exact G.
Qed.

Lemma C8_schema_load_failure_witness :
  (reportsError (run (Generator.main stillHost cli)) = true /\
   exitStatus (run (Generator.main stillHost cli)) <> 0 /\
   Forall (fun e => touchesOutput e = false) (emitted (run (Generator.main stillHost cli)))) /\
  (reportsError (run (Generator.main garbledHost cli)) = true /\
   exitStatus (run (Generator.main garbledHost cli)) <> 0 /\
   Forall (fun e => touchesOutput e = false) (emitted (run (Generator.main garbledHost cli)))).
Proof.
  split.
  - apply (C8_schema_load_failure_leaves_output_untouched stillHost cli). reflexivity.
  - apply (C8_schema_load_failure_leaves_output_untouched garbledHost cli). reflexivity.
Defined.

(* ------------------------------------------------------------------ *)
(** ** Migrations and the clock                                         *)
(* ------------------------------------------------------------------ *)

(** Splits on the flags a block is gated on. *)
Ltac flags :=
  repeat match goal with
  | |- context [truthy ?v] => destruct (truthy v)
  | |- context [enableGraphQL ?v] => destruct (enableGraphQL v)
  | |- context [enableAdmin ?v] => destruct (enableAdmin v)
  | |- context [enableTerraform ?v] => destruct (enableTerraform v)
  end.

Module Stamp.

Lemma takeDigits_uint (d : Decimal.uint) (r : string) :
  takeDigits (NilEmpty.string_of_uint d ++ String "-" r) = NilEmpty.string_of_uint d.
Proof. induction d; cbn; [reflexivity | now rewrite IHd ..]. Qed.

Lemma takeDigits_uint0 (d : Decimal.uint) (r : string) :
  takeDigits (NilZero.string_of_uint d ++ String "-" r) = NilZero.string_of_uint d.
Proof. destruct d; try apply (takeDigits_uint _ r). reflexivity. Qed.

Lemma to_int_not_nil (z : Z) :
  Z.to_int z <> Decimal.Pos Decimal.Nil /\ Z.to_int z <> Decimal.Neg Decimal.Nil.
Proof.
  destruct z; cbn; split; try discriminate;
    intros [= H]; now apply Unsigned.to_uint_nonnil in H.
Qed.

(** Reading back the number a template literal printed in front of a
    hyphen. *)
Lemma leadingNumber_showZ (z : Z) (r : string) :
  leadingNumber (showZ z ++ String "-" r) = Some z.
Proof.
  unfold leadingNumber, showZ.
  assert (E : match NilZero.string_of_int (Z.to_int z) ++ String "-" r with
              | EmptyString => EmptyString
              | String c s' =>
                  if Chr.isHyphen c then String c (takeDigits s')
                  else takeDigits (NilZero.string_of_int (Z.to_int z) ++ String "-" r)
              end = NilZero.string_of_int (Z.to_int z)).
  { destruct z as [|p|p]; [reflexivity| |].
    - cbn [Z.to_int NilZero.string_of_int].
      pose proof (Unsigned.to_uint_nonnil p) as Hn.
      rewrite takeDigits_uint0.
      destruct (Pos.to_uint p) eqn:Ep; try (now destruct Hn); reflexivity.
    - cbn [Z.to_int NilZero.string_of_int]. cbn. now rewrite takeDigits_uint0. }
  rewrite E, NilZero.isi by apply to_int_not_nil.
  cbn. now rewrite DecimalZ.of_to.
Qed.

Lemma stampOf_migration (back : string) (z : Z) (table : string) :
  stampOf back (back ++ "/migrations/" ++ showZ z ++ "-create-" ++ table ++ ".ts") = Some z.
Proof.
  unfold stampOf.
  rewrite <- (StrFacts.app_assoc back "/migrations/"), StrFacts.strip_app.
  apply (leadingNumber_showZ z ("create-" ++ table ++ ".ts")).
Qed.

End Stamp.

Lemma migrations_app (a b : list Event) :
  migrationsOf (planOf (a ++ b)) =
  (migrationsOf (planOf a) ++ migrationsOf (planOf b))%list.
Proof. unfold migrationsOf. now rewrite planOf_app, filter_app. Qed.

Lemma migrationsFollowClock_intro
    (h : Host) (back : string) (ents : list Entity) (plan : list Artifact)
    (ctx : Entity -> Context) :
  migrationsOf plan =
    List.map (fun p => mkArtifact "backend/migrations/create-table.ts.ejs"
                (back ++ "/migrations/" ++ showZ (clock h (fst p))
                   ++ "-create-" ++ tableName (snd p) ++ ".ts")
                (ctx (snd p)))
             (indexedFrom 0 ents) ->
  MigrationsFollowClock h back ents plan.
Proof.
  intros E. unfold MigrationsFollowClock, stampsOf, paths. rewrite E.
  rewrite List.length_map, length_indexedFrom, !List.map_map. cbn [destinationPath].
  split; [reflexivity|]. split; [reflexivity|].
  clear E. unfold indexedFrom. generalize 0 as t.
  induction ents as [|ent ents IH]; intros t; [reflexivity|].
  cbn [List.length seq combine List.map fst snd].
  now rewrite Stamp.stampOf_migration, IH.
Qed.

Module GeneratorMigrations.
Import Run GeneratorRun.
Section Blocks.
Variables (h : Host) (o : Options) (schema : Schema.t).

Lemma migrations_rootFiles :
  migrationsOf (planOf (emitted (Generator.rootFiles o schema 0))) = [].
Proof. unfold Generator.rootFiles. flags; reflexivity. Qed.

Lemma migrations_graphqlFiles :
  migrationsOf (planOf (emitted (Generator.graphqlFiles o schema 0))) = [].
Proof. unfold Generator.graphqlFiles. flags; reflexivity. Qed.

Lemma migrations_adminFiles :
  migrationsOf (planOf (emitted (Generator.adminFiles o schema 0))) = [].
Proof. unfold Generator.adminFiles. flags; reflexivity. Qed.

Lemma migrations_done :
  migrationsOf (planOf (emitted (Generator.done o schema 0))) = [].
Proof. unfold Generator.done. flags; reflexivity. Qed.

Lemma migrations_controllers :
  migrationsOf (planOf (emitted (Generator.controllers o schema 0))) = [].
Proof.
  rewrite emitted_controllers, migrations_app. unfold migrationsOf.
  rewrite planOf_flat_map, filter_flat_map. cbn. now rewrite flat_map_nil.
Qed.

Lemma migrations_features :
  migrationsOf (planOf (emitted (Generator.features o schema 0))) = [].
Proof.
  rewrite emitted_features. unfold migrationsOf.
  rewrite planOf_flat_map, filter_flat_map. cbn. now rewrite flat_map_nil.
Qed.

Lemma migrations_models (t : nat) :
  migrationsOf (planOf (Generator.modelEvents h o schema t)) =
  List.map (fun p => mkArtifact "backend/migrations/create-table.ts.ejs"
              (Generator.BACK o ++ "/migrations/" ++ showZ (clock h (fst p))
                 ++ "-create-" ++ tableName (snd p) ++ ".ts")
              [("ent", CEnt (snd p))])
           (indexedFrom t (entities schema)).
Proof.
  unfold Generator.modelEvents, migrationsOf. rewrite planOf_flat_map, filter_flat_map.
  cbn. apply flat_map_single.
Qed.

Lemma migrations_generate :
  migrationsOf (planOf (emitted (run (Generator.generate h o schema)))) =
  List.map (fun p => mkArtifact "backend/migrations/create-table.ts.ejs"
              (Generator.BACK o ++ "/migrations/" ++ showZ (clock h (fst p))
                 ++ "-create-" ++ tableName (snd p) ++ ".ts")
              [("ent", CEnt (snd p))])
           (indexedFrom 0 (entities schema)).
Proof.
  unfold run. rewrite generate_run. cbn [emitted].
  rewrite !migrations_app, migrations_rootFiles, migrations_models,
    migrations_controllers, migrations_graphqlFiles, migrations_features,
    migrations_adminFiles, migrations_done.
  unfold migrationsOf at 1 2 3 4. rewrite planOf_ensureDirs. cbn.
  now rewrite List.app_nil_r.
Qed.

End Blocks.
End GeneratorMigrations.

Module SiblingMigrations.
Import Run SiblingRun.
Section Blocks.
Variables (h : Host) (o : Options) (schema : Schema.t).

Lemma sib_migrations_rootFiles :
  migrationsOf (planOf (emitted (Sibling.rootFiles o schema 0))) = [].
Proof. unfold Sibling.rootFiles. flags; reflexivity. Qed.

Lemma sib_migrations_graphqlFiles :
  migrationsOf (planOf (emitted (Sibling.graphqlFiles o schema 0))) = [].
Proof. unfold Sibling.graphqlFiles. flags; reflexivity. Qed.

Lemma sib_migrations_adminFiles :
  migrationsOf (planOf (emitted (Sibling.adminFiles o schema 0))) = [].
Proof. unfold Sibling.adminFiles. flags; reflexivity. Qed.

Lemma sib_migrations_done :
  migrationsOf (planOf (emitted (Sibling.done o schema 0))) = [].
Proof. unfold Sibling.done. flags; reflexivity. Qed.

Lemma sib_migrations_controllers :
  migrationsOf (planOf (emitted (Sibling.controllers o schema 0))) = [].
Proof.
  rewrite sib_emitted_controllers, migrations_app. unfold migrationsOf.
  rewrite planOf_flat_map, filter_flat_map. cbn. now rewrite flat_map_nil.
Qed.

Lemma sib_migrations_features :
  migrationsOf (planOf (emitted (Sibling.features o schema 0))) = [].
Proof.
  rewrite sib_emitted_features. unfold migrationsOf.
  rewrite planOf_flat_map, filter_flat_map. cbn. now rewrite flat_map_nil.
Qed.

Lemma sib_migrations_models (t : nat) :
  migrationsOf (planOf (Sibling.modelEvents h o schema t)) =
  List.map (fun p => mkArtifact "backend/migrations/create-table.ts.ejs"
              (Sibling.BACK o ++ "/migrations/" ++ showZ (clock h (fst p))
                 ++ "-create-" ++ tableName (snd p) ++ ".ts")
              [("ent", CEnt (snd p)); ("schema", CSchema schema)])
           (indexedFrom t (entities schema)).
Proof.
  unfold Sibling.modelEvents, migrationsOf. rewrite planOf_flat_map, filter_flat_map.
  cbn. apply flat_map_single.
Qed.

Lemma sib_migrations_generate :
  migrationsOf (planOf (emitted (run (Sibling.generate h o schema)))) =
  List.map (fun p => mkArtifact "backend/migrations/create-table.ts.ejs"
              (Sibling.BACK o ++ "/migrations/" ++ showZ (clock h (fst p))
                 ++ "-create-" ++ tableName (snd p) ++ ".ts")
              [("ent", CEnt (snd p)); ("schema", CSchema schema)])
           (indexedFrom 0 (entities schema)).
Proof.
  unfold run. rewrite sib_generate_run. cbn [emitted].
  rewrite !migrations_app, sib_migrations_rootFiles, sib_migrations_models,
    sib_migrations_controllers, sib_migrations_graphqlFiles, sib_migrations_features,
    sib_migrations_adminFiles, sib_migrations_done.
  unfold migrationsOf at 1 2 3 4. rewrite planOf_ensureDirs. cbn.
  now rewrite List.app_nil_r.
Qed.

End Blocks.
End SiblingMigrations.

(** C1, as stated, fails: the script takes the number from [Date.now()]
    as it is, so two entities handled within the same millisecond get
    the same number. *)
Lemma C1_counterexample :
  let plan := planOf (emitted (run (Generator.generate stillHost cli blogTwo))) in
  List.length (migrationsOf plan) = 2 /\
  stampsOf (Generator.BACK cli) plan = [Some 1700000000000%Z; Some 1700000000000%Z] /\
  strictlyIncreasing (stampsOf (Generator.BACK cli) plan) = false.
Proof. vm_compute. repeat split. Qed.

(** C1, amended.  For every schema with [k] entities the plan holds
    exactly [k] migration entries, one per entity in schema order, and
    the number in the path of the [i]-th one is the [i]-th reading of
    the system clock: the numbers increase as the readings do, and are
    equal for readings within the same millisecond.  This holds for both
    variants of the script. *)
Theorem C1_migrations_follow_the_clock (h : Host) (o : Options) (schema : Schema.t) :
  MigrationsFollowClock h (Generator.BACK o) (entities schema)
    (planOf (emitted (run (Generator.generate h o schema)))) /\
  MigrationsFollowClock h (Sibling.BACK o) (entities schema)
    (planOf (emitted (run (Sibling.generate h o schema)))).
Proof.
  split.
  - apply (migrationsFollowClock_intro _ _ _ _ (fun ent => [("ent", CEnt ent)])).
    apply GeneratorMigrations.migrations_generate.
  - apply (migrationsFollowClock_intro _ _ _ _
             (fun ent => [("ent", CEnt ent); ("schema", CSchema schema)])).
    apply SiblingMigrations.sib_migrations_generate.
Qed.

(* ------------------------------------------------------------------ *)
(** ** The plan, block by block                                         *)
(* ------------------------------------------------------------------ *)

Lemma map_flat_map {A B C : Type} (g : B -> C) (f : A -> list B) (l : list A) :
  List.map g (flat_map f l) = flat_map (fun x => List.map g (f x)) l.
Proof.
  induction l as [|x l IH]; [reflexivity|].
  cbn. now rewrite List.map_app, IH.
Qed.

Lemma sameButStamps_frame (a b m1 m2 : list Artifact) :
  SameButStamps m1 m2 -> SameButStamps (a ++ m1 ++ b) (a ++ m2 ++ b).
Proof.
  intros (T & C & F). unfold SameButStamps.
  rewrite !List.map_app, !filter_app, T, C, F. repeat split.
Qed.

Module GeneratorPlan.
Import Run GeneratorRun.
Section Blocks.
Variables (o : Options) (schema : Schema.t).

Lemma plan_done : planOf (emitted (Generator.done o schema 0)) = [].
Proof. unfold Generator.done. flags; reflexivity. Qed.

Lemma plan_generate (h : Host) :
  planOf (emitted (run (Generator.generate h o schema))) =
  ((planOf (emitted (Generator.rootFiles o schema 0))
    ++ planOf (emitted (Generator.backendFixed o schema 0)))
   ++ planOf (Generator.modelEvents h o schema 0)
   ++ (planOf (emitted (Generator.controllers o schema 0))
       ++ planOf (emitted (Generator.graphqlFiles o schema 0))
       ++ planOf (emitted (Generator.frontendFixed o schema 0))
       ++ planOf (emitted (Generator.features o schema 0))
       ++ planOf (emitted (Generator.adminFiles o schema 0))))%list.
Proof.
  unfold run. rewrite generate_run. cbn [emitted].
  rewrite !planOf_app, planOf_ensureDirs, plan_done. cbn [planOf List.app].
  now rewrite !List.app_nil_r, <- !List.app_assoc.
Qed.

Lemma models_sameButStamps (h1 h2 : Host) (t : nat) :
  SameButStamps (planOf (Generator.modelEvents h1 o schema t)) (planOf (Generator.modelEvents h2 o schema t)).
Proof.
  unfold SameButStamps, Generator.modelEvents.
  rewrite !planOf_flat_map, !map_flat_map, !filter_flat_map. repeat split.
Qed.

Lemma models_same_clock (h1 h2 : Host) (ents : list Entity) (t : nat) :
  (forall i, t <= i < t + List.length ents -> clock h1 i = clock h2 i) ->
  flat_map (fun p => emitted (Generator.modelBody h1 o schema (snd p) (fst p)))
           (indexedFrom t ents) =
  flat_map (fun p => emitted (Generator.modelBody h2 o schema (snd p) (fst p)))
           (indexedFrom t ents).
Proof.
  revert t. induction ents as [|ent ents IH]; intros t H; [reflexivity|].
  unfold indexedFrom in *. cbn [List.length seq combine flat_map fst snd].
  rewrite (IH (S t)) by (intros i Hi; apply H; cbn [List.length]; lia).
  cbn. rewrite (H t) by (cbn [List.length]; lia). reflexivity.
Qed.

End Blocks.
End GeneratorPlan.

Module SiblingPlan.
Import Run SiblingRun.
Section Blocks.
Variables (o : Options) (schema : Schema.t).

Lemma sib_plan_done : planOf (emitted (Sibling.done o schema 0)) = [].
Proof. unfold Sibling.done. flags; reflexivity. Qed.

Lemma sib_plan_generate (h : Host) :
  planOf (emitted (run (Sibling.generate h o schema))) =
  ((planOf (emitted (Sibling.rootFiles o schema 0))
    ++ planOf (emitted (Sibling.backendFixed o schema 0)))
   ++ planOf (Sibling.modelEvents h o schema 0)
   ++ (planOf (emitted (Sibling.controllers o schema 0))
       ++ planOf (emitted (Sibling.graphqlFiles o schema 0))
       ++ planOf (emitted (Sibling.frontendFixed o schema 0))
       ++ planOf (emitted (Sibling.features o schema 0))
       ++ planOf (emitted (Sibling.adminFiles o schema 0))))%list.
Proof.
  unfold run. rewrite sib_generate_run. cbn [emitted].
  rewrite !planOf_app, planOf_ensureDirs, sib_plan_done. cbn [planOf List.app].
  now rewrite !List.app_nil_r, <- !List.app_assoc.
Qed.

Lemma sib_models_sameButStamps (h1 h2 : Host) (t : nat) :
  SameButStamps (planOf (Sibling.modelEvents h1 o schema t)) (planOf (Sibling.modelEvents h2 o schema t)).
Proof.
  unfold SameButStamps, Sibling.modelEvents.
  rewrite !planOf_flat_map, !map_flat_map, !filter_flat_map. repeat split.
Qed.

Lemma sib_models_same_clock (h1 h2 : Host) (ents : list Entity) (t : nat) :
  (forall i, t <= i < t + List.length ents -> clock h1 i = clock h2 i) ->
  flat_map (fun p => emitted (Sibling.modelBody h1 o schema (snd p) (fst p)))
           (indexedFrom t ents) =
  flat_map (fun p => emitted (Sibling.modelBody h2 o schema (snd p) (fst p)))
           (indexedFrom t ents).
Proof.
  revert t. induction ents as [|ent ents IH]; intros t H; [reflexivity|].
  unfold indexedFrom in *. cbn [List.length seq combine flat_map fst snd].
  rewrite (IH (S t)) by (intros i Hi; apply H; cbn [List.length]; lia).
  cbn. rewrite (H t) by (cbn [List.length]; lia). reflexivity.
Qed.

End Blocks.
End SiblingPlan.

(** C9, as stated, fails: the plan also depends on the clock.  In both
    variants the same schema and options, hence the same resolved
    flags, give two different plans on a clock that stands still and on
    one that advances. *)
Lemma C9_counterexample :
  planOf (emitted (run (Generator.generate stillHost cli blogTwo))) <>
  planOf (emitted (run (Generator.generate tickingHost cli blogTwo))) /\
  planOf (emitted (run (Sibling.generate stillHost cli blogTwo))) <>
  planOf (emitted (run (Sibling.generate tickingHost cli blogTwo))).
Proof. split; vm_compute; discriminate. Qed.

(** What the sibling variant takes from its options: the output
    directory and the five resolved flags. *)
Lemma sib_generate_same_resolved (h : Host) (o1 o2 : Options) (schema : Schema.t) :
  outDir o1 = outDir o2 ->
  (forall f, truthy (resolved f o1 schema) = truthy (resolved f o2 schema)) ->
  Sibling.generate h o1 schema = Sibling.generate h o2 schema.
Proof.
  intros Hod Hres.
  pose proof (Hres FGraphql) as Hg. pose proof (Hres FDocker) as Hd.
  pose proof (Hres FCi) as Hc. pose proof (Hres FTerraform) as Ht.
  pose proof (Hres FAdminPanel) as Ha. cbn [resolved] in *.
  destruct o1 as [sp1 od1 g1 d1 c1 t1 a1], o2 as [sp2 od2 g2 d2 c2 t2 a2].
  cbn [outDir] in Hod. subst od2.
  unfold Sibling.generate, Sibling.dirs, Sibling.rootFiles, Sibling.graphqlFiles,
    Sibling.adminFiles, Sibling.done.
  rewrite Hg, Hd, Hc, Ht, Ha. reflexivity.
Qed.

(** C9, amended.  Two runs of the planner on the same schema and the
    same resolved flags, for the same output directory, plan the same
    templates with the same contexts in the same order, and the same
    destination paths except for those of the migration entries, whose
    number is read from the system clock; the two plans are identical
    when the runs read the same numbers from the clock.  This is the
    planner of the sibling variant, which reads the resolved flags and
    nothing else of the command line; what [generator.js] takes from
    the raw flags is the subject of C5. *)
Theorem C9_same_resolved_config_same_plan_up_to_the_clock
    (h1 h2 : Host) (o1 o2 : Options) (schema : Schema.t) :
  outDir o1 = outDir o2 ->
  (forall f, truthy (resolved f o1 schema) = truthy (resolved f o2 schema)) ->
  SameButStamps (planOf (emitted (run (Sibling.generate h1 o1 schema))))
                (planOf (emitted (run (Sibling.generate h2 o2 schema)))) /\
  ((forall i, i < List.length (entities schema) -> clock h1 i = clock h2 i) ->
   planOf (emitted (run (Sibling.generate h1 o1 schema))) =
   planOf (emitted (run (Sibling.generate h2 o2 schema)))).
Proof.
  intros Hod Hres.
  rewrite <- (sib_generate_same_resolved h2 o1 o2 schema Hod Hres).
  rewrite !SiblingPlan.sib_plan_generate. split.
  - apply sameButStamps_frame, SiblingPlan.sib_models_sameButStamps.
  - intros H. unfold Sibling.modelEvents.
    rewrite (SiblingPlan.sib_models_same_clock o1 schema h1 h2 (entities schema) 0);
      [reflexivity|].
    intros i Hi. apply H. lia.
Qed.

Lemma C9_same_resolved_config_witness :
  planOf (emitted (run (Sibling.generate stillHost cli blogGraphql))) =
  planOf (emitted (run (Sibling.generate otherStillHost cliGraphql blogGraphql))).
Proof.
  refine (proj2 (C9_same_resolved_config_same_plan_up_to_the_clock
                   stillHost otherStillHost cli cliGraphql blogGraphql _ _) _).
  - reflexivity.
  - intros f. destruct f; reflexivity.
  - intros i _. reflexivity.
Defined.

(** On [generator.js] two runs on the same schema and the same options
    are related in the same way. *)
Lemma generator_js_plan_determined_up_to_the_clock
    (h1 h2 : Host) (o : Options) (schema : Schema.t) :
  SameButStamps (planOf (emitted (run (Generator.generate h1 o schema))))
                (planOf (emitted (run (Generator.generate h2 o schema)))) /\
  ((forall i, i < List.length (entities schema) -> clock h1 i = clock h2 i) ->
   planOf (emitted (run (Generator.generate h1 o schema))) =
   planOf (emitted (run (Generator.generate h2 o schema)))).
Proof.
  rewrite !GeneratorPlan.plan_generate. split.
  - apply sameButStamps_frame, GeneratorPlan.models_sameButStamps.
  - intros H. unfold Generator.modelEvents.
    rewrite (GeneratorPlan.models_same_clock o schema h1 h2 (entities schema) 0);
      [reflexivity|].
    intros i Hi. apply H. lia.
Qed.

(** With the same resolved flags and the same clock, [generator.js]
    plans two more files when GraphQL is switched on by the command
    line than when the schema switches it on; the sibling variant plans
    the same number. *)
Example generator_js_same_resolved_config :
  (forall f, truthy (resolved f cli blogGraphql) = truthy (resolved f cliGraphql blogGraphql)) /\
  List.length (planOf (emitted (run (Generator.generate stillHost cli blogGraphql)))) = 47 /\
  List.length (planOf (emitted (run (Generator.generate stillHost cliGraphql blogGraphql)))) = 49 /\
  List.length (planOf (emitted (run (Sibling.generate stillHost cli blogGraphql)))) = 50 /\
  List.length (planOf (emitted (run (Sibling.generate stillHost cliGraphql blogGraphql)))) = 50.
Proof. split; [intros f; destruct f; reflexivity|]. repeat split; reflexivity. Qed.

(* ------------------------------------------------------------------ *)
(** ** Scenario A: the blog schema with the command-line defaults       *)
(* ------------------------------------------------------------------ *)

Lemma main_loads (h : Host) (o : Options) (text : string) (schema : Schema.t) :
  files h (schemaPath o) = Some text -> JSON_parse h text = Normal schema ->
  run (Generator.main h o) = run (Generator.generate h o schema).
Proof.
  intros Hf Hp. unfold run, Generator.main, existsSync, readFileSync.
  rewrite Hf. cbn [negb]. rewrite Run.bind_ret, Hp. cbn [lift].
  apply Run.bind_ret.
Qed.

(** Every destination path of scenario A, in the order of the plan. *)
Lemma scenarioA_paths (h : Host) (sp od : string) :
  let o := defaultOptions sp od in
  let B := Generator.BACK o in
  let F := Generator.FRONT o in
  paths (planOf (emitted (run (Generator.generate h o blog)))) =
  [ B ++ "/Dockerfile"; F ++ "/Dockerfile"; od ++ "/docker-compose.yml";
    od ++ "/.github/workflows/ci.yml";
    od ++ "/terraform/main.tf"; od ++ "/terraform/variables.tf";
    od ++ "/terraform/outputs.tf"; od ++ "/terraform/terraform.tfvars.example";
    B ++ "/package.json"; B ++ "/tsconfig.json"; B ++ "/.env.example";
    B ++ "/src/server.ts"; B ++ "/src/config/database.ts";
    B ++ "/src/middleware/auth.ts"; B ++ "/src/middleware/upload.ts";
    B ++ "/src/middleware/error.ts";
    B ++ "/src/models/Post.ts";
    B ++ "/migrations/" ++ showZ (clock h 0) ++ "-create-posts.ts";
    B ++ "/tests/Post.test.ts";
    B ++ "/src/controllers/PostController.ts";
    B ++ "/src/routes/-post.ts";
    B ++ "/src/routes/index.ts";
    F ++ "/package.json"; F ++ "/angular.json"; F ++ "/tsconfig.json";
    F ++ "/src/index.html"; F ++ "/src/main.ts"; F ++ "/src/polyfills.ts";
    F ++ "/src/styles.scss";
    F ++ "/src/app/app.module.ts"; F ++ "/src/app/app-routing.module.ts";
    F ++ "/src/app/app.component.html"; F ++ "/src/app/app.component.ts";
    F ++ "/src/app/core/auth/auth.service.ts";
    F ++ "/src/app/core/auth/jwt.interceptor.ts";
    F ++ "/src/app/core/auth/auth.guard.ts";
    Generator.featurePath o "-post" ++ "/-post.module.ts";
    Generator.featurePath o "-post" ++ "/-post.service.ts";
    Generator.featurePath o "-post" ++ "/-post-list.component.html";
    Generator.featurePath o "-post" ++ "/-post-list.component.ts";
    Generator.featurePath o "-post" ++ "/-post-form.component.html";
    Generator.featurePath o "-post" ++ "/-post-form.component.ts";
    F ++ "/src/app/@theme/@theme.module.ts";
    F ++ "/src/app/@theme/styles/themes.scss";
    F ++ "/src/app/pages/pages.module.ts";
    F ++ "/src/app/pages/dashboard/dashboard.component.html";
    F ++ "/src/app/pages/dashboard/dashboard.component.ts" ].
Proof. reflexivity. Qed.

(** C6, as stated, fails: [--admin] defaults to [true], so scenario A
    does render the admin-panel files. *)
Lemma C6_counterexample :
  let plan := planOf (emitted (run (Generator.main blogHost cli))) in
  enableAdmin cli = true /\
  result (run (Generator.main blogHost cli)) = Done tt /\
  hasPath plan "/work/my-app/frontend/src/app/@theme/@theme.module.ts" = true /\
  hasPath plan "/work/my-app/frontend/src/app/pages/pages.module.ts" = true /\
  hasPath plan "/work/my-app/frontend/src/app/pages/dashboard/dashboard.component.ts" = true.
Proof. vm_compute. repeat split. Qed.

(** C6, amended.  For the blog schema with the five flags at their
    command-line defaults (admin panel: [true]) and no schema overrides,
    the script runs to its end and the plan holds the backend model,
    controller, route, migration and test of [Post], the three
    containerization files, the four infrastructure-as-code files, no
    GraphQL file, and the five admin-panel files. *)
Theorem C6_scenario_A (h : Host) (sp od text : string) :
  files h sp = Some text -> JSON_parse h text = Normal blog ->
  let o := defaultOptions sp od in
  let B := Generator.BACK o in
  let F := Generator.FRONT o in
  let plan := planOf (emitted (run (Generator.main h o))) in
  result (run (Generator.main h o)) = Done tt /\
  Forall (fun p => In p (paths plan))
    [ B ++ "/src/models/Post.ts";
      B ++ "/src/controllers/PostController.ts";
      B ++ "/src/routes/" ++ toKebab "Post" ++ ".ts";
      B ++ "/migrations/" ++ showZ (clock h 0) ++ "-create-posts.ts";
      B ++ "/tests/Post.test.ts" ] /\
  paths (under "docker/" plan) =
    [ B ++ "/Dockerfile"; F ++ "/Dockerfile"; od ++ "/docker-compose.yml" ] /\
  paths (under "terraform/" plan) =
    [ od ++ "/terraform/main.tf"; od ++ "/terraform/variables.tf";
      od ++ "/terraform/outputs.tf"; od ++ "/terraform/terraform.tfvars.example" ] /\
  under "backend/src/graphql/" plan = [] /\
  paths (under "frontend/src/app/@theme/" plan ++ under "frontend/src/app/pages/" plan) =
    [ F ++ "/src/app/@theme/@theme.module.ts";
      F ++ "/src/app/@theme/styles/themes.scss";
      F ++ "/src/app/pages/pages.module.ts";
      F ++ "/src/app/pages/dashboard/dashboard.component.html";
      F ++ "/src/app/pages/dashboard/dashboard.component.ts" ].
Proof.
  intros Hf Hp o B F plan. subst plan B F o.
  rewrite (main_loads h (defaultOptions sp od) text blog Hf Hp).
  split; [reflexivity|]. split.
  - rewrite (scenarioA_paths h sp od).
    repeat (apply Forall_cons;
            [cbn [In]; repeat (first [left; reflexivity | right])|]).
    apply Forall_nil.
  - repeat split; reflexivity.
Qed.

Lemma C6_scenario_A_witness :
  result (run (Generator.main blogHost cli)) = Done tt /\
  under "backend/src/graphql/" (planOf (emitted (run (Generator.main blogHost cli)))) = [].
Proof.
  pose proof (C6_scenario_A blogHost "/work/schema.json" "/work/my-app" blogText
                eq_refl eq_refl) as H.
  cbv zeta in H. split; [apply H | apply H].
Defined.

(* ------------------------------------------------------------------ *)
(** ** Which flag gates what                                            *)
(* ------------------------------------------------------------------ *)

Lemma conditional_app (a b : list Artifact) :
  conditional (a ++ b) = (conditional a ++ conditional b)%list.
Proof. apply filter_app. Qed.

Lemma dirsOf_app (a b : list Event) : dirsOf (a ++ b) = (dirsOf a ++ dirsOf b)%list.
Proof.
  induction a as [|e a IH]; [reflexivity|].
  destruct e; cbn; now rewrite IH.
Qed.

Lemma dirsOf_ensureDirs (ds : list string) : dirsOf (List.map EnsureDir ds) = ds.
Proof. induction ds as [|d ds IH]; [reflexivity | cbn; now rewrite IH]. Qed.

Lemma dirsOf_flat_map {A : Type} (f : A -> list Event) (l : list A) :
  dirsOf (flat_map f l) = flat_map (fun x => dirsOf (f x)) l.
Proof.
  induction l as [|x l IH]; [reflexivity|].
  cbn. now rewrite dirsOf_app, IH.
Qed.

Module GeneratorGates.
Import Run GeneratorRun GeneratorPlan.
Section Gates.
Variables (h : Host) (o : Options) (schema : Schema.t).

(** In [generator.js] the docker, CI and terraform files follow the
    resolved flags, the GraphQL and admin-panel files follow the raw
    command-line flags. *)
Lemma files_gated :
  paths (conditional (planOf (emitted (run (Generator.generate h o schema))))) =
  conditionalPaths (Generator.BACK o) (Generator.FRONT o) (outDir o)
    (truthy (resolved FDocker o schema)) (truthy (resolved FCi o schema))
    (truthy (resolved FTerraform o schema))
    (enableGraphQL o) (enableAdmin o).
Proof.
  rewrite plan_generate. unfold Generator.modelEvents.
  rewrite emitted_controllers, emitted_features.
  rewrite !conditional_app, !planOf_app, !conditional_app, !planOf_flat_map.
  unfold conditional. rewrite !filter_flat_map. cbn -[Generator.rootFiles].
  rewrite !flat_map_nil. cbn [List.app].
  unfold Generator.rootFiles, Generator.graphqlFiles, Generator.adminFiles.
  cbn [resolved]. flags; reflexivity.
Qed.

Lemma dirsOf_rootFiles : dirsOf (emitted (Generator.rootFiles o schema 0)) = [].
Proof. unfold Generator.rootFiles. flags; reflexivity. Qed.

Lemma dirsOf_graphqlFiles : dirsOf (emitted (Generator.graphqlFiles o schema 0)) = [].
Proof. unfold Generator.graphqlFiles. flags; reflexivity. Qed.

Lemma dirsOf_adminFiles : dirsOf (emitted (Generator.adminFiles o schema 0)) = [].
Proof. unfold Generator.adminFiles. flags; reflexivity. Qed.

Lemma dirsOf_done : dirsOf (emitted (Generator.done o schema 0)) = [].
Proof. unfold Generator.done. flags; reflexivity. Qed.

(** The optional skeleton directories follow the raw command-line
    flags. *)
Lemma dirs_gated :
  dirsOf (emitted (run (Generator.generate h o schema))) =
  (fixedDirs (Generator.BACK o) (Generator.FRONT o)
   ++ conditionalDirs (Generator.FRONT o) (outDir o) (enableAdmin o) (enableTerraform o)
   ++ List.map (fun ent => Generator.featurePath o (toKebab (name ent))) (entities schema))%list.
Proof.
  unfold run. rewrite generate_run. cbn [emitted]. unfold Generator.modelEvents.
  rewrite emitted_controllers, emitted_features.
  rewrite !dirsOf_app, dirsOf_ensureDirs, !dirsOf_flat_map.
  rewrite dirsOf_rootFiles, dirsOf_graphqlFiles, dirsOf_adminFiles, dirsOf_done.
  cbn -[Generator.dirs]. rewrite !flat_map_nil, flat_map_single.
  cbn [List.app]. rewrite !List.app_nil_r. reflexivity.
Qed.

End Gates.
End GeneratorGates.

Module SiblingGates.
Import Run SiblingRun SiblingPlan.
Section Gates.
Variables (h : Host) (o : Options) (schema : Schema.t).

(** In the sibling variant all five groups of optional files follow the
    resolved flags. *)
Lemma sib_files_gated :
  paths (conditional (planOf (emitted (run (Sibling.generate h o schema))))) =
  conditionalPaths (Sibling.BACK o) (Sibling.FRONT o) (outDir o)
    (truthy (resolved FDocker o schema)) (truthy (resolved FCi o schema))
    (truthy (resolved FTerraform o schema))
    (truthy (resolved FGraphql o schema)) (truthy (resolved FAdminPanel o schema)).
Proof.
  rewrite sib_plan_generate. unfold Sibling.modelEvents.
  rewrite sib_emitted_controllers, sib_emitted_features.
  rewrite !conditional_app, !planOf_app, !conditional_app, !planOf_flat_map.
  unfold conditional. rewrite !filter_flat_map. cbn -[Sibling.rootFiles].
  rewrite !flat_map_nil. cbn [List.app].
  unfold Sibling.rootFiles, Sibling.graphqlFiles, Sibling.adminFiles.
  cbn [resolved]. flags; reflexivity.
Qed.

Lemma sib_dirsOf_rootFiles : dirsOf (emitted (Sibling.rootFiles o schema 0)) = [].
Proof. unfold Sibling.rootFiles. flags; reflexivity. Qed.

Lemma sib_dirsOf_graphqlFiles : dirsOf (emitted (Sibling.graphqlFiles o schema 0)) = [].
Proof. unfold Sibling.graphqlFiles. flags; reflexivity. Qed.

Lemma sib_dirsOf_adminFiles : dirsOf (emitted (Sibling.adminFiles o schema 0)) = [].
Proof. unfold Sibling.adminFiles. flags; reflexivity. Qed.

Lemma sib_dirsOf_done : dirsOf (emitted (Sibling.done o schema 0)) = [].
Proof. unfold Sibling.done. flags; reflexivity. Qed.

(** The optional skeleton directories follow the resolved flags
    too. *)
Lemma sib_dirs_gated :
  dirsOf (emitted (run (Sibling.generate h o schema))) =
  (fixedDirs (Sibling.BACK o) (Sibling.FRONT o)
   ++ conditionalDirs (Sibling.FRONT o) (outDir o)
        (truthy (resolved FAdminPanel o schema)) (truthy (resolved FTerraform o schema))
   ++ List.map (fun ent => Sibling.featurePath o (toKebab (name ent))) (entities schema))%list.
Proof.
  unfold run. rewrite sib_generate_run. cbn [emitted]. unfold Sibling.modelEvents.
  rewrite sib_emitted_controllers, sib_emitted_features.
  rewrite !dirsOf_app, dirsOf_ensureDirs, !dirsOf_flat_map.
  rewrite sib_dirsOf_rootFiles, sib_dirsOf_graphqlFiles, sib_dirsOf_adminFiles, sib_dirsOf_done.
  cbn -[Sibling.dirs]. rewrite !flat_map_nil, flat_map_single.
  cbn [List.app]. rewrite !List.app_nil_r. reflexivity.
Qed.

End Gates.
End SiblingGates.

(** C5.  The claim wants every gate to read the resolved flag.  In
    [generator.js] only the docker, CI and terraform files do: with
    ["graphql": true, "terraform": false, "adminPanel": false] in the
    schema and the command-line defaults, the terraform directory of
    the skeleton is created although no terraform file is rendered, the
    admin-panel directories and files are created although the resolved
    flag is [false], and no GraphQL file is rendered although the
    resolved flag is [true]. *)
Theorem C5_generator_js_gates_on_raw_flags :
  let evs := emitted (run (Generator.generate stillHost cli blogOverrides)) in
  let plan := planOf evs in
  (resolved FTerraform cli blogOverrides = JBool false /\
   In "/work/my-app/terraform" (dirsOf evs) /\
   under "terraform/" plan = []) /\
  (resolved FAdminPanel cli blogOverrides = JBool false /\
   In "/work/my-app/frontend/src/app/pages" (dirsOf evs) /\
   hasPath plan "/work/my-app/frontend/src/app/pages/pages.module.ts" = true) /\
  (resolved FGraphql cli blogOverrides = JBool true /\
   under "backend/src/graphql/" plan = []).
Proof. vm_compute. intuition. Qed.

(** The sibling variant does what the claim says, on every input: the
    optional files and the optional directories are exactly those of
    the resolved flags. *)
Lemma sibling_gates_on_resolved_flags (h : Host) (o : Options) (schema : Schema.t) :
  let evs := emitted (run (Sibling.generate h o schema)) in
  paths (conditional (planOf evs)) =
    conditionalPaths (Sibling.BACK o) (Sibling.FRONT o) (outDir o)
      (truthy (resolved FDocker o schema)) (truthy (resolved FCi o schema))
      (truthy (resolved FTerraform o schema)) (truthy (resolved FGraphql o schema))
      (truthy (resolved FAdminPanel o schema)) /\
  dirsOf evs =
    (fixedDirs (Sibling.BACK o) (Sibling.FRONT o)
     ++ conditionalDirs (Sibling.FRONT o) (outDir o)
          (truthy (resolved FAdminPanel o schema)) (truthy (resolved FTerraform o schema))
     ++ List.map (fun ent => Sibling.featurePath o (toKebab (name ent)))
                 (entities schema))%list.
Proof.
  split; [apply SiblingGates.sib_files_gated | apply SiblingGates.sib_dirs_gated].
Qed.

(** On the same input the sibling variant creates neither the terraform
    nor the admin-panel directories and files, and renders the GraphQL
    files. *)
Lemma sibling_on_overrides :
  let evs := emitted (run (Sibling.generate stillHost cli blogOverrides)) in
  let plan := planOf evs in
  ~ In "/work/my-app/terraform" (dirsOf evs) /\
  under "terraform/" plan = [] /\
  ~ In "/work/my-app/frontend/src/app/pages" (dirsOf evs) /\
  hasPath plan "/work/my-app/frontend/src/app/pages/pages.module.ts" = false /\
  hasPath plan "/work/my-app/backend/src/graphql/typeDefs.ts" = true.
Proof. vm_compute. intuition discriminate. Qed.

(* ------------------------------------------------------------------ *)
(** ** Uniqueness of destination paths                                  *)
(* ------------------------------------------------------------------ *)

Module Unique.

Lemma rev_app (a b : string) : strRev (a ++ b) = strRev b ++ strRev a.
Proof.
  induction a as [|c a IH]; cbn.
  - now rewrite StrFacts.app_nil_r.
  - now rewrite IH, StrFacts.app_assoc.
Qed.

Lemma rev_involutive (s : string) : strRev (strRev s) = s.
Proof.
  induction s as [|c s IH]; [reflexivity|].
  cbn. now rewrite rev_app, IH.
Qed.

Lemma rev_inj (a b : string) : strRev a = strRev b -> a = b.
Proof. intros H. now rewrite <- (rev_involutive a), H, rev_involutive. Qed.

Lemma classEqb_refl (c : PathClass) : classEqb c c = true.
Proof. now destruct c. Qed.

Lemma classEqb_eq (a b : PathClass) : classEqb a b = true -> a = b.
Proof. destruct a, b; now intros H. Qed.

Lemma nodupb_sound (l : list string) : nodupb l = true -> NoDup l.
Proof.
  induction l as [|x l IH]; cbn; intros H; [constructor|].
  apply andb_true_iff in H. destruct H as [Hx Hl].
  constructor; [|now apply IH].
  intros Hin. apply negb_true_iff in Hx.
  assert (E : existsb (String.eqb x) l = true).
  { apply existsb_exists. exists x. split; [exact Hin | apply String.eqb_refl]. }
  congruence.
Qed.

Lemma NoDup_by_class (l : list string) :
  (forall c, NoDup (inClass c l)) -> NoDup l.
Proof.
  unfold inClass. induction l as [|x l IH]; intros H; [constructor|].
  constructor.
  - intros Hin. specialize (H (classOf x)). cbn in H.
    rewrite classEqb_refl in H. apply NoDup_cons_iff in H. apply (proj1 H).
    apply filter_In. split; [exact Hin | apply classEqb_refl].
  - apply IH. intros c. specialize (H c). cbn in H.
    destruct (classEqb (classOf x) c); [now apply NoDup_cons_iff in H | exact H].
Qed.

Lemma NoDup_map_by {A B C : Type} (f : A -> B) (g : A -> C) (l : list A) :
  (forall x y, f x = f y -> g x = g y) ->
  NoDup (List.map g l) -> NoDup (List.map f l).
Proof.
  intros Hfg. induction l as [|x l IH]; cbn; intros H; [constructor|].
  apply NoDup_cons_iff in H. destruct H as [Hx Hl].
  constructor; [|now apply IH].
  intros Hin. apply in_map_iff in Hin. destruct Hin as (y & Hy & Hyl).
  apply Hx. apply in_map_iff. exists y. split; [|exact Hyl].
  symmetry. now apply Hfg.
Qed.

Lemma NoDup_flat_map_by {A B C : Type} (f : A -> list B) (g : A -> C) (l : list A) :
  (forall x, NoDup (f x)) ->
  (forall x y z, In z (f x) -> In z (f y) -> g x = g y) ->
  NoDup (List.map g l) -> NoDup (flat_map f l).
Proof.
  intros Hf Hfg. induction l as [|x l IH]; cbn; intros H; [constructor|].
  apply NoDup_cons_iff in H. destruct H as [Hx Hl].
  apply NoDup_app; [apply Hf | now apply IH |].
  intros z Hz1 Hz2. apply in_flat_map in Hz2. destruct Hz2 as (y & Hyl & Hzy).
  apply Hx. apply in_map_iff. exists y. split; [|exact Hyl].
  symmetry. now apply (Hfg x y z).
Qed.

End Unique.

Module UniquePaths.
Import Run GeneratorRun GeneratorPlan Unique.

Lemma inClass_app c (a b : list string) : inClass c (a ++ b) = (inClass c a ++ inClass c b)%list.
Proof. apply filter_app. Qed.

Lemma inClass_flat_map {A : Type} c (f : A -> list string) (l : list A) :
  inClass c (flat_map f l) = flat_map (fun x => inClass c (f x)) l.
Proof. apply filter_flat_map. Qed.

Lemma inClass_all c (l : list string) :
  Forall (fun p => classOf p = c) l -> inClass c l = l.
Proof.
  induction 1 as [|x l Hx _ IH]; [reflexivity|].
  unfold inClass in *. cbn. now rewrite Hx, classEqb_refl, IH.
Qed.

Lemma inClass_none c c' (l : list string) :
  Forall (fun p => classOf p = c') l -> c <> c' -> inClass c l = [].
Proof.
  intros H Hc. induction H as [|x l Hx _ IH]; [reflexivity|].
  unfold inClass in *. cbn. rewrite Hx.
  destruct (classEqb c' c) eqn:E; [apply classEqb_eq in E; congruence | exact IH].
Qed.

Section Paths.
Variables (h : Host) (o : Options) (schema : Schema.t).

Lemma paths_app (a b : list Artifact) : paths (a ++ b) = (paths a ++ paths b)%list.
Proof. apply List.map_app. Qed.

Lemma paths_generate :
  paths (planOf (emitted (run (Generator.generate h o schema)))) =
  (paths (planOf (emitted (Generator.rootFiles o schema 0)))
   ++ paths (planOf (emitted (Generator.backendFixed o schema 0)))
   ++ flat_map (fun p => paths (planOf (emitted (Generator.modelBody h o schema (snd p) (fst p)))))
               (indexedFrom 0 (entities schema))
   ++ flat_map (fun ent => paths (planOf (emitted (Generator.controllerBody o schema ent 0))))
               (entities schema)
   ++ paths (planOf (emitted (render "backend/src/routes/index.ts.ejs"
                 (Generator.BACK o ++ "/src/routes/index.ts")
                 [("entities", CEntities (entities schema));
                  ("enableGraphQL", CFlag (enableGraphQL o))] 0)))
   ++ paths (planOf (emitted (Generator.graphqlFiles o schema 0)))
   ++ paths (planOf (emitted (Generator.frontendFixed o schema 0)))
   ++ flat_map (fun ent => paths (planOf (emitted (Generator.featureBody o ent 0))))
               (entities schema)
   ++ paths (planOf (emitted (Generator.adminFiles o schema 0))))%list.
Proof.
  rewrite plan_generate. unfold Generator.modelEvents.
  rewrite emitted_controllers, emitted_features.
  rewrite !planOf_app, !planOf_flat_map, !paths_app.
  unfold paths. rewrite !map_flat_map, <- !List.app_assoc. reflexivity.
Qed.
End Paths.

Section Core.
Variables (h : Host) (schema : Schema.t) (sp : string) (fg fd fc ft fa : bool).
Variable od0 : string.
Hypothesis Hod : od0 = "" \/ od0 = "/".
Let o := mkOptions sp od0 fg fd fc ft fa.

Lemma fixed_rootFiles :
  Forall (fun p => classOf p = Fixed) (paths (planOf (emitted (Generator.rootFiles o schema 0)))).
Proof.
  unfold Generator.rootFiles.
  destruct Hod as [-> | ->]; flags; (repeat constructor).
Qed.
Lemma fixed_graphqlFiles :
  Forall (fun p => classOf p = Fixed) (paths (planOf (emitted (Generator.graphqlFiles o schema 0)))).
Proof.
  unfold Generator.graphqlFiles.
  destruct Hod as [-> | ->]; destruct fg; (repeat constructor).
Qed.
Lemma fixed_adminFiles :
  Forall (fun p => classOf p = Fixed) (paths (planOf (emitted (Generator.adminFiles o schema 0)))).
Proof.
  unfold Generator.adminFiles.
  destruct Hod as [-> | ->]; destruct fa; (repeat constructor).
Qed.

Hypothesis Hkebab : NoDup (List.map (fun e => toKebab (name e)) (entities schema)).
Hypothesis Hindex : ~ In "index" (List.map (fun e => toKebab (name e)) (entities schema)).
Hypothesis Hstamp : NoDup (List.map (fun p => (clock h (fst p), tableName (snd p))) (indexedFrom 0 (entities schema))).

Lemma map_snd_indexed {A B : Type} (k : A -> B) (t : nat) (l : list A) :
  List.map (fun p => k (snd p)) (indexedFrom t l) = List.map k l.
Proof.
  unfold indexedFrom. revert t.
  induction l as [|x l IH]; intros t; [reflexivity|].
  cbn. now rewrite IH.
Qed.

Lemma feature_rev (k1 k2 s1 s2 : string) :
  k1 ++ String "/" (k1 ++ s1) = k2 ++ String "/" (k2 ++ s2) ->
  strRev s1 ++ strRev (k1 ++ String "/" k1) = strRev s2 ++ strRev (k2 ++ String "/" k2).
Proof.
  intros H. rewrite <- !rev_app, !StrFacts.app_assoc. cbn [String.append]. now rewrite H.
Qed.

Lemma feature_key (k1 k2 : string) :
  strRev (k1 ++ String "/" k1) = strRev (k2 ++ String "/" k2) -> k1 = k2.
Proof.
  intros H. apply rev_inj in H.
  apply (StrFacts.app_eq_len k1 (String "/" k1) k2 (String "/" k2) H).
  apply (f_equal String.length) in H. rewrite !StrFacts.length_app in H. cbn in H. lia.
Qed.

#[local] Arguments showZ : simpl never.
#[local] Arguments toKebab : simpl never.
#[local] Arguments strRev : simpl nomatch.

Ltac other_class :=
  rewrite ?(inClass_none _ _ _ fixed_rootFiles), ?(inClass_none _ _ _ fixed_graphqlFiles),
    ?(inClass_none _ _ _ fixed_adminFiles) by discriminate.

Ltac concrete :=
  destruct Hod as [E | E]; unfold o; rewrite E; cbn;
  rewrite ?flat_map_nil, ?flat_map_single; cbn [List.app]; rewrite ?List.app_nil_r.

Ltac by_name :=
  apply NoDup_map_by with (g := fun p : nat * Entity => toKebab (name (snd p)));
  [ intros x y H;
    match type of H with
    | context [name (snd x) ++ ?sfx] =>
        assert (H' : name (snd x) ++ sfx = name (snd y) ++ sfx) by congruence;
        apply StrFacts.app_inv_tail in H'; now rewrite H'
    end
  | rewrite (map_snd_indexed (fun e : Entity => toKebab (name e))); exact Hkebab ].

Lemma core : NoDup (paths (planOf (emitted (run (Generator.generate h o schema))))).
Proof.
  apply NoDup_by_class. intros cl. rewrite paths_generate.
  rewrite !inClass_app, !inClass_flat_map.
  destruct cl.
  - (* Fixed *)
    unfold Generator.rootFiles, Generator.graphqlFiles, Generator.adminFiles.
    destruct Hod as [E | E]; unfold o; rewrite E; flags; cbn;
      rewrite ?flat_map_nil; apply nodupb_sound; vm_compute; reflexivity.
  - (* Model *) other_class. concrete; by_name.
  - (* Migration *) other_class. concrete.
    all: apply NoDup_map_by
           with (g := fun p : nat * Entity => (clock h (fst p), tableName (snd p)));
         [ intros x y H | exact Hstamp ].
    all: match type of H with
         | context [showZ ?zx ++ String "-" (String "c" (String "r" (String "e" (String "a" (String "t" (String "e" (String "-" (?tx ++ ".ts"))))))))] =>
             assert (H' : showZ (clock h (fst x)) ++ "-create-" ++ tableName (snd x) ++ ".ts"
                          = showZ (clock h (fst y)) ++ "-create-" ++ tableName (snd y) ++ ".ts")
               by (cbn; congruence)
         end.
    all: pose proof (f_equal leadingNumber H') as Hn;
         cbn [String.append] in Hn; rewrite !Stamp.leadingNumber_showZ in Hn;
         injection Hn as Hn; rewrite Hn in H';
         apply StrFacts.app_inv_head in H'; cbn [String.append] in H';
         assert (H'' : tableName (snd x) ++ ".ts" = tableName (snd y) ++ ".ts") by congruence;
         apply StrFacts.app_inv_tail in H''; now rewrite Hn, H''.
  - (* Test *) other_class. concrete; by_name.
  - (* Controller *) other_class. concrete.
    all: apply NoDup_map_by with (g := fun e : Entity => toKebab (name e)); [|exact Hkebab].
    all: intros x y H;
         assert (H' : name x ++ "Controller.ts" = name y ++ "Controller.ts") by congruence;
         apply StrFacts.app_inv_tail in H'; now rewrite H'.
  - (* Route *) other_class. concrete.
    all: apply NoDup_app; [ | repeat constructor; intros [] | ].
    all: try (apply NoDup_map_by with (g := fun e : Entity => toKebab (name e)); [|exact Hkebab];
              intros x y H;
              assert (H' : toKebab (name x) ++ ".ts" = toKebab (name y) ++ ".ts") by congruence;
              now apply StrFacts.app_inv_tail in H').
    all: intros z Hz [<- | []]; apply in_map_iff in Hz; destruct Hz as (e & He & Hin);
         apply Hindex; apply in_map_iff; exists e; split; [|exact Hin];
         assert (H' : toKebab (name e) ++ ".ts" = "index" ++ ".ts") by (cbn; congruence);
         now apply StrFacts.app_inv_tail in H'.
  - (* Feature *) other_class. concrete.
    all: apply NoDup_flat_map_by with (g := fun e : Entity => toKebab (name e));
         [ intros x | intros x y z Hx Hy | exact Hkebab ].
    all: try (repeat (apply NoDup_cons; [cbn [In]; intros Hin|]); [.. | apply NoDup_nil]).
    all: try (cbn [In] in Hx, Hy).
    all: repeat match goal with
         | H : _ \/ _ |- _ => destruct H as [H | H]
         | H : False |- _ => destruct H
         end.
    all: try (rewrite <- Hy in Hx; clear Hy; rename Hx into Hin).
    all: match type of Hin with
         | ?L = ?R =>
             match L with
             | context [?k1 ++ String "/" (_ ++ ?s1)] =>
                 match R with
                 | context [?k2 ++ String "/" (_ ++ ?s2)] =>
                     assert (H' : k1 ++ String "/" (k1 ++ s1) = k2 ++ String "/" (k2 ++ s2))
                       by congruence
                 end
             end
         end.
    all: apply feature_rev in H'; cbn in H'.
    all: try discriminate H'.
    all: match type of H' with
         | ?L = ?R =>
             match L with
             | context [strRev (?k1 ++ String "/" ?k1)] =>
                 match R with
                 | context [strRev (?k2 ++ String "/" ?k2)] =>
                     assert (Hk : strRev (k1 ++ String "/" k1) = strRev (k2 ++ String "/" k2))
                       by congruence;
                     apply feature_key in Hk
                 end
             end
         end.
    all: exact Hk.
Qed.
End Core.

Section Shift.
Variables (h : Host) (schema : Schema.t) (sp od : string) (fg fd fc ft fa : bool).
Hypothesis Hne : (od =? "/") = false.
Let o := mkOptions sp od fg fd fc ft fa.
Let o' := mkOptions sp "" fg fd fc ft fa.

#[local] Arguments showZ : simpl never.
#[local] Arguments toKebab : simpl never.

Ltac shift :=
  unfold o, o', Generator.featurePath, Generator.BACK, Generator.FRONT, path_join;
  unfold docker, ci, terraform;
  cbn [outDir enableDocker enableCI enableTerraform enableGraphQL enableAdmin];
  rewrite ?Hne; flags; try destruct fg; try destruct fa;
  cbn; rewrite ?StrFacts.app_assoc; reflexivity.

Lemma shift_rootFiles :
  paths (planOf (emitted (Generator.rootFiles o schema 0))) =
  List.map (String.append od) (paths (planOf (emitted (Generator.rootFiles o' schema 0)))).
Proof. unfold Generator.rootFiles. shift. Qed.

Lemma shift_backendFixed :
  paths (planOf (emitted (Generator.backendFixed o schema 0))) =
  List.map (String.append od) (paths (planOf (emitted (Generator.backendFixed o' schema 0)))).
Proof. unfold Generator.backendFixed. shift. Qed.

Lemma shift_graphqlFiles :
  paths (planOf (emitted (Generator.graphqlFiles o schema 0))) =
  List.map (String.append od) (paths (planOf (emitted (Generator.graphqlFiles o' schema 0)))).
Proof. unfold Generator.graphqlFiles. shift. Qed.

Lemma shift_frontendFixed :
  paths (planOf (emitted (Generator.frontendFixed o schema 0))) =
  List.map (String.append od) (paths (planOf (emitted (Generator.frontendFixed o' schema 0)))).
Proof. unfold Generator.frontendFixed. shift. Qed.

Lemma shift_adminFiles :
  paths (planOf (emitted (Generator.adminFiles o schema 0))) =
  List.map (String.append od) (paths (planOf (emitted (Generator.adminFiles o' schema 0)))).
Proof. unfold Generator.adminFiles. shift. Qed.

Lemma shift_modelBody p :
  paths (planOf (emitted (Generator.modelBody h o schema (snd p) (fst p)))) =
  List.map (String.append od) (paths (planOf (emitted (Generator.modelBody h o' schema (snd p) (fst p))))).
Proof. unfold Generator.modelBody. shift. Qed.

Lemma shift_controllerBody ent :
  paths (planOf (emitted (Generator.controllerBody o schema ent 0))) =
  List.map (String.append od) (paths (planOf (emitted (Generator.controllerBody o' schema ent 0)))).
Proof. unfold Generator.controllerBody. shift. Qed.

Lemma shift_featureBody ent :
  paths (planOf (emitted (Generator.featureBody o ent 0))) =
  List.map (String.append od) (paths (planOf (emitted (Generator.featureBody o' ent 0)))).
Proof. unfold Generator.featureBody. shift. Qed.

Lemma shift_generate :
  paths (planOf (emitted (run (Generator.generate h o schema)))) =
  List.map (String.append od) (paths (planOf (emitted (run (Generator.generate h o' schema))))).
Proof.
  rewrite !paths_generate, !List.map_app, !map_flat_map.
  rewrite shift_rootFiles, shift_backendFixed, shift_graphqlFiles, shift_frontendFixed,
    shift_adminFiles.
  rewrite (flat_map_ext _ _ shift_modelBody), (flat_map_ext _ _ shift_controllerBody),
    (flat_map_ext _ _ shift_featureBody).
  repeat f_equal. shift.
Qed.

End Shift.

End UniquePaths.

Lemma nodupb_complete (l : list string) : NoDup l -> nodupb l = true.
Proof.
  induction 1 as [|x l Hx _ IH]; [reflexivity|].
  cbn. rewrite IH, andb_true_r. apply negb_true_iff.
  destruct (existsb (String.eqb x) l) eqn:E; [|reflexivity].
  apply existsb_exists in E. destruct E as (y & Hy & Hxy).
  apply String.eqb_eq in Hxy. now subst y.
Qed.

Lemma NoDup_prefixed (pre : string) (l : list string) :
  NoDup l -> NoDup (List.map (String.append pre) l).
Proof.
  intros H. apply Unique.NoDup_map_by with (g := fun p : string => p).
  - intros x y. apply StrFacts.app_inv_head.
  - now rewrite List.map_id.
Qed.

(** C7, as stated, fails: the route file of an entity whose kebab name is
    [index] goes to the path of the route-aggregation file. *)
Lemma C7_counterexample :
  ~ NoDup (paths (planOf (emitted (run (Generator.generate stillHost cli blogIndex))))).
Proof.
  intros H. apply nodupb_complete in H. vm_compute in H. discriminate.
Qed.

(** C7, amended.  When the kebab names of the entities are pairwise
    distinct and none of them is [index], and no two entities with the
    same table name get the same clock reading, no two entries of the
    plan have the same destination path. *)
Theorem C7_destination_paths_unique (h : Host) (o : Options) (schema : Schema.t) :
  NoDup (List.map (fun e => toKebab (name e)) (entities schema)) ->
  ~ In "index" (List.map (fun e => toKebab (name e)) (entities schema)) ->
  NoDup (List.map (fun p => (clock h (fst p), tableName (snd p)))
                  (indexedFrom 0 (entities schema))) ->
  NoDup (paths (planOf (emitted (run (Generator.generate h o schema))))).
Proof.
  intros Hkebab Hindex Hstamp. destruct o as [sp od fg fd fc ft fa].
  destruct (od =? "/") eqn:E.
  - apply String.eqb_eq in E. subst od.
    apply (UniquePaths.core h schema sp fg fd fc ft fa "/"); auto.
  - rewrite (UniquePaths.shift_generate h schema sp od fg fd fc ft fa E).
    apply NoDup_prefixed.
    apply (UniquePaths.core h schema sp fg fd fc ft fa ""); auto.
Qed.

Lemma C7_destination_paths_unique_witness :
  NoDup (paths (planOf (emitted (run (Generator.generate stillHost cli blogTwo))))).
Proof.
  apply (C7_destination_paths_unique stillHost cli blogTwo).
  - apply Unique.nodupb_sound. reflexivity.
  - cbn. intuition discriminate.
  - repeat constructor; cbn; intuition discriminate.
Defined.

(* ------------------------------------------------------------------ *)
(** ** Further consequences                                            *)
(* ------------------------------------------------------------------ *)

(** The numbers in the migration paths increase strictly when the clock
    readings of the run do. *)
Lemma readings_strictlyIncreasing (h : Host) (k t : nat) :
  (forall i, (clock h i < clock h (S i))%Z) ->
  strictlyIncreasing (List.map (fun i => Some (clock h i)) (seq t k)) = true.
Proof.
  intros H. revert t. induction k as [|k IH]; intros t; [reflexivity|].
  cbn [seq List.map strictlyIncreasing].
  specialize (IH (S t)). destruct k as [|k]; [reflexivity|].
  cbn [seq List.map] in *. rewrite IH, andb_true_r.
  apply Z.ltb_lt, H.
Qed.

(** On a host whose clock advances between any two readings, the numbers
    in the migration paths of a run increase strictly, in the order of
    the entities. *)
Lemma stamps_increase_with_the_clock (h : Host) (o : Options) (schema : Schema.t) :
  (forall i, (clock h i < clock h (S i))%Z) ->
  strictlyIncreasing
    (stampsOf (Generator.BACK o)
       (planOf (emitted (run (Generator.generate h o schema))))) = true.
Proof.
  intros H.
  pose proof (migrationsFollowClock_intro h (Generator.BACK o) (entities schema) _
                (fun ent => [("ent", CEnt ent)])
                (GeneratorMigrations.migrations_generate h o schema)) as (_ & _ & E).
  rewrite E. now apply readings_strictlyIncreasing.
Qed.

Lemma stamps_increase_witness :
  strictlyIncreasing
    (stampsOf (Generator.BACK cli)
       (planOf (emitted (run (Generator.generate tickingHost cli blogTwo))))) = true.
Proof.
  apply (stamps_increase_with_the_clock tickingHost cli blogTwo).
  intros i. cbn [clock tickingHost]. lia.
Defined.

(** The sibling variant depends on the clock in the same way. *)
Lemma sibling_plan_determined_up_to_the_clock
    (h1 h2 : Host) (o : Options) (schema : Schema.t) :
  SameButStamps (planOf (emitted (run (Sibling.generate h1 o schema))))
                (planOf (emitted (run (Sibling.generate h2 o schema)))) /\
  ((forall i, i < List.length (entities schema) -> clock h1 i = clock h2 i) ->
   planOf (emitted (run (Sibling.generate h1 o schema))) =
   planOf (emitted (run (Sibling.generate h2 o schema)))).
Proof.
  rewrite !SiblingPlan.sib_plan_generate. split.
  - apply sameButStamps_frame, SiblingPlan.sib_models_sameButStamps.
  - intros H. unfold Sibling.modelEvents.
    rewrite (SiblingPlan.sib_models_same_clock o schema h1 h2 (entities schema) 0);
      [reflexivity|].
    intros i Hi. apply H. lia.
Qed.

Lemma sibling_plan_determined_witness :
  planOf (emitted (run (Sibling.generate stillHost cli blogTwo))) =
  planOf (emitted (run (Sibling.generate otherStillHost cli blogTwo))).
Proof.
  apply (proj2 (sibling_plan_determined_up_to_the_clock stillHost otherStillHost cli blogTwo)).
  intros i _. reflexivity.
Defined.

(* ------------------------------------------------------------------ *)
(** ** More on the naming helpers                                        *)
(* ------------------------------------------------------------------ *)

Module NamingMore.
Import Naming.

Lemma lower_not_upper (c : ascii) : Chr.isUpperAZ (Chr.lower c) = false.
Proof. by_cases_on c. Qed.

Lemma lower_lower (c : ascii) : Chr.lower (Chr.lower c) = Chr.lower c.
Proof. by_cases_on c. Qed.

Lemma upper_to_word (c : ascii) :
  Chr.isUpperAZ c = true ->
  Chr.isWord (Chr.lower c) = true /\ Chr.upper (Chr.lower c) = c.
Proof. by_cases_on c; intros _; split; reflexivity. Qed.

Lemma word_not_upper (c : ascii) :
  Chr.isWord c = true -> Chr.isUpperAZ c = false ->
  Chr.lower c = c /\ Chr.isHyphen c = false.
Proof. by_cases_on c; intros _ _; split; reflexivity. Qed.

Lemma upper_not_lower (c : ascii) : Chr.isLowerAZ (Chr.upper c) = false.
Proof. by_cases_on c. Qed.

Lemma nonword_not_lower (c : ascii) : Chr.isWord c = false -> Chr.isLowerAZ c = false.
Proof. by_cases_on c. Qed.

Lemma lower_not_hyphen (c : ascii) : Chr.isLowerAZ c = true -> Chr.isHyphen c = false.
Proof. by_cases_on c. Qed.

Lemma pascalRest_keep (c : ascii) (s : string) :
  Chr.isHyphen c = false -> pascalRest (String c s) = String c (pascalRest s).
Proof.
  intros H. destruct s as [|d s]; [reflexivity|].
  rewrite pascalRest_step, H. reflexivity.
Qed.

Lemma pascalRest_first (c : ascii) (s : string) :
  Chr.isWord c = false -> startsLower (pascalRest (String c s)) = false.
Proof.
  intros Hc. destruct s as [|d s]; cbn [pascalRest startsLower].
  - now apply nonword_not_lower.
  - destruct (Chr.isHyphen c && Chr.isWord d); cbn [startsLower].
    + apply upper_not_lower.
    + now apply nonword_not_lower.
Qed.

(** Whatever its argument, the result of [toPascal] does not start with
    a letter of [[a-z]]. *)
Lemma toPascal_not_lower_initial (s : string) : startsLower (toPascal s) = false.
Proof.
  destruct s as [|c s]; [reflexivity|].
  cbn [toPascal]. destruct (Chr.isWord c) eqn:Ew.
  - cbn [startsLower]. apply upper_not_lower.
  - now apply pascalRest_first.
Qed.

(** [pascalRest] never lengthens, and shortens wherever it drops a
    hyphen. *)
Lemma length_pascalRest (s : string) :
  (String.length (pascalRest s) <= String.length s /\
   (hyphenBeforeWord s = true -> String.length (pascalRest s) < String.length s)) /\
  (forall c, String.length (pascalRest (String c s)) <= S (String.length s) /\
     (hyphenBeforeWord (String c s) = true ->
      String.length (pascalRest (String c s)) < S (String.length s))).
Proof.
  induction s as [|d s [[IH1 IH1'] IH2]].
  - split; [split; [apply Nat.le_refl | discriminate]|].
    intros c. split; [apply Nat.le_refl | discriminate].
  - split; [apply IH2|]. intros c. rewrite pascalRest_step.
    cbn [hyphenBeforeWord].
    destruct (Chr.isHyphen c && Chr.isWord d); cbn [String.length orb].
    + split; [lia | intros _; lia].
    + destruct (IH2 d) as [L1 L2]. cbn [String.length] in *. split; [lia|].
      intros H. specialize (L2 H). lia.
Qed.

Lemma length_toPascal (s : string) : String.length (toPascal s) <= String.length s.
Proof.
  destruct s as [|c s]; [apply Nat.le_refl|].
  cbn [toPascal]. destruct (Chr.isWord c).
  - cbn [String.length]. pose proof (proj1 (proj1 (length_pascalRest s))). lia.
  - apply (proj2 (length_pascalRest s) c).
Qed.

Lemma length_toKebab (s : string) :
  String.length s <= String.length (toKebab s) <= 2 * String.length s.
Proof.
  induction s as [|c s IH]; [cbn; lia|].
  rewrite toKebab_cons. destruct (Chr.isUpperAZ c); cbn [String.length]; lia.
Qed.

(** [toPascal] returns its argument unchanged exactly when the argument
    does not start with a letter of [[a-z]] and has no hyphen directly
    before a word character. *)
Lemma toPascal_fixed_iff (s : string) : toPascal s = s <-> pascalShaped s = true.
Proof.
  split; [|apply toPascal_id].
  intros E. unfold pascalShaped.
  destruct s as [|c s]; [reflexivity|].
  cbn [toPascal startsLower] in *.
  destruct (Chr.isWord c) eqn:Ew.
  - injection E as Ec Es.
    assert (Hl : Chr.isLowerAZ c = false).
    { rewrite <- Ec. apply upper_not_lower. }
    rewrite Hl. cbn [negb andb]. apply negb_true_iff.
    destruct (hyphenBeforeWord (String c s)) eqn:H; [|reflexivity].
    assert (H' : hyphenBeforeWord s = true).
    { destruct s as [|d s]; [discriminate|]. cbn [hyphenBeforeWord] in H.
      rewrite (word_not_hyphen c Ew) in H. exact H. }
    pose proof (proj2 (proj1 (length_pascalRest s)) H') as L. rewrite Es in L. lia.
  - rewrite (nonword_not_lower c Ew). cbn [negb andb]. apply negb_true_iff.
    destruct (hyphenBeforeWord (String c s)) eqn:H; [|reflexivity].
    pose proof (proj2 (proj2 (length_pascalRest s) c) H) as L.
    rewrite E in L. cbn [String.length] in L. lia.
Qed.

(** No letter of [[A-Z]] is left in the result of [toKebab]. *)
Lemma toKebab_no_capitals (s : string) :
  allChars (fun c => negb (Chr.isUpperAZ c)) (toKebab s) = true.
Proof.
  induction s as [|c s IH]; [reflexivity|].
  rewrite toKebab_cons. destruct (Chr.isUpperAZ c); cbn [allChars];
    rewrite lower_not_upper, IH; reflexivity.
Qed.

(** Applying [toKebab] a second time changes nothing. *)
Lemma toKebab_idempotent (s : string) : toKebab (toKebab s) = toKebab s.
Proof.
  induction s as [|c s IH]; [reflexivity|].
  rewrite toKebab_cons. destruct (Chr.isUpperAZ c).
  - rewrite (toKebab_cons "-" (String (Chr.lower c) (toKebab s))).
    replace (Chr.isUpperAZ "-") with false by reflexivity.
    replace (Chr.lower "-") with "-"%char by reflexivity.
    rewrite (toKebab_cons (Chr.lower c) (toKebab s)).
    now rewrite lower_not_upper, lower_lower, IH.
  - rewrite (toKebab_cons (Chr.lower c) (toKebab s)).
    now rewrite lower_not_upper, lower_lower, IH.
Qed.

Lemma pascalRest_toKebab (s : string) :
  allChars Chr.isWord s = true -> pascalRest (toKebab s) = s.
Proof.
  induction s as [|c s IH]; [reflexivity|].
  cbn [allChars]. intros H. apply andb_true_iff in H. destruct H as [Hc Hs].
  rewrite toKebab_cons. destruct (Chr.isUpperAZ c) eqn:Eu.
  - destruct (upper_to_word c Eu) as [W U].
    rewrite pascalRest_step.
    replace (Chr.isHyphen "-") with true by reflexivity.
    rewrite W, U, IH; auto.
  - destruct (word_not_upper c Hc Eu) as [L Hh].
    rewrite L, (pascalRest_keep c _ Hh), IH; auto.
Qed.

Lemma toPascal_toKebab (p : string) :
  pascalIdent p = true -> toPascal (toKebab p) = p.
Proof.
  unfold pascalIdent. intros H. apply andb_true_iff in H. destruct H as [Hw Hl].
  destruct p as [|c s]; [reflexivity|].
  cbn [allChars startsLower] in *. apply andb_true_iff in Hw. destruct Hw as [Hc Hs].
  apply negb_true_iff in Hl.
  rewrite toKebab_cons. destruct (Chr.isUpperAZ c) eqn:Eu.
  - destruct (upper_to_word c Eu) as [W U].
    cbn [toPascal]. replace (Chr.isWord "-") with false by reflexivity.
    rewrite pascalRest_step. replace (Chr.isHyphen "-") with true by reflexivity.
    rewrite W, U, pascalRest_toKebab; auto.
  - destruct (word_not_upper c Hc Eu) as [L Hh].
    rewrite L. cbn [toPascal]. rewrite Hc, (upper_fixed c Hl), pascalRest_toKebab; auto.
Qed.

Lemma toKebab_injective_on_pascal (a b : string) :
  pascalIdent a = true -> pascalIdent b = true -> toKebab a = toKebab b -> a = b.
Proof.
  intros Ha Hb E. rewrite <- (toPascal_toKebab a Ha), <- (toPascal_toKebab b Hb).
  now rewrite E.
Qed.

Lemma lowerKebabRest_step (c : ascii) (s : string) :
  lowerKebabRest (String c s) =
  if Chr.isLowerAZ c then lowerKebabRest s
  else Chr.isHyphen c
       && match s with String d _ => Chr.isLowerAZ d | EmptyString => false end
       && lowerKebabRest s.
Proof. reflexivity. Qed.

Lemma toKebab_pascalRest (s : string) :
  (lowerKebabRest s = true -> toKebab (pascalRest s) = s) /\
  (forall c, lowerKebabRest (String c s) = true ->
             toKebab (pascalRest (String c s)) = String c s).
Proof.
  induction s as [|d s [IH1 IH2]].
  - split; [reflexivity|]. intros c. rewrite lowerKebabRest_step.
    destruct (Chr.isLowerAZ c) eqn:El.
    + intros _. destruct (upper_of_lower c El) as (_ & _ & U3 & U4).
      cbn [pascalRest]. now rewrite toKebab_cons, U3, U4.
    + rewrite andb_false_r. discriminate.
  - split; [apply IH2|]. intros c. rewrite lowerKebabRest_step, pascalRest_step.
    destruct (Chr.isLowerAZ c) eqn:El.
    + intros H. destruct (upper_of_lower c El) as (_ & _ & U3 & U4).
      rewrite (lower_not_hyphen c El). cbn [andb].
      now rewrite toKebab_cons, U3, U4, (IH2 d H).
    + intros H. apply andb_true_iff in H. destruct H as [H Hr].
      apply andb_true_iff in H. destruct H as [Hc Hd].
      apply hyphen_is in Hc. subst c.
      replace (Chr.isHyphen "-") with true by reflexivity.
      rewrite (lower_word_char d Hd). cbn [andb].
      destruct (upper_of_lower d Hd) as (U1 & U2 & _ & _).
      rewrite toKebab_cons, U1, U2.
      rewrite lowerKebabRest_step, Hd in Hr. rewrite (IH1 Hr). reflexivity.
Qed.

(** On a kebab name made of words of letters [[a-z]] joined by single
    hyphens, [toKebab] after [toPascal] gives the name back with one
    hyphen in front. *)
Lemma toKebab_toPascal_lowerKebab (n : string) :
  lowerKebab n = true -> toKebab (toPascal n) = String "-" n.
Proof.
  unfold lowerKebab. intros H. apply andb_true_iff in H. destruct H as [Hs Hr].
  destruct n as [|c s]; [discriminate|].
  cbn [startsLower] in Hs. rewrite lowerKebabRest_step, Hs in Hr.
  cbn [toPascal]. rewrite (lower_word_char c Hs).
  destruct (upper_of_lower c Hs) as (U1 & U2 & _ & _).
  rewrite toKebab_cons, U1, U2, (proj1 (toKebab_pascalRest s) Hr). reflexivity.
Qed.

(** On a name that starts with a word character, [toCamel] and
    [toPascal] return the same string up to the case of the first
    character. *)
Lemma toCamel_word_initial (c : ascii) (s : string) :
  Chr.isWord c = true ->
  toCamel (String c s) = Normal (String (Chr.lower c) (pascalRest s)) /\
  toPascal (String c s) = String (Chr.upper c) (pascalRest s).
Proof. intros H. unfold toCamel. cbn [toPascal]. rewrite H. split; reflexivity. Qed.

(** On a name that starts with a hyphen and a word character, [toCamel]
    keeps the hyphen and loses the word character: [toPascal] has
    merged the two into one character, which [slice(1)] removes. *)
Lemma toCamel_hyphen_initial (d : ascii) (s : string) :
  Chr.isWord d = true ->
  toCamel (String "-" (String d s)) = Normal (String "-" (pascalRest s)).
Proof.
  intros H. unfold toCamel. cbn [toPascal].
  replace (Chr.isWord "-") with false by reflexivity.
  rewrite pascalRest_step. replace (Chr.isHyphen "-") with true by reflexivity.
  rewrite H. reflexivity.
Qed.

End NamingMore.

(** [toPascal] never lengthens a string; [toKebab] never shortens one
    and at most doubles its length. *)
Theorem helper_lengths (s : string) :
  String.length (toPascal s) <= String.length s /\
  String.length s <= String.length (toKebab s) <= 2 * String.length s.
Proof. split; [apply NamingMore.length_toPascal | apply NamingMore.length_toKebab]. Qed.

(** On an identifier in the Pascal convention (word characters only, not
    starting with a letter of [[a-z]]), [toPascal] undoes [toKebab]. *)
Theorem toPascal_inverts_toKebab (p : string) :
  pascalIdent p = true -> toPascal (toKebab p) = p.
Proof. exact (NamingMore.toPascal_toKebab p). Qed.

Lemma toPascal_inverts_toKebab_witness :
  pascalIdent "UserProfile" = true /\ toPascal (toKebab "UserProfile") = "UserProfile".
Proof.
  split; [reflexivity|]. apply (toPascal_inverts_toKebab "UserProfile"). reflexivity.
Defined.

(** Two different identifiers in the Pascal convention have different
    kebab names. *)
Theorem distinct_pascal_names_distinct_kebabs (a b : string) :
  pascalIdent a = true -> pascalIdent b = true -> a <> b -> toKebab a <> toKebab b.
Proof.
  intros Ha Hb Hab E. apply Hab. now apply NamingMore.toKebab_injective_on_pascal.
Qed.

Lemma distinct_pascal_names_witness : toKebab "UserProfile" <> toKebab "Userprofile".
Proof.
  apply (distinct_pascal_names_distinct_kebabs "UserProfile" "Userprofile");
    [reflexivity | reflexivity | discriminate].
Defined.

Lemma toKebab_toPascal_lowerKebab_witness :
  lowerKebab "user-profile" = true /\
  toKebab (toPascal "user-profile") = "-user-profile".
Proof.
  split; [reflexivity|].
  apply (NamingMore.toKebab_toPascal_lowerKebab "user-profile"). reflexivity.
Defined.

Lemma toCamel_word_initial_witness :
  toCamel "user-profile" = Normal "userProfile" /\
  toPascal "user-profile" = "UserProfile".
Proof. apply (NamingMore.toCamel_word_initial "u" "ser-profile"). reflexivity. Defined.

Lemma toCamel_hyphen_initial_witness : toCamel "-post" = Normal "-ost".
Proof. apply (NamingMore.toCamel_hyphen_initial "p" "ost"). reflexivity. Defined.

(* ------------------------------------------------------------------ *)
(** ** The size of the plan and the console output                       *)
(* ------------------------------------------------------------------ *)

Module Success.
Import Run.

Lemma length_flat_map_const {A B : Type} (f : A -> list B) (n : nat) (l : list A) :
  (forall x, List.length (f x) = n) -> List.length (flat_map f l) = n * List.length l.
Proof.
  intros H. induction l as [|x l IH]; cbn; [lia|].
  rewrite List.length_app, H, IH. lia.
Qed.

Lemma logsOf_app (a b : list Event) : logsOf (a ++ b) = (logsOf a ++ logsOf b)%list.
Proof.
  induction a as [|e a IH]; [reflexivity|].
  destruct e; cbn; now rewrite IH.
Qed.

Lemma logsOf_flat_map_none {A : Type} (f : A -> list Event) (l : list A) :
  (forall x, logsOf (f x) = []) -> logsOf (flat_map f l) = [].
Proof.
  intros H. induction l as [|x l IH]; [reflexivity|].
  cbn. now rewrite logsOf_app, H, IH.
Qed.

Lemma logsOf_ensureDirs (ds : list string) : logsOf (List.map EnsureDir ds) = [].
Proof. induction ds as [|d ds IH]; [reflexivity | exact IH]. Qed.

Lemma under_app (dir : string) (a b : list Artifact) :
  under dir (a ++ b) = (under dir a ++ under dir b)%list.
Proof. apply filter_app. Qed.

Section Generator.
Import GeneratorRun GeneratorPlan.
Variables (h : Host) (o : Options) (schema : Schema.t).

Lemma size_rootFiles :
  List.length (planOf (emitted (Generator.rootFiles o schema 0))) =
  (if truthy (docker o schema) then 3 else 0) + (if truthy (ci o schema) then 1 else 0)
  + (if truthy (terraform o schema) then 4 else 0).
Proof. unfold Generator.rootFiles. flags; reflexivity. Qed.

Lemma size_graphqlFiles :
  List.length (planOf (emitted (Generator.graphqlFiles o schema 0))) =
  if enableGraphQL o then 2 else 0.
Proof. unfold Generator.graphqlFiles. flags; reflexivity. Qed.

Lemma size_adminFiles :
  List.length (planOf (emitted (Generator.adminFiles o schema 0))) =
  if enableAdmin o then 5 else 0.
Proof. unfold Generator.adminFiles. flags; reflexivity. Qed.

(** A run of [generator.js] plans 23 files that are always written, 11
    files per entity, and the optional files: 3 for Docker, 1 for CI and
    4 for Terraform by the resolved flags, 2 for GraphQL and 5 for the
    admin panel by the command-line flags. *)
Lemma plan_size :
  List.length (planOf (emitted (run (Generator.generate h o schema)))) =
  23 + 11 * List.length (entities schema)
  + optionalCount (truthy (resolved FDocker o schema)) (truthy (resolved FCi o schema))
      (truthy (resolved FTerraform o schema)) (enableGraphQL o) (enableAdmin o).
Proof.
  rewrite plan_generate. unfold Generator.modelEvents.
  rewrite emitted_controllers, emitted_features.
  rewrite !List.length_app, !planOf_app, !List.length_app, !planOf_flat_map.
  rewrite (length_flat_map_const _ 3) by reflexivity.
  rewrite (length_flat_map_const _ 2) by reflexivity.
  rewrite (length_flat_map_const _ 6) by reflexivity.
  rewrite length_indexedFrom, size_rootFiles, size_graphqlFiles, size_adminFiles.
  unfold optionalCount. cbn [resolved].
  change (List.length (planOf (emitted (Generator.backendFixed o schema 0)))) with 8.
  change (List.length (planOf (emitted (Generator.frontendFixed o schema 0)))) with 14.
  cbn [List.length planOf emitted render emit]. lia.
Qed.

Lemma logs_generate :
  logsOf (emitted (run (Generator.generate h o schema))) =
  logsOf (emitted (Generator.done o schema 0)).
Proof.
  unfold run. rewrite generate_run. cbn [emitted].
  unfold Generator.modelEvents. rewrite emitted_controllers, emitted_features.
  rewrite !logsOf_app, logsOf_ensureDirs.
  rewrite !logsOf_flat_map_none by (intros; reflexivity).
  assert (R : logsOf (emitted (Generator.rootFiles o schema 0)) = [])
    by (unfold Generator.rootFiles; flags; reflexivity).
  assert (G : logsOf (emitted (Generator.graphqlFiles o schema 0)) = [])
    by (unfold Generator.graphqlFiles; flags; reflexivity).
  assert (A : logsOf (emitted (Generator.adminFiles o schema 0)) = [])
    by (unfold Generator.adminFiles; flags; reflexivity).
  rewrite R, G, A. reflexivity.
Qed.

Lemma under_root_only (d : string) :
  d = "docker/" \/ d = "terraform/" ->
  under d (planOf (emitted (run (Generator.generate h o schema)))) =
  under d (planOf (emitted (Generator.rootFiles o schema 0))).
Proof.
  intros Hd. rewrite plan_generate.
  unfold Generator.modelEvents. rewrite emitted_controllers, emitted_features.
  rewrite !under_app, !planOf_app, !under_app, !planOf_flat_map.
  unfold under. rewrite !filter_flat_map.
  assert (G : filter (fun a => Str.startsWith d (templateId a))
                (planOf (emitted (Generator.graphqlFiles o schema 0))) = []
            /\ filter (fun a => Str.startsWith d (templateId a))
                (planOf (emitted (Generator.adminFiles o schema 0))) = []).
  { destruct Hd as [-> | ->]; unfold Generator.graphqlFiles, Generator.adminFiles;
      flags; split; reflexivity. }
  rewrite (proj1 G), (proj2 G).
  destruct Hd as [-> | ->]; cbn -[Generator.rootFiles];
    rewrite !flat_map_nil; cbn [List.app]; now rewrite !List.app_nil_r.
Qed.

Lemma closing_generate : ClosingOutput o (emitted (run (Generator.generate h o schema))).
Proof.
  unfold ClosingOutput. rewrite logs_generate.
  rewrite (under_root_only "docker/") by now left.
  rewrite (under_root_only "terraform/") by now right.
  unfold Generator.rootFiles, Generator.done. flags; reflexivity.
Qed.

End Generator.
End Success.

Module SiblingSuccess.
Import Run Success.

Section Sibling.
Import SiblingRun SiblingPlan.
Variables (h : Host) (o : Options) (schema : Schema.t).

Lemma sib_size_rootFiles :
  List.length (planOf (emitted (Sibling.rootFiles o schema 0))) =
  (if truthy (docker o schema) then 3 else 0) + (if truthy (ci o schema) then 1 else 0)
  + (if truthy (terraform o schema) then 4 else 0).
Proof. unfold Sibling.rootFiles. flags; reflexivity. Qed.

Lemma sib_size_graphqlFiles :
  List.length (planOf (emitted (Sibling.graphqlFiles o schema 0))) =
  if truthy (graphql o schema) then 2 else 0.
Proof. unfold Sibling.graphqlFiles. flags; reflexivity. Qed.

Lemma sib_size_adminFiles :
  List.length (planOf (emitted (Sibling.adminFiles o schema 0))) =
  if truthy (adminPanel o schema) then 5 else 0.
Proof. unfold Sibling.adminFiles. flags; reflexivity. Qed.

(** A run of the sibling variant plans 24 files that are always written
    (the 23 and the authentication route), 11 files per entity, and the
    optional files, all five groups by the resolved flags. *)
Lemma sib_plan_size :
  List.length (planOf (emitted (run (Sibling.generate h o schema)))) =
  24 + 11 * List.length (entities schema)
  + optionalCount (truthy (resolved FDocker o schema)) (truthy (resolved FCi o schema))
      (truthy (resolved FTerraform o schema)) (truthy (resolved FGraphql o schema))
      (truthy (resolved FAdminPanel o schema)).
Proof.
  rewrite sib_plan_generate. unfold Sibling.modelEvents.
  rewrite sib_emitted_controllers, sib_emitted_features.
  rewrite !List.length_app, !planOf_app, !List.length_app, !planOf_flat_map.
  rewrite (length_flat_map_const _ 3) by reflexivity.
  rewrite (length_flat_map_const _ 2) by reflexivity.
  rewrite (length_flat_map_const _ 6) by reflexivity.
  rewrite length_indexedFrom, sib_size_rootFiles, sib_size_graphqlFiles, sib_size_adminFiles.
  unfold optionalCount. cbn [resolved].
  change (List.length (planOf (emitted (Sibling.backendFixed o schema 0)))) with 9.
  change (List.length (planOf (emitted (Sibling.frontendFixed o schema 0)))) with 14.
  cbn [List.length planOf emitted render emit]. lia.
Qed.

Lemma sib_logs_generate :
  logsOf (emitted (run (Sibling.generate h o schema))) =
  logsOf (emitted (Sibling.done o schema 0)).
Proof.
  unfold run. rewrite sib_generate_run. cbn [emitted].
  unfold Sibling.modelEvents. rewrite sib_emitted_controllers, sib_emitted_features.
  rewrite !logsOf_app, logsOf_ensureDirs.
  rewrite !logsOf_flat_map_none by (intros; reflexivity).
  assert (R : logsOf (emitted (Sibling.rootFiles o schema 0)) = [])
    by (unfold Sibling.rootFiles; flags; reflexivity).
  assert (G : logsOf (emitted (Sibling.graphqlFiles o schema 0)) = [])
    by (unfold Sibling.graphqlFiles; flags; reflexivity).
  assert (A : logsOf (emitted (Sibling.adminFiles o schema 0)) = [])
    by (unfold Sibling.adminFiles; flags; reflexivity).
  rewrite R, G, A. reflexivity.
Qed.

Lemma sib_under_root_only (d : string) :
  d = "docker/" \/ d = "terraform/" ->
  under d (planOf (emitted (run (Sibling.generate h o schema)))) =
  under d (planOf (emitted (Sibling.rootFiles o schema 0))).
Proof.
  intros Hd. rewrite sib_plan_generate.
  unfold Sibling.modelEvents. rewrite sib_emitted_controllers, sib_emitted_features.
  rewrite !under_app, !planOf_app, !under_app, !planOf_flat_map.
  unfold under. rewrite !filter_flat_map.
  assert (G : filter (fun a => Str.startsWith d (templateId a))
                (planOf (emitted (Sibling.graphqlFiles o schema 0))) = []
            /\ filter (fun a => Str.startsWith d (templateId a))
                (planOf (emitted (Sibling.adminFiles o schema 0))) = []).
  { destruct Hd as [-> | ->]; unfold Sibling.graphqlFiles, Sibling.adminFiles;
      flags; split; reflexivity. }
  rewrite (proj1 G), (proj2 G).
  destruct Hd as [-> | ->]; cbn -[Sibling.rootFiles];
    rewrite !flat_map_nil; cbn [List.app]; now rewrite !List.app_nil_r.
Qed.

Lemma sib_closing_generate : ClosingOutput o (emitted (run (Sibling.generate h o schema))).
Proof.
  unfold ClosingOutput. rewrite sib_logs_generate.
  rewrite (sib_under_root_only "docker/") by now left.
  rewrite (sib_under_root_only "terraform/") by now right.
  unfold Sibling.rootFiles, Sibling.done. flags; reflexivity.
Qed.

End Sibling.

End SiblingSuccess.

(** In both variants the console output of a run is the three opening
    lines, the [docker-compose] hint exactly when the plan holds Docker
    files, the [terraform] hint exactly when it holds Terraform files,
    and an empty line; nothing else is logged. *)
Theorem console_output_follows_the_plan (h : Host) (o : Options) (schema : Schema.t) :
  ClosingOutput o (emitted (run (Generator.generate h o schema))) /\
  ClosingOutput o (emitted (run (Sibling.generate h o schema))).
Proof.
  split; [apply Success.closing_generate | apply SiblingSuccess.sib_closing_generate].
Qed.

(* ------------------------------------------------------------------ *)
(** ** The object a template receives                                    *)
(* ------------------------------------------------------------------ *)

Module RenderContext.

Lemma get_assign_same (k : string) (v : TemplateVal) (obj : TemplateContext) :
  get k (assign k v obj) = Some v.
Proof.
  induction obj as [|[k' v'] obj IH]; cbn.
  - now rewrite String.eqb_refl.
  - destruct (k' =? k) eqn:E; cbn; [now rewrite String.eqb_refl | now rewrite E].
Qed.

Lemma get_assign_other (k k0 : string) (v : TemplateVal) (obj : TemplateContext) :
  (k0 =? k) = false -> get k (assign k0 v obj) = get k obj.
Proof.
  intros Hk. induction obj as [|[k' v'] obj IH]; cbn.
  - now rewrite Hk.
  - destruct (k' =? k0) eqn:E; cbn.
    + apply String.eqb_eq in E. subst k'. now rewrite Hk.
    + destruct (k' =? k); [reflexivity | exact IH].
Qed.

Lemma get_spread (k : string) (data : Context) :
  get k (List.map (fun kv => (fst kv, TData (snd kv))) data) = option_map TData (lookup k data).
Proof.
  induction data as [|[k' v'] data IH]; [reflexivity|].
  cbn. destruct (k' =? k); [reflexivity | exact IH].
Qed.

(** Whatever data a call of [render] passes, the template finds the
    three helpers and the loaded schema under their names: they are
    written after the data is spread and replace any entry of the data
    with the same name. *)
Lemma templateContext_reserved (schema : Schema.t) (data : Context) :
  get "schema" (templateContext schema data) = Some (TData (CSchema schema)) /\
  get "toPascal" (templateContext schema data) = Some (THelper HtoPascal) /\
  get "toCamel" (templateContext schema data) = Some (THelper HtoCamel) /\
  get "toKebab" (templateContext schema data) = Some (THelper HtoKebab).
Proof.
  unfold templateContext. repeat split.
  - apply get_assign_same.
  - rewrite !get_assign_other by reflexivity. apply get_assign_same.
  - rewrite !get_assign_other by reflexivity. apply get_assign_same.
  - rewrite !get_assign_other by reflexivity. apply get_assign_same.
Qed.

(** Writing the four names leaves the other own properties as the
    spread made them. *)
Lemma get_unreserved (schema : Schema.t) (data : Context) (k : string) :
  reserved k = false ->
  get k (templateContext schema data) = option_map TData (lookup k data).
Proof.
  unfold reserved. cbn [existsb]. intros H.
  repeat (apply orb_false_iff in H; destruct H as [? H]).
  unfold templateContext.
  rewrite !get_assign_other by (rewrite String.eqb_sym; assumption).
  apply get_spread.
Qed.

(** Every entry of the data under a name other than the four reaches the
    template unchanged, as an own property of the object it receives. *)
Lemma templateContext_data
    (schema : Schema.t) (data : Context) (k : string) (v : CtxVal) :
  reserved k = false -> lookup k data = Some v ->
  get k (templateContext schema data) = Some (TData v).
Proof. intros Hk Hv. now rewrite (get_unreserved schema data k Hk), Hv. Qed.

End RenderContext.

Lemma templateContext_data_witness :
  get "ent" (templateContext blog [("ent", CEnt (mkEntity "Post" "posts")); ("schema", CSchema blogTwo)])
  = Some (TData (CEnt (mkEntity "Post" "posts"))).
Proof.
  apply (RenderContext.templateContext_data blog
           [("ent", CEnt (mkEntity "Post" "posts")); ("schema", CSchema blogTwo)] "ent");
    reflexivity.
Defined.

Module PathFacts.
Import Run.

Lemma startsWith_app (p r : string) : Str.startsWith p (p ++ r) = true.
Proof. unfold Str.startsWith. now rewrite StrFacts.strip_app. Qed.

Lemma startsWith_more (p q x : string) :
  Str.startsWith p q = true -> Str.startsWith p (q ++ x) = true.
Proof.
  unfold Str.startsWith. destruct (Str.strip p q) as [r|] eqn:E; [|discriminate].
  intros _. apply StrFacts.strip_Some in E. subst q.
  now rewrite StrFacts.app_assoc, StrFacts.strip_app.
Qed.

Lemma startsWith_refl (p : string) : Str.startsWith p p = true.
Proof. rewrite <- (StrFacts.app_nil_r p) at 2. apply startsWith_app. Qed.

Lemma path_join_under (od seg : string) : Str.startsWith od (path_join od seg) = true.
Proof.
  unfold path_join. destruct (String.eqb_spec od "/") as [-> | _].
  - reflexivity.
  - apply startsWith_app.
Qed.

Lemma migration_path_injective (back : string) (a b : Z) (t1 t2 : string) :
  back ++ "/migrations/" ++ showZ a ++ "-create-" ++ t1 ++ ".ts" =
  back ++ "/migrations/" ++ showZ b ++ "-create-" ++ t2 ++ ".ts" ->
  a = b /\ t1 = t2.
Proof.
  intros H. apply StrFacts.app_inv_head in H.
  apply (StrFacts.app_inv_head "/migrations/") in H.
  pose proof (f_equal leadingNumber H) as Hn.
  cbn [String.append] in Hn. rewrite !Stamp.leadingNumber_showZ in Hn.
  injection Hn as Hn. subst b. split; [reflexivity|].
  apply StrFacts.app_inv_head in H. apply (StrFacts.app_inv_head "-create-") in H.
  now apply StrFacts.app_inv_tail in H.
Qed.

End PathFacts.

(** The path of a migration file determines the clock reading and the
    table name it was built from: two migration files with different
    readings or different table names have different paths. *)
Theorem migration_paths_differ (back : string) (a b : Z) (t1 t2 : string) :
  a <> b \/ t1 <> t2 ->
  back ++ "/migrations/" ++ showZ a ++ "-create-" ++ t1 ++ ".ts" <>
  back ++ "/migrations/" ++ showZ b ++ "-create-" ++ t2 ++ ".ts".
Proof.
  intros H E. apply PathFacts.migration_path_injective in E.
  destruct E as [Ea Et]. destruct H as [H | H]; now apply H.
Qed.

Lemma migration_paths_differ_witness :
  "/work/my-app/backend" ++ "/migrations/" ++ showZ 1700000000000 ++ "-create-" ++ "posts" ++ ".ts" <>
  "/work/my-app/backend" ++ "/migrations/" ++ showZ 1700000000000 ++ "-create-" ++ "users" ++ ".ts".
Proof.
  apply (migration_paths_differ "/work/my-app/backend" 1700000000000 1700000000000 "posts" "users").
  right. discriminate.
Defined.

(* ------------------------------------------------------------------ *)
(** ** The two variants side by side                                     *)
(* ------------------------------------------------------------------ *)

Module Variants.
Import Run.

Section Both.
Variables (h : Host) (o : Options) (schema : Schema.t).

Lemma sib_paths_generate :
  paths (planOf (emitted (run (Sibling.generate h o schema)))) =
  (paths (planOf (emitted (Sibling.rootFiles o schema 0)))
   ++ paths (planOf (emitted (Sibling.backendFixed o schema 0)))
   ++ flat_map (fun p => paths (planOf (emitted (Sibling.modelBody h o schema (snd p) (fst p)))))
               (indexedFrom 0 (entities schema))
   ++ flat_map (fun ent => paths (planOf (emitted (Sibling.controllerBody o schema ent 0))))
               (entities schema)
   ++ paths (planOf (emitted (render "backend/src/routes/index.ts.ejs"
                 (Sibling.BACK o ++ "/src/routes/index.ts")
                 [("entities", CEntities (entities schema));
                  ("schema", CSchema schema)] 0)))
   ++ paths (planOf (emitted (Sibling.graphqlFiles o schema 0)))
   ++ paths (planOf (emitted (Sibling.frontendFixed o schema 0)))
   ++ flat_map (fun ent => paths (planOf (emitted (Sibling.featureBody o schema ent 0))))
               (entities schema)
   ++ paths (planOf (emitted (Sibling.adminFiles o schema 0))))%list.
Proof.
  rewrite SiblingPlan.sib_plan_generate. unfold Sibling.modelEvents.
  rewrite SiblingRun.sib_emitted_controllers, SiblingRun.sib_emitted_features.
  rewrite !planOf_app, !planOf_flat_map, !UniquePaths.paths_app.
  unfold paths. rewrite !map_flat_map, <- !List.app_assoc. reflexivity.
Qed.

Lemma paths_but_auth :
  truthy (resolved FGraphql o schema) = enableGraphQL o ->
  truthy (resolved FAdminPanel o schema) = enableAdmin o ->
  exists before after : list string,
    paths (planOf (emitted (run (Generator.generate h o schema)))) = (before ++ after)%list /\
    paths (planOf (emitted (run (Sibling.generate h o schema)))) =
      (before ++ [authRoute o] ++ after)%list.
Proof.
  intros Hg Ha. rewrite UniquePaths.paths_generate, sib_paths_generate.
  exists (paths (planOf (emitted (Generator.rootFiles o schema 0)))
          ++ paths (planOf (emitted (Generator.backendFixed o schema 0))))%list.
  eexists. split.
  - rewrite <- List.app_assoc. reflexivity.
  - assert (R : paths (planOf (emitted (Sibling.rootFiles o schema 0))) =
                paths (planOf (emitted (Generator.rootFiles o schema 0))))
      by (unfold Sibling.rootFiles, Generator.rootFiles; flags; reflexivity).
    assert (G : paths (planOf (emitted (Sibling.graphqlFiles o schema 0))) =
                paths (planOf (emitted (Generator.graphqlFiles o schema 0)))).
    { unfold Sibling.graphqlFiles, Generator.graphqlFiles. cbn [resolved] in Hg.
      rewrite Hg. flags; reflexivity. }
    assert (A : paths (planOf (emitted (Sibling.adminFiles o schema 0))) =
                paths (planOf (emitted (Generator.adminFiles o schema 0)))).
    { unfold Sibling.adminFiles, Generator.adminFiles. cbn [resolved] in Ha.
      rewrite Ha. flags; reflexivity. }
    rewrite R, G, A.
    change (paths (planOf (emitted (Sibling.backendFixed o schema 0))))
      with (paths (planOf (emitted (Generator.backendFixed o schema 0)))
            ++ [authRoute o])%list.
    rewrite <- !List.app_assoc. reflexivity.
Qed.

End Both.
End Variants.

(** When the schema resolves the GraphQL and admin flags to the values
    of the command line, the destination paths of the sibling variant
    are those of [generator.js], in the same order, with one path
    inserted: the authentication route. *)
Theorem sibling_adds_the_auth_route (h : Host) (o : Options) (schema : Schema.t) :
  truthy (resolved FGraphql o schema) = enableGraphQL o ->
  truthy (resolved FAdminPanel o schema) = enableAdmin o ->
  exists before after : list string,
    paths (planOf (emitted (run (Generator.generate h o schema)))) = (before ++ after)%list /\
    paths (planOf (emitted (run (Sibling.generate h o schema)))) =
      (before ++ [authRoute o] ++ after)%list.
Proof. exact (Variants.paths_but_auth h o schema). Qed.

Lemma sibling_adds_the_auth_route_witness :
  exists before after : list string,
    paths (planOf (emitted (run (Generator.generate stillHost cli blog)))) = (before ++ after)%list /\
    paths (planOf (emitted (run (Sibling.generate stillHost cli blog)))) =
      (before ++ [authRoute cli] ++ after)%list.
Proof. apply (sibling_adds_the_auth_route stillHost cli blog); reflexivity. Defined.

(* ------------------------------------------------------------------ *)
(** ** Everything is written below the output directory                  *)
(* ------------------------------------------------------------------ *)

Module Inside.
Import Run GeneratorRun GeneratorPlan PathFacts.

#[local] Arguments showZ : simpl never.
#[local] Arguments toKebab : simpl never.

Ltac under_od :=
  repeat first [ apply startsWith_more | apply path_join_under | apply startsWith_refl ].

Ltac all_under :=
  repeat (apply Forall_cons; [under_od|]); apply Forall_nil.

Section Generator.
Variables (h : Host) (o : Options) (schema : Schema.t).

Let P := fun p : string => Str.startsWith (outDir o) p = true.

Lemma paths_under : Forall P (paths (planOf (emitted (run (Generator.generate h o schema))))).
Proof.
  rewrite UniquePaths.paths_generate. unfold P.
  repeat (apply Forall_app; split).
  - unfold Generator.rootFiles. flags; cbn -[String.append Generator.BACK Generator.FRONT]; all_under.
  - cbn -[String.append Generator.BACK Generator.FRONT]; all_under.
  - apply Forall_flat_map, Forall_forall. intros p _.
    cbn -[String.append Generator.BACK Generator.FRONT]; all_under.
  - apply Forall_flat_map, Forall_forall. intros p _.
    cbn -[String.append Generator.BACK Generator.FRONT]; all_under.
  - cbn -[String.append Generator.BACK Generator.FRONT]; all_under.
  - unfold Generator.graphqlFiles. flags; cbn -[String.append Generator.BACK Generator.FRONT]; all_under.
  - cbn -[String.append Generator.BACK Generator.FRONT]; all_under.
  - apply Forall_flat_map, Forall_forall. intros p _.
    unfold Generator.featureBody, Generator.featurePath.
    cbn -[String.append Generator.BACK Generator.FRONT]; all_under.
  - unfold Generator.adminFiles. flags; cbn -[String.append Generator.BACK Generator.FRONT]; all_under.
Qed.

Lemma dirs_under : Forall P (dirsOf (emitted (run (Generator.generate h o schema)))).
Proof.
  rewrite GeneratorGates.dirs_gated. unfold P, fixedDirs, conditionalDirs.
  repeat (apply Forall_app; split).
  - all_under.
  - flags; all_under.
  - flags; all_under.
  - apply Forall_map, Forall_forall. intros ent _. unfold Generator.featurePath. under_od.
Qed.

End Generator.
End Inside.

Module SiblingInside.
Import Run PathFacts Inside.

#[local] Arguments showZ : simpl never.
#[local] Arguments toKebab : simpl never.

Section Sibling.
Variables (h : Host) (o : Options) (schema : Schema.t).

Let P := fun p : string => Str.startsWith (outDir o) p = true.

Lemma sib_paths_under : Forall P (paths (planOf (emitted (run (Sibling.generate h o schema))))).
Proof.
  rewrite Variants.sib_paths_generate. unfold P.
  repeat (apply Forall_app; split).
  - unfold Sibling.rootFiles. flags; cbn -[String.append Sibling.BACK Sibling.FRONT]; all_under.
  - cbn -[String.append Sibling.BACK Sibling.FRONT]; all_under.
  - apply Forall_flat_map, Forall_forall. intros p _.
    cbn -[String.append Sibling.BACK Sibling.FRONT]; all_under.
  - apply Forall_flat_map, Forall_forall. intros p _.
    cbn -[String.append Sibling.BACK Sibling.FRONT]; all_under.
  - cbn -[String.append Sibling.BACK Sibling.FRONT]; all_under.
  - unfold Sibling.graphqlFiles. flags; cbn -[String.append Sibling.BACK Sibling.FRONT]; all_under.
  - cbn -[String.append Sibling.BACK Sibling.FRONT]; all_under.
  - apply Forall_flat_map, Forall_forall. intros p _.
    unfold Sibling.featureBody, Sibling.featurePath.
    cbn -[String.append Sibling.BACK Sibling.FRONT]; all_under.
  - unfold Sibling.adminFiles. flags; cbn -[String.append Sibling.BACK Sibling.FRONT]; all_under.
Qed.

Lemma sib_dirs_under : Forall P (dirsOf (emitted (run (Sibling.generate h o schema)))).
Proof.
  rewrite SiblingGates.sib_dirs_gated. unfold P, fixedDirs, conditionalDirs.
  repeat (apply Forall_app; split).
  - all_under.
  - flags; all_under.
  - flags; all_under.
  - apply Forall_map, Forall_forall. intros ent _. unfold Sibling.featurePath. under_od.
Qed.

End Sibling.

End SiblingInside.

(** Every file a run of [generator.js] writes and every directory it
    creates has a path that starts with the output directory. *)
Theorem generator_writes_below_outDir (h : Host) (o : Options) (schema : Schema.t) :
  Forall (fun p => Str.startsWith (outDir o) p = true)
         (paths (planOf (emitted (run (Generator.generate h o schema))))) /\
  Forall (fun p => Str.startsWith (outDir o) p = true)
         (dirsOf (emitted (run (Generator.generate h o schema)))).
Proof. split; [apply Inside.paths_under | apply Inside.dirs_under]. Qed.

(** The same holds for the sibling variant. *)
Theorem sibling_writes_below_outDir (h : Host) (o : Options) (schema : Schema.t) :
  Forall (fun p => Str.startsWith (outDir o) p = true)
         (paths (planOf (emitted (run (Sibling.generate h o schema))))) /\
  Forall (fun p => Str.startsWith (outDir o) p = true)
         (dirsOf (emitted (run (Sibling.generate h o schema)))).
Proof. split; [apply SiblingInside.sib_paths_under | apply SiblingInside.sib_dirs_under]. Qed.


(* ------------------------------------------------------------------ *)
(** ** When one file of a run overwrites another                         *)
(* ------------------------------------------------------------------ *)

Module Convention.
Import Run.

Lemma generate_unique (h : Host) (o : Options) (schema : Schema.t) :
  NoDup (List.map (fun e => toKebab (name e)) (entities schema)) ->
  ~ In "index" (List.map (fun e => toKebab (name e)) (entities schema)) ->
  NoDup (List.map (fun p => (clock h (fst p), tableName (snd p)))
                  (indexedFrom 0 (entities schema))) ->
  NoDup (paths (planOf (emitted (run (Generator.generate h o schema))))).
Proof.
  intros Hkebab Hindex Hstamp. destruct o as [sp od fg fd fc ft fa].
  destruct (od =? "/") eqn:E.
  - apply String.eqb_eq in E. subst od.
    apply (UniquePaths.core h schema sp fg fd fc ft fa "/"); auto.
  - rewrite (UniquePaths.shift_generate h schema sp od fg fd fc ft fa E).
    apply NoDup_prefixed.
    apply (UniquePaths.core h schema sp fg fd fc ft fa ""); auto.
Qed.

Lemma NoDup_map_injective_on {A B : Type} (f : A -> B) (l : list A) :
  (forall x y, In x l -> In y l -> f x = f y -> x = y) ->
  NoDup l -> NoDup (List.map f l).
Proof.
  intros Hf H. induction H as [|x l Hx Hl IH]; cbn; [constructor|].
  constructor.
  - intros Hin. apply in_map_iff in Hin. destruct Hin as (y & Hy & Hyl).
    assert (y = x) by (apply Hf; [now right | now left | exact Hy]). now subst y.
  - apply IH. intros a b Ha Hb. apply Hf; now right.
Qed.

Lemma kebab_not_index (n : string) : pascalIdent n = true -> toKebab n <> "index".
Proof.
  intros Hn E. pose proof (NamingMore.toPascal_toKebab n Hn) as R.
  rewrite E in R. subst n. discriminate E.
Qed.

Lemma kebabs_distinct (names : list string) :
  Forall (fun n => pascalIdent n = true) names -> NoDup names ->
  NoDup (List.map toKebab names) /\ ~ In "index" (List.map toKebab names).
Proof.
  intros Hp Hn. rewrite Forall_forall in Hp. split.
  - apply NoDup_map_injective_on; [|exact Hn].
    intros x y Hx Hy. apply NamingMore.toKebab_injective_on_pascal; auto.
  - intros Hin. apply in_map_iff in Hin. destruct Hin as (n & E & Hin).
    now apply (kebab_not_index n (Hp n Hin)).
Qed.

End Convention.

Module Overwrites.
Import Run.

Lemma NoDup_flat_map_pick {A B : Type} (f : A -> list B) (g : A -> B) (l : list A) :
  (forall x, In (g x) (f x)) -> NoDup (flat_map f l) -> NoDup (List.map g l).
Proof.
  intros Hg. induction l as [|x l IH]; cbn; intros H; [constructor|].
  constructor.
  - intros Hin. apply in_map_iff in Hin. destruct Hin as (y & E & Hy).
    assert (D : forall a, In a (f x) -> ~ In a (flat_map f l)).
    { clear - H. induction (f x) as [|b fx IHf]; intros a Ha; [destruct Ha|].
      cbn in H. inversion H as [|? ? Hb Hn]; subst.
      destruct Ha as [<- | Ha].
      - intros Hin. apply Hb, in_or_app. now right.
      - now apply IHf. }
    apply (D (g x) (Hg x)). apply in_flat_map. exists y. split; [exact Hy|].
    rewrite <- E. apply Hg.
  - apply IH. now apply NoDup_app_remove_l in H.
Qed.

Lemma NoDup_app_disjoint {A : Type} (a b : list A) (x : A) :
  NoDup (a ++ b) -> In x a -> In x b -> False.
Proof.
  induction a as [|y a IH]; cbn; intros H Ha Hb; [destruct Ha|].
  inversion H as [|? ? Hy Hn]; subst. destruct Ha as [-> | Ha].
  - apply Hy, in_or_app. now right.
  - now apply IH.
Qed.

Section Generator.
Variables (h : Host) (o : Options) (schema : Schema.t).

#[local] Arguments showZ : simpl never.
#[local] Arguments toKebab : simpl never.

(** The route file of every entity is in the plan. *)
Lemma route_planned (k : string) :
  In k (kebabNames schema) ->
  In (routePath o k) (paths (planOf (emitted (run (Generator.generate h o schema))))).
Proof.
  intros Hk. apply in_map_iff in Hk. destruct Hk as (e & <- & He).
  rewrite UniquePaths.paths_generate.
  apply in_or_app; right. apply in_or_app; right. apply in_or_app; right.
  apply in_or_app; left. apply in_flat_map. exists e. split; [exact He|].
  right. left. reflexivity.
Qed.

Lemma unique_needs :
  NoDup (paths (planOf (emitted (run (Generator.generate h o schema))))) ->
  NoDup (kebabNames schema) /\ ~ In "index" (kebabNames schema) /\
  NoDup (migrationKeys h schema).
Proof.
  rewrite UniquePaths.paths_generate. intros H.
  do 2 apply NoDup_app_remove_l in H.
  pose proof (NoDup_app_remove_r _ _ H) as HM.
  apply NoDup_app_remove_l in H.
  rewrite List.app_assoc in H. apply NoDup_app_remove_r in H.
  pose proof (NoDup_app_remove_r _ _ H) as HC.
  repeat split.
  - apply (NoDup_flat_map_pick _ (fun e => routePath o (toKebab (name e)))) in HC.
    + unfold kebabNames. apply (NoDup_map_inv (routePath o)). now rewrite List.map_map.
    + intros e. right. left. reflexivity.
  - intros Hin. apply in_map_iff in Hin. destruct Hin as (e & E & He).
    apply (NoDup_app_disjoint _ _ (routePath o "index") H).
    + apply in_flat_map. exists e. split; [exact He|]. right. left.
      cbn. unfold routePath. now rewrite E.
    + left. reflexivity.
  - apply (NoDup_flat_map_pick _
             (fun p : nat * Entity =>
                Generator.BACK o ++ "/migrations/" ++ showZ (clock h (fst p)) ++ "-create-"
                ++ tableName (snd p) ++ ".ts")) in HM.
    + unfold migrationKeys.
      apply (NoDup_map_inv (fun kt : Z * string =>
                Generator.BACK o ++ "/migrations/" ++ showZ (fst kt) ++ "-create-"
                ++ snd kt ++ ".ts")).
      now rewrite List.map_map.
    + intros p. right. left. reflexivity.
Qed.

End Generator.
End Overwrites.

Module SiblingOverwrites.
Import Run.

#[local] Arguments showZ : simpl never.
#[local] Arguments toKebab : simpl never.

Lemma graphql_asResolved (o : Options) (schema : Schema.t) :
  truthy (graphql (asResolved o schema) schema) = truthy (graphql o schema).
Proof.
  unfold asResolved. unfold graphql, orDefault. cbn [enableGraphQL].
  destruct (Schema.graphql schema); reflexivity.
Qed.

Lemma adminPanel_asResolved (o : Options) (schema : Schema.t) :
  truthy (adminPanel (asResolved o schema) schema) = truthy (adminPanel o schema).
Proof.
  unfold asResolved. unfold adminPanel, orDefault. cbn [enableAdmin].
  destruct (Schema.adminPanel schema); reflexivity.
Qed.

Lemma sib_paths_asResolved (h : Host) (o : Options) (schema : Schema.t) :
  paths (planOf (emitted (run (Sibling.generate h o schema)))) =
  paths (planOf (emitted (run (Sibling.generate h (asResolved o schema) schema)))).
Proof.
  rewrite !Variants.sib_paths_generate.
  assert (G : paths (planOf (emitted (Sibling.graphqlFiles (asResolved o schema) schema 0))) =
              paths (planOf (emitted (Sibling.graphqlFiles o schema 0)))).
  { unfold Sibling.graphqlFiles. rewrite graphql_asResolved. reflexivity. }
  assert (A : paths (planOf (emitted (Sibling.adminFiles (asResolved o schema) schema 0))) =
              paths (planOf (emitted (Sibling.adminFiles o schema 0)))).
  { unfold Sibling.adminFiles. rewrite adminPanel_asResolved. reflexivity. }
  rewrite G, A. reflexivity.
Qed.

Section Auth.
Variables (h : Host) (schema : Schema.t).
Hypothesis Hauth : ~ In "auth" (kebabNames schema).

Let Q := fun p : string => p <> "/backend/src/routes/auth.ts".

Ltac apart := repeat (apply Forall_cons; [unfold Q; discriminate|]); apply Forall_nil.

Lemma auth_apart_core (sp od0 : string) (fg fd fc ft fa : bool) :
  od0 = "" \/ od0 = "/" ->
  Forall Q (paths (planOf (emitted (run
     (Generator.generate h (mkOptions sp od0 fg fd fc ft fa) schema))))).
Proof.
  intros Hod. rewrite UniquePaths.paths_generate.
  repeat (apply Forall_app; split).
  - unfold Generator.rootFiles. destruct Hod as [-> | ->]; flags; cbn; apart.
  - destruct Hod as [-> | ->]; cbn; apart.
  - apply Forall_flat_map, Forall_forall. intros p _.
    destruct Hod as [-> | ->]; cbn; apart.
  - apply Forall_flat_map, Forall_forall. intros e He.
    destruct Hod as [-> | ->]; cbn.
    all: apply Forall_cons; [unfold Q; discriminate|].
    all: apply Forall_cons; [|apply Forall_nil].
    all: intros E; apply Hauth; apply in_map_iff; exists e; split; [|exact He].
    all: assert (E' : toKebab (name e) ++ ".ts" = "auth" ++ ".ts") by (cbn; congruence).
    all: now apply StrFacts.app_inv_tail in E'.
  - destruct Hod as [-> | ->]; cbn; apart.
  - unfold Generator.graphqlFiles. destruct Hod as [-> | ->]; destruct fg; cbn; apart.
  - destruct Hod as [-> | ->]; cbn; apart.
  - apply Forall_flat_map, Forall_forall. intros e _.
    destruct Hod as [-> | ->]; cbn; apart.
  - unfold Generator.adminFiles. destruct Hod as [-> | ->]; destruct fa; cbn; apart.
Qed.

Lemma auth_apart (o : Options) :
  ~ In (routePath o "auth") (paths (planOf (emitted (run (Generator.generate h o schema))))).
Proof.
  destruct o as [sp od fg fd fc ft fa]. intros Hin.
  destruct (od =? "/") eqn:E.
  - apply String.eqb_eq in E. subst od.
    pose proof (auth_apart_core sp "/" fg fd fc ft fa (or_intror eq_refl)) as F.
    rewrite Forall_forall in F. now apply (F _ Hin).
  - rewrite (UniquePaths.shift_generate h schema sp od fg fd fc ft fa E) in Hin.
    apply in_map_iff in Hin. destruct Hin as (x & Ex & Hx).
    unfold routePath, Generator.BACK, path_join in Ex. cbn [outDir] in Ex. rewrite E in Ex.
    rewrite !StrFacts.app_assoc in Ex. apply StrFacts.app_inv_head in Ex.
    pose proof (auth_apart_core sp "" fg fd fc ft fa (or_introl eq_refl)) as F.
    rewrite Forall_forall in F. apply (F _ Hx). exact Ex.
Qed.

End Auth.

End SiblingOverwrites.

(** The destination paths of a run of [generator.js] are pairwise
    distinct exactly when the kebab names of the entities are pairwise
    distinct, none of them is [index], and no two entities with the same
    table name get the same clock reading: otherwise one file of the
    run overwrites another. *)
Theorem paths_unique_iff (h : Host) (o : Options) (schema : Schema.t) :
  NoDup (paths (planOf (emitted (run (Generator.generate h o schema))))) <->
  NoDup (kebabNames schema) /\ ~ In "index" (kebabNames schema) /\
  NoDup (migrationKeys h schema).
Proof.
  split.
  - apply Overwrites.unique_needs.
  - intros (K & I & M). now apply Convention.generate_unique.
Qed.

(** The destination paths of a run of the sibling variant are pairwise
    distinct exactly under the same conditions and when, in addition,
    no entity has the kebab name [auth]: the route file of such an
    entity goes to the path of the authentication route. *)
Theorem sibling_paths_unique_iff (h : Host) (o : Options) (schema : Schema.t) :
  NoDup (paths (planOf (emitted (run (Sibling.generate h o schema))))) <->
  NoDup (kebabNames schema) /\ ~ In "index" (kebabNames schema) /\
  ~ In "auth" (kebabNames schema) /\ NoDup (migrationKeys h schema).
Proof.
  rewrite SiblingOverwrites.sib_paths_asResolved.
  destruct (Variants.paths_but_auth h (asResolved o schema) schema
              (SiblingOverwrites.graphql_asResolved o schema)
              (SiblingOverwrites.adminPanel_asResolved o schema))
    as (before & after & EG & ES).
  rewrite ES. cbn [List.app].
  rewrite (NoDup_Add (Add_app (authRoute (asResolved o schema)) before after)), <- EG.
  change (authRoute (asResolved o schema)) with (routePath (asResolved o schema) "auth").
  split.
  - intros [U A]. apply Overwrites.unique_needs in U. destruct U as (K & I & M).
    repeat split; auto. intros Hin. apply A. now apply Overwrites.route_planned.
  - intros (K & I & A & M). split.
    + now apply Convention.generate_unique.
    + now apply SiblingOverwrites.auth_apart.
Qed.

(** When the entity names are pairwise distinct identifiers in the
    Pascal convention and the table names are pairwise distinct, no two
    files of a run of [generator.js] have the same destination path,
    whatever the clock reads. *)
Theorem pascal_names_give_unique_paths (h : Host) (o : Options) (schema : Schema.t) :
  Forall (fun n => pascalIdent n = true) (List.map name (entities schema)) ->
  NoDup (List.map name (entities schema)) ->
  NoDup (List.map tableName (entities schema)) ->
  NoDup (paths (planOf (emitted (run (Generator.generate h o schema))))).
Proof.
  intros Hp Hn Ht. destruct (Convention.kebabs_distinct _ Hp Hn) as [K I].
  rewrite List.map_map in K, I.
  apply Convention.generate_unique; [exact K | exact I |].
  apply Unique.NoDup_map_by with (g := fun p : nat * Entity => tableName (snd p)).
  - intros x y E. now injection E.
  - now rewrite (UniquePaths.map_snd_indexed tableName).
Qed.

Lemma pascal_names_witness :
  NoDup (paths (planOf (emitted (run (Generator.generate stillHost cli blogTwo))))).
Proof.
  apply (pascal_names_give_unique_paths stillHost cli blogTwo).
  - repeat constructor.
  - repeat constructor; cbn; intuition discriminate.
  - repeat constructor; cbn; intuition discriminate.
Defined.
